(** * MCP-TMUX: the agent presence registry and message queue

    A shallow embedding of [AgentCommunicationManager] (agent-communication.ts),
    of [TmuxController] (tmux-tools.ts) and of the cases of the agent tools in
    the tool-call handler (index.ts).

    The two record directories are finite maps from file names to files; the
    clock, the UUID source, [Date] parsing, the home directory and the shell
    are the environment the program runs in.  The world holds these two
    directories and nothing else: a path that [path.join] leads out of them
    names no file.  Every method is a computation in a state-and-exception
    monad over that world: an effect performed before a [throw] stays
    performed, as in the source.  The methods of [TmuxController] other than
    [sendKeys] touch the shell alone, and run over its log. *)

From Stdlib Require Import ZArith QArith.
From stdpp Require Import gmap strings list fin_maps pretty sorting.

Open Scope Z_scope.

Set Warnings "-clear-no-such-hyp".

(** ** JavaScript values

    A string is held as the bytes of its UTF-8 encoding. *)

(** [s.includes(searchString)]. *)
Fixpoint String_includes (s searchString : string) : bool :=
  String.prefix searchString s ||
  match s with
  | EmptyString => false
  | String _ s' => String_includes s' searchString
  end.

(** [c] is the one character of [s]. *)
Definition is_char (c : Ascii.ascii) (s : string) : bool :=
  String.eqb (String c EmptyString) s.

(** [s.split(separator)] for a separator of one character. *)
Fixpoint String_split (s separator : string) : list string :=
  match s with
  | EmptyString => [EmptyString]
  | String c s' =>
      if is_char c separator then EmptyString :: String_split s' separator
      else
        match String_split s' separator with
        | x :: l => String c x :: l
        | [] => [String c EmptyString]
        end
  end.

(** What [randomUUID()] returns: thirty-six characters, hexadecimal digits
    and hyphens.  What the program relies on is kept: the string holds no
    [/], so that [`${uuid}.json`] is a file name. *)
Record UUID := mkUUID {
  UUID_string :> string;
  UUID_no_separator : String_includes UUID_string "/" = false
}.

(** [sessionInfo]: [{ session: string; window?: string; pane?: string }]. *)
Record SessionInfo := mkSessionInfo {
  session : string;
  window : option string;
  pane : option string
}.

(** What a property of a record holds: a string, or a [sessionInfo] object.
    No other kind of property value is written by this program. *)
Inductive Val :=
  | VStr (s : string)
  | VSess (si : SessionInfo).

(** A value read from a property: [None] is [undefined]. *)
Definition JSValue := option Val.

(** A JavaScript object as [JSON.parse] builds it: property name to value. *)
Abbreviation JSObject := (gmap string Val).

(** What [JSON.parse] returns for a file that holds valid JSON: [null], a
    boolean, a number, a string or an object.  Arrays, which no record of this
    program is, are left out; numbers are integers. *)
Inductive Json :=
  | JNull
  | JBool (b : bool)
  | JNum (n : Z)
  | JStr (s : string)
  | JObj (o : JSObject).

#[global] Instance SessionInfo_eq_dec : EqDecision SessionInfo.
Proof. solve_decision. Defined.
#[global] Instance Val_eq_dec : EqDecision Val.
Proof. solve_decision. Defined.
#[global] Instance Json_eq_dec : EqDecision Json.
Proof. solve_decision. Defined.

(** What a thrown error is, with its [error.message]. *)
Inductive Exn :=
  | ENOENT (path : string)
  | SyntaxError
  | TypeError
  | ExecError (msg : string).

Definition error_message (e : Exn) : string :=
  match e with
  | ENOENT path => "ENOENT: no such file or directory, " +:+ path
  | SyntaxError => "Unexpected token in JSON"
  | TypeError => "Cannot read properties of null"
  | ExecError msg => msg
  end.

(** The outcome of an expression that may throw. *)
Inductive Res (A : Type) :=
  | Ok (a : A)
  | Throw (e : Exn).
Arguments Ok {A} a.
Arguments Throw {A} e.

Definition res_bind {A B} (r : Res A) (k : A → Res B) : Res B :=
  match r with Ok a => k a | Throw e => Throw e end.

(** Template-literal conversion [`${v}`]. *)
Definition ToString (v : JSValue) : string :=
  match v with
  | None => "undefined"
  | Some (VStr s) => s
  | Some (VSess _) => "[object Object]"
  end.

(** Truthiness. *)
Definition truthy (v : JSValue) : bool :=
  match v with
  | None => false
  | Some (VStr s) => negb (String.eqb s "")
  | Some (VSess _) => true
  end.

(** [v === s] for a string [s]. *)
Definition strict_eq (v : JSValue) (s : string) : bool :=
  match v with
  | Some (VStr x) => String.eqb x s
  | _ => false
  end.

(** [a || b] on optional strings: the first truthy operand. *)
Definition str_or (a : option string) (b : string) : string :=
  match a with
  | Some s => if String.eqb s "" then b else s
  | None => b
  end.

(** [j.k]: reading a property of [null] throws; a boolean, a number or a string
    has none of the properties this program reads. *)
Definition get_prop (j : Json) (k : string) : Res JSValue :=
  match j with
  | JNull => Throw TypeError
  | JObj o => Ok (o !! k)
  | _ => Ok None
  end.

(** [j.k = v] in a module (strict mode): only an object takes the property. *)
Definition set_prop (j : Json) (k : string) (v : Val) : Res Json :=
  match j with
  | JObj o => Ok (JObj (<[k := v]> o))
  | _ => Throw TypeError
  end.

(** [s.endsWith(suffix)]. *)
Fixpoint endsWith (s suffix : string) : bool :=
  String.eqb s suffix ||
  match s with
  | EmptyString => false
  | String _ s' => endsWith s' suffix
  end.

(** [Array.prototype.slice(0, limit)] for an integer [limit]: a negative
    [limit] counts from the end. *)
Definition slice0 {A} (limit : Z) (l : list A) : list A :=
  if limit <? 0
  then take (Z.to_nat (Z.max (Z.of_nat (length l) + limit) 0)) l
  else take (Z.to_nat limit) l.

(** ** [Array.prototype.sort]

    The comparator may throw, and may answer [NaN] ([None]), which [sort] reads
    as [+0].  The sort is stable.  For a comparator that is a consistent order
    every conforming implementation returns this result. *)
Section Array_sort.
Context {A : Type} (comparefn : A → A → Res (option Z)).

Definition nan_to_zero (v : option Z) : Z := default 0 v.

Fixpoint sort_insert (x : A) (l : list A) : Res (list A) :=
  match l with
  | [] => Ok [x]
  | y :: l' =>
      res_bind (comparefn x y) (λ v,
        if nan_to_zero v <=? 0 then Ok (x :: y :: l')
        else res_bind (sort_insert x l') (λ r, Ok (y :: r)))
  end.

Fixpoint Array_sort (l : list A) : Res (list A) :=
  match l with
  | [] => Ok []
  | x :: l' => res_bind (Array_sort l') (sort_insert x)
  end.
End Array_sort.

(** ** The world *)

(** A file: its modification time (ms since the epoch) and its text, kept as
    what [JSON.parse] makes of it ([None]: [JSON.parse] throws). *)
Record File := mkFile {
  mtime : Z;
  parsed : option Json
}.

Abbreviation Dir := (gmap string File).

Inductive DirName := AgentsDir | MessagesDir.

#[global] Instance DirName_eq_dec : EqDecision DirName.
Proof. solve_decision. Defined.

Definition dirPath (d : DirName) : string :=
  match d with
  | AgentsDir => "~/.mcp-tmux/agents"
  | MessagesDir => "~/.mcp-tmux/messages"
  end.

(** The path of the entry [file] of a directory, as an error message prints
    it. *)
Definition join (d : DirName) (file : string) : string :=
  dirPath d +:+ "/" +:+ file.

(** The state a call runs in and changes.  A directory is [None] while it does
    not exist.  [drawn] counts the UUIDs drawn so far; [shell] lists the
    commands handed to [exec], oldest first. *)
Record World := mkWorld {
  agents : option Dir;
  messages : option Dir;
  clock : Z;
  drawn : nat;
  shell : list string
}.

Definition dir (d : DirName) (w : World) : option Dir :=
  match d with AgentsDir => agents w | MessagesDir => messages w end.

Definition set_dir (d : DirName) (x : option Dir) (w : World) : World :=
  match d with
  | AgentsDir => mkWorld x (messages w) (clock w) (drawn w) (shell w)
  | MessagesDir => mkWorld (agents w) x (clock w) (drawn w) (shell w)
  end.

(** What the program takes from its runtime: the UUIDs [randomUUID] returns,
    in the order drawn; [Date.parse] ([None]: [NaN]); [Date.prototype.toISOString];
    whether [exec] rejects a shell command (with the error's message); and
    [process.env.HOME || '/tmp'], an absolute path. *)
Record Env := mkEnv {
  uuid : nat → UUID;
  Date_parse : string → option Z;
  toISOString : Z → string;
  exec_error : string → option string;
  HOME : string
}.

(** ** The monad: state and exceptions *)

Definition M (A : Type) : Type := World → Res A * World.

Definition ret {A} (a : A) : M A := λ w, (Ok a, w).

Definition throw {A} (e : Exn) : M A := λ w, (Throw e, w).

Definition bind {A B} (m : M A) (k : A → M B) : M B :=
  λ w, match m w with
       | (Ok a, w') => k a w'
       | (Throw e, w') => (Throw e, w')
       end.

(** [try { m } catch (error) { h error }]. *)
Definition try_catch {A} (m : M A) (h : Exn → M A) : M A :=
  λ w, match m w with
       | (Ok a, w') => (Ok a, w')
       | (Throw e, w') => h e w'
       end.

Definition lift {A} (r : Res A) : M A := λ w, (r, w).

Notation "'let*' x := m 'in' k" := (bind m (λ x, k))
  (at level 10, x name, m at level 100, k at level 200).
Notation "m ;;; k" := (bind m (λ _, k))
  (at level 100, k at level 200, right associativity).

(** A [for ... of] loop that threads an accumulator. *)
Fixpoint for_of {A B} (l : list A) (acc : B) (body : B → A → M B) : M B :=
  match l with
  | [] => ret acc
  | x :: l' => let* acc' := body acc x in for_of l' acc' body
  end.

(** ** The runtime: [fs/promises], the clock, [crypto], [child_process]

    The calls of [fs/promises] below take a directory and the name of an
    entry: they stand for the call on [join(dir, file)] where [file] is a
    name that [readdir] returned or [`${uuid}.json`], for which [join] only
    appends the name.  A call on a path made of an identifier that the
    caller gives goes through [path_join] and [at_path], further down. *)

Definition readdir (d : DirName) : M (list string) :=
  λ w, match dir d w with
       | Some files => (Ok (map fst (map_to_list files)), w)
       | None => (Throw (ENOENT (dirPath d)), w)
       end.

Definition lookup_file (d : DirName) (file : string) (w : World) : option File :=
  match dir d w with
  | Some files => files !! file
  | None => None
  end.

(** [readFile(path, 'utf-8')] followed by [JSON.parse]. *)
Definition readFile_JSON_parse (d : DirName) (file : string) : M Json :=
  λ w, match lookup_file d file w with
       | Some f =>
           match parsed f with
           | Some j => (Ok j, w)
           | None => (Throw SyntaxError, w)
           end
       | None => (Throw (ENOENT (join d file)), w)
       end.

(** [writeFile(path, JSON.stringify(j, null, 2))]: creates or replaces the
    file, and is refused when the directory does not exist. *)
Definition writeFile (d : DirName) (file : string) (j : Json) : M unit :=
  λ w, match dir d w with
       | Some files =>
           (Ok tt, set_dir d (Some (<[file := mkFile (clock w) (Some j)]> files)) w)
       | None => (Throw (ENOENT (join d file)), w)
       end.

Definition unlink (d : DirName) (file : string) : M unit :=
  λ w, match dir d w with
       | Some files =>
           match files !! file with
           | Some _ => (Ok tt, set_dir d (Some (delete file files)) w)
           | None => (Throw (ENOENT (join d file)), w)
           end
       | None => (Throw (ENOENT (join d file)), w)
       end.

(** [(await stat(path)).mtime]. *)
Definition stat_mtime (d : DirName) (file : string) : M Z :=
  λ w, match lookup_file d file w with
       | Some f => (Ok (mtime f), w)
       | None => (Throw (ENOENT (join d file)), w)
       end.

(** [mkdir(path, { recursive: true })]. *)
Definition mkdir (d : DirName) : M unit :=
  λ w, match dir d w with
       | Some _ => (Ok tt, w)
       | None => (Ok tt, set_dir d (Some ∅) w)
       end.

(** [Date.now()], also the time value of [new Date()]. *)
Definition Date_now : M Z := λ w, (Ok (clock w), w).

(** The time value of [new Date(value)] for a whole number [value]: [None],
    that is [NaN], when [value] lies more than 8.64e15 ms from the epoch; the
    date is then invalid. *)
Definition new_Date (value : Z) : option Z :=
  if Z.abs value <=? 8640000000000000 then Some value else None.

(** [a < b] on two dates, compared by their time values: false when either
    is [NaN]. *)
Definition Date_lt (a b : option Z) : bool :=
  match a, b with
  | Some x, Some y => x <? y
  | _, _ => false
  end.
Arguments Date_lt : simpl never.

(** [await new Promise(resolve => setTimeout(resolve, ms))]. *)
Definition setTimeout (ms : Z) : M unit :=
  λ w, (Ok tt, mkWorld (agents w) (messages w) (clock w + ms) (drawn w) (shell w)).

(** The double-quote character, as a string. *)
Definition quote : string := String (Ascii.ascii_of_nat 34) EmptyString.

Section Program.
Variable E : Env.

Definition randomUUID : M UUID :=
  λ w, (Ok (uuid E (drawn w)),
        mkWorld (agents w) (messages w) (clock w) (S (drawn w)) (shell w)).

(** *** [path.join]

    A path is absolute; it is held as its segments, the last one first. *)

(** The last segment of [agentsDir] and of [messagesDir]. *)
Definition dirName (d : DirName) : string :=
  match d with
  | AgentsDir => "agents"
  | MessagesDir => "messages"
  end.

(** What [path.normalize] does with one segment, [res] being the segments
    kept so far: an empty segment and [.] are dropped, [..] drops the segment
    before it (none at the root), any other segment is kept. *)
Definition normalizeString (res : list string) (segment : string) : list string :=
  if String.eqb segment "" || String.eqb segment "." then res
  else if String.eqb segment ".." then tail res
  else segment :: res.

(** [join(process.env.HOME || '/tmp', '.mcp-tmux', 'agents')], and the same
    with ['messages']. *)
Definition directory (d : DirName) : list string :=
  foldl normalizeString [] (String_split (HOME E) "/" ++ [".mcp-tmux"; dirName d]).

(** [join(this.agentsDir, name)], and the same with [this.messagesDir]: the
    segments of [name] are normalised after those of the directory, so that
    [name] may lead out of it. *)
Definition path_join (d : DirName) (name : string) : list string :=
  foldl normalizeString (directory d) (String_split name "/").

(** The file a path names: an entry of one of the two directories.  Any other
    path names no file. *)
Definition entry_of (path : list string) : option (DirName * string) :=
  match path with
  | file :: dir =>
      if decide (dir = directory AgentsDir) then Some (AgentsDir, file)
      else if decide (dir = directory MessagesDir) then Some (MessagesDir, file)
      else None
  | [] => None
  end.

(** The path as a string. *)
Definition path_string (path : list string) : string :=
  "/" +:+ String.concat "/" (reverse path).

(** A call of [fs/promises] on a path that [path.join] made. *)
Definition at_path {A} (path : list string) (call : DirName → string → M A) : M A :=
  match entry_of path with
  | Some (d, file) => call d file
  | None => throw (ENOENT (path_string path))
  end.

(** [execAsync(cmd)]: the command is handed to the shell, which may fail. *)
Definition execAsync (cmd : string) : M unit :=
  λ w, let w' := mkWorld (agents w) (messages w) (clock w) (drawn w) (shell w ++ [cmd]) in
       match exec_error E cmd with
       | Some msg => (Throw (ExecError msg), w')
       | None => (Ok tt, w')
       end.

(** [new Date(v).getTime()]: [None] is [NaN]. *)
Definition Date_getTime (v : JSValue) : option Z :=
  match v with
  | None => None
  | Some x => Date_parse E (ToString (Some x))
  end.

(** [new Date().toISOString()]. *)
Definition new_Date_toISOString : M string :=
  let* now := Date_now in ret (toISOString E now).

(** *** tmux-tools.ts: [TmuxController.sendKeys] *)

Definition send_keys_cmd (target keys : string) (enter : bool) : string :=
  if enter
  then "tmux send-keys -t " +:+ quote +:+ target +:+ quote +:+ " " +:+
       quote +:+ keys +:+ quote +:+ " C-m"
  else "tmux send-keys -t " +:+ quote +:+ target +:+ quote +:+ " " +:+
       quote +:+ keys +:+ quote.

Definition sendKeys (target keys : string) (enter : bool) : M string :=
  execAsync (send_keys_cmd target keys enter);;;
  ret ("Sent keys " +:+ quote +:+ keys +:+ quote +:+ " to " +:+
       quote +:+ target +:+ quote).

(** *** agent-communication.ts: [AgentCommunicationManager] *)

(** The private fields assigned in the constructor and nowhere else.
    [agentId] and the identifier of a message written by this program are
    UUIDs: [join] of a directory and [`${uuid}.json`] names the entry of
    that name, as it does for a name that [readdir] returned. *)
Record Manager := mkManager {
  agentId : UUID;
  agentName : string
}.

Definition initializeDirectories : M unit :=
  try_catch (mkdir MessagesDir;;; mkdir AgentsDir) (λ _, ret tt).

(** The constructor calls [initializeDirectories] and does not await it: the
    call runs up to its first [await], where [mkdir] is handed to the event
    loop, and the constructor returns with the directories as they were.
    [initializeDirectories] is carried out later, while the caller awaits
    something else. *)
Definition constructor (name : string) : M Manager :=
  let* id := randomUUID in
  ret (mkManager id name).

(** The object literal of type [AgentInfo]. *)
Definition AgentInfo (id name sess lastSeen status : string) : JSObject :=
  <["id" := VStr id]> (<["name" := VStr name]> (<["session" := VStr sess]>
    (<["lastSeen" := VStr lastSeen]> (<["status" := VStr status]> ∅)))).

(** [key: v] as [JSON.stringify] keeps it: an [undefined] value is left out. *)
Definition with_prop (k : string) (v : JSValue) (o : JSObject) : JSObject :=
  match v with
  | Some x => <[k := x]> o
  | None => o
  end.

(** The object literal of type [AgentMessage], as it is read back from the
    file it is written to. *)
Definition AgentMessage (id from : string) (to : JSValue) (type content timestamp : string)
    (sessionInfo : option SessionInfo) : JSObject :=
  <["id" := VStr id]> (<["from" := VStr from]> (with_prop "to" to
    (<["type" := VStr type]> (<["content" := VStr content]>
      (<["timestamp" := VStr timestamp]>
        (with_prop "sessionInfo" (VSess <$> sessionInfo) ∅)))))).

(** The [type] parameter of [sendMessage]: ['command' | 'message']. *)
Inductive SendType := command | message_.

Definition type_string (t : SendType) : string :=
  match t with command => "command" | message_ => "message" end.

Variable this : Manager.

Definition registerAgent (sessionName : string) : M string :=
  let* lastSeen := new_Date_toISOString in
  let agentInfo := AgentInfo (agentId this) (agentName this) sessionName lastSeen "online" in
  let agentFile := agentId this +:+ ".json" in
  writeFile AgentsDir agentFile (JObj agentInfo);;;
  ret ("Agent " +:+ quote +:+ agentName this +:+ quote +:+
       " registered with ID: " +:+ agentId this).

Definition unregisterAgent : M string :=
  let agentFile := agentId this +:+ ".json" in
  try_catch
    (unlink AgentsDir agentFile;;;
     ret ("Agent " +:+ quote +:+ agentName this +:+ quote +:+ " unregistered successfully"))
    (λ error, ret ("Failed to unregister agent: " +:+ error_message error)).

(** [diffMinutes < 5], where
    [diffMinutes = (now.getTime() - lastSeen.getTime()) / (1000 * 60)];
    a comparison with [NaN] is false. *)
Definition diffMinutes (now : Z) (lastSeen : option Z) : option Q :=
  (λ t, Qdiv (inject_Z (now - t)) (inject_Z (1000 * 60))) <$> lastSeen.

Definition num_lt (x : option Q) (y : Q) : bool :=
  match x with
  | Some q => negb (Qle_bool y q)
  | None => false
  end.

Definition listActiveAgents : M (list Json) :=
  try_catch
    (let* files := readdir AgentsDir in
     for_of files [] (λ agents file,
       if endsWith file ".json" then
         try_catch
           (let* agent := readFile_JSON_parse AgentsDir file in
            let* lastSeen := lift (get_prop agent "lastSeen") in
            let* now := Date_now in
            if num_lt (diffMinutes now (Date_getTime lastSeen)) (inject_Z 5) then
              let* agent' := lift (set_prop agent "status" (VStr "online")) in
              ret (agents ++ [agent'])
            else
              let* agent' := lift (set_prop agent "status" (VStr "offline")) in
              ret (agents ++ [agent']))
           (λ _, ret agents)
       else ret agents))
    (λ _, ret []).

(** Returns the parsed file as it is, or [null].  [agentId] is any string
    the caller gives. *)
Definition getAgentInfo (agentId : JSValue) : M Json :=
  try_catch
    (let agentFile := path_join AgentsDir (ToString agentId +:+ ".json") in
     at_path agentFile readFile_JSON_parse)
    (λ _, ret JNull).

(** [targetAgent && targetAgent.session]: the session when both are truthy. *)
Definition registered_session (targetAgent : Json) : option JSValue :=
  match targetAgent with
  | JObj o => if truthy (o !! "session") then Some (o !! "session") else None
  | _ => None
  end.

(** The two-step delivery: the text, a pause, then Enter alone. *)
Definition deliver (target text : string) : M unit :=
  sendKeys target text false;;;
  setTimeout 500;;;
  sendKeys target "" true;;;
  ret tt.

Definition sendMessage (targetAgentId : JSValue) (content : string) (type : SendType)
    : M string :=
  let* id := randomUUID in
  let* timestamp := new_Date_toISOString in
  let message := AgentMessage id (agentId this) targetAgentId (type_string type)
                   content timestamp None in
  let messageFile := id +:+ ".json" in
  writeFile MessagesDir messageFile (JObj message);;;
  let queued :=
    ret ("Message sent to agent " +:+ ToString targetAgentId +:+ ": " +:+ content) in
  match type with
  | message_ =>
      let* targetAgent := getAgentInfo targetAgentId in
      match registered_session targetAgent with
      | Some sess =>
          try_catch
            (let target := ToString sess +:+ ":0" in
             deliver target content;;;
             ret ("Message sent to agent " +:+ ToString targetAgentId +:+
                  " in tmux session " +:+ ToString sess +:+ ": " +:+ content))
            (λ error,
             ret ("Message saved for agent " +:+ ToString targetAgentId +:+
                  ", but failed to send to tmux: " +:+ error_message error))
      | None => queued
      end
  | command => queued
  end.

(** [sessionInfo.pane || `${sessionInfo.session}:${sessionInfo.window || 0}`]. *)
Definition session_target (sessionInfo : SessionInfo) : string :=
  str_or (pane sessionInfo)
         (session sessionInfo +:+ ":" +:+ str_or (window sessionInfo) "0").

Definition sendCommandToAgent (targetAgentId : string) (command : string)
    (sessionInfo : option SessionInfo) : M string :=
  let* id := randomUUID in
  let* timestamp := new_Date_toISOString in
  let message := AgentMessage id (agentId this) (Some (VStr targetAgentId)) "command"
                   command timestamp sessionInfo in
  let messageFile := id +:+ ".json" in
  writeFile MessagesDir messageFile (JObj message);;;
  match sessionInfo with
  | Some sessionInfo =>
      try_catch
        (let target := session_target sessionInfo in
         deliver target command;;;
         ret ("Command sent to agent " +:+ targetAgentId +:+
              " and executed in tmux: " +:+ command))
        (λ error,
         ret ("Command queued for agent " +:+ targetAgentId +:+
              ", but failed to execute in tmux: " +:+ error_message error))
  | None =>
      let* targetAgent := getAgentInfo (Some (VStr targetAgentId)) in
      match registered_session targetAgent with
      | Some sess =>
          try_catch
            (let target := ToString sess +:+ ":0" in
             deliver target command;;;
             ret ("Command sent to agent " +:+ targetAgentId +:+
                  " in tmux session " +:+ ToString sess +:+ ": " +:+ command))
            (λ error,
             ret ("Command queued for agent " +:+ targetAgentId +:+
                  ", but failed to send to tmux: " +:+ error_message error))
      | None => ret ("Command queued for agent " +:+ targetAgentId +:+ ": " +:+ command)
      end
  end.

(** [new Date(m.timestamp).getTime()]. *)
Definition timestamp_time (m : Json) : Res (option Z) :=
  res_bind (get_prop m "timestamp") (λ v, Ok (Date_getTime v)).

(** Subtraction of two numbers, either of which may be [NaN]. *)
Definition num_sub (a b : option Z) : option Z :=
  match a, b with
  | Some x, Some y => Some (x - y)
  | _, _ => None
  end.

(** [(a, b) => new Date(a.timestamp).getTime() - new Date(b.timestamp).getTime()]. *)
Definition oldest_first (a b : Json) : Res (option Z) :=
  res_bind (timestamp_time a) (λ ta,
    res_bind (timestamp_time b) (λ tb, Ok (num_sub ta tb))).

(** [(a, b) => new Date(b.timestamp).getTime() - new Date(a.timestamp).getTime()]. *)
Definition newest_first (a b : Json) : Res (option Z) :=
  res_bind (timestamp_time b) (λ tb,
    res_bind (timestamp_time a) (λ ta, Ok (num_sub tb ta))).

Definition getIncomingMessages : M (list Json) :=
  try_catch
    (let* files := readdir MessagesDir in
     let* messages :=
       for_of files [] (λ messages file,
         if endsWith file ".json" then
           try_catch
             (let* message := readFile_JSON_parse MessagesDir file in
              let* to := lift (get_prop message "to") in
              if strict_eq to (agentId this)
              then ret (messages ++ [message])
              else ret messages)
             (λ _, ret messages)
         else ret messages) in
     lift (Array_sort oldest_first messages))
    (λ _, ret []).

(** [messageId] is any value: the [id] read from a record file, or what the
    caller gives. *)
Definition deleteMessage (messageId : JSValue) : M unit :=
  try_catch
    (let messageFile := path_join MessagesDir (ToString messageId +:+ ".json") in
     at_path messageFile unlink)
    (λ _, ret tt).

(** The body of the loop of [processIncomingCommands].  It is one [try]
    block in the source; [results.push(result)] comes before the
    acknowledgement is sent, so [result] stays in [results] when the [catch]
    adds the failure string: the block is split at the push. *)
Definition process_message (results : list string) (message : Json)
    : M (list string) :=
  let* type := lift (get_prop message "type") in
  if strict_eq type "command" then
    let failed (results : list string) (error : Exn) :=
      ret (results ++ ["Failed to process command: " +:+ error_message error]) in
    try_catch
      (let* from := lift (get_prop message "from") in
       let* content := lift (get_prop message "content") in
       let result := "Processed command from " +:+ ToString from +:+ ": " +:+
                     ToString content in
       let results := results ++ [result] in
       try_catch
         (sendMessage from ("Command executed: " +:+ ToString content) message_;;;
          let* id := lift (get_prop message "id") in
          deleteMessage id;;;
          ret results)
         (failed results))
      (failed results)
  else ret results.

Definition processIncomingCommands : M (list string) :=
  let* messages := getIncomingMessages in
  for_of messages [] process_message.

(** [hoursOld: number = 24], in whole hours. *)
Definition clearOldMessages (hoursOld : option Z) : M string :=
  let hoursOld := default 24 hoursOld in
  try_catch
    (let* files := readdir MessagesDir in
     let* now := Date_now in
     let cutoffTime := new_Date (now - hoursOld * 60 * 60 * 1000) in
     let* deletedCount :=
       for_of files 0%nat (λ deletedCount file,
         if endsWith file ".json" then
           let* mtime := stat_mtime MessagesDir file in
           if Date_lt (Some mtime) cutoffTime then
             unlink MessagesDir file;;;
             ret (S deletedCount)
           else ret deletedCount
         else ret deletedCount) in
     ret ("Deleted " +:+ pretty deletedCount +:+ " old messages"))
    (λ error, ret ("Failed to clear old messages: " +:+ error_message error)).

(** [!targetAgentId || message.from === targetAgentId || message.to === targetAgentId
     || message.from === this.agentId || message.to === this.agentId]:
    with no truthy [targetAgentId] no property of [message] is read. *)
Definition isRelevant (targetAgentId : option string) (message : Json) : Res bool :=
  match targetAgentId with
  | Some target =>
      if String.eqb target "" then Ok true
      else
        res_bind (get_prop message "from") (λ from,
          res_bind (get_prop message "to") (λ to,
            Ok (strict_eq from target || strict_eq to target ||
                strict_eq from (agentId this) || strict_eq to (agentId this))))
  | None => Ok true
  end.

(** [limit: number = 50], an integer. *)
Definition getMessageHistory (targetAgentId : option string) (limit : option Z)
    : M (list Json) :=
  let limit := default 50 limit in
  try_catch
    (let* files := readdir MessagesDir in
     let* messages :=
       for_of files [] (λ messages file,
         if endsWith file ".json" then
           try_catch
             (let* message := readFile_JSON_parse MessagesDir file in
              let* relevant := lift (isRelevant targetAgentId message) in
              if relevant then ret (messages ++ [message]) else ret messages)
             (λ _, ret messages)
         else ret messages) in
     let* sorted := lift (Array_sort newest_first messages) in
     ret (slice0 limit sorted))
    (λ _, ret []).

Definition updateHeartbeat : M unit :=
  let agentFile := agentId this +:+ ".json" in
  try_catch
    (let* agentInfo := readFile_JSON_parse AgentsDir agentFile in
     let* lastSeen := new_Date_toISOString in
     let* agentInfo := lift (set_prop agentInfo "lastSeen" (VStr lastSeen)) in
     let* agentInfo := lift (set_prop agentInfo "status" (VStr "online")) in
     writeFile AgentsDir agentFile agentInfo)
    (λ _, ret tt).

End Program.

Arguments send_keys_cmd : simpl never.

(** ** tmux-tools.ts: the other methods of [TmuxController]

    The strings are the bytes that [exec] reads from the process. *)

Definition code (c : Ascii.ascii) : Z := Z.of_nat (Ascii.nat_of_ascii c).

(** The white space and the line terminators of ECMAScript, by the bytes of
    their encoding.  One byte: TAB, LF, VT, FF, CR, SP.  Two: U+00A0.  Three:
    U+1680, U+2000 to U+200A, U+2028, U+2029, U+202F, U+205F, U+3000,
    U+FEFF. *)
Definition white1 (a : Z) : bool := (9 <=? a) && (a <=? 13) || (a =? 32).

Definition white2 (a b : Z) : bool := (a =? 194) && (b =? 160).

Definition white3 (a b c : Z) : bool :=
  (a =? 225) && (b =? 154) && (c =? 128) ||
  (a =? 226) && (b =? 128) &&
    ((128 <=? c) && (c <=? 138) || (c =? 168) || (c =? 169) || (c =? 175)) ||
  (a =? 226) && (b =? 129) && (c =? 159) ||
  (a =? 227) && (b =? 128) && (c =? 128) ||
  (a =? 239) && (b =? 187) && (c =? 191).

(** [s.trimStart()], on the bytes of [s]. *)
Fixpoint trimStart (l : list Ascii.ascii) : list Ascii.ascii :=
  match l with
  | a :: l1 =>
      if white1 (code a) then trimStart l1
      else
        match l1 with
        | b :: l2 =>
            if white2 (code a) (code b) then trimStart l2
            else
              match l2 with
              | c :: l3 =>
                  if white3 (code a) (code b) (code c) then trimStart l3 else l
              | [] => l
              end
        | [] => l
        end
  | [] => []
  end.

(** [s.trimEnd()], on the bytes of [s] last to first. *)
Fixpoint trimEnd_reversed (l : list Ascii.ascii) : list Ascii.ascii :=
  match l with
  | c :: l1 =>
      if white1 (code c) then trimEnd_reversed l1
      else
        match l1 with
        | b :: l2 =>
            if white2 (code b) (code c) then trimEnd_reversed l2
            else
              match l2 with
              | a :: l3 =>
                  if white3 (code a) (code b) (code c) then trimEnd_reversed l3 else l
              | [] => l
              end
        | [] => l
        end
  | [] => []
  end.

(** [s.trim()]. *)
Definition String_trim (s : string) : string :=
  String.string_of_list_ascii
    (rev (trimEnd_reversed (rev (trimStart (String.list_ascii_of_string s))))).

(** The value of [c] as a digit of [radix], if it is one. *)
Definition digit_of (radix : Z) (c : Ascii.ascii) : option Z :=
  let n := code c in
  let v := if (48 <=? n) && (n <=? 57) then Some (n - 48)
           else if (97 <=? n) && (n <=? 122) then Some (n - 87)
           else if (65 <=? n) && (n <=? 90) then Some (n - 55)
           else None in
  match v with
  | Some d => if d <? radix then Some d else None
  | None => None
  end.

(** The value of the longest prefix of [s] made of digits of [radix]; [acc]
    is the value of the digits read so far, [None] while there is none. *)
Fixpoint digits (radix : Z) (s : list Ascii.ascii) (acc : option Z) : option Z :=
  match s with
  | c :: s' =>
      match digit_of radix c with
      | Some d => digits radix s' (Some (default 0 acc * radix + d))
      | None => acc
      end
  | [] => acc
  end.

(** [parseInt(input)], with no radix given: leading white space is skipped,
    a sign read, then [0x] or [0X] selects radix 16, and the digits are read
    up to the first character that is none; [None] is [NaN].  The integer is
    exact: it is the Number returned while below 2^53 in absolute value. *)
Definition parseInt (input : JSValue) : option Z :=
  let s := trimStart (String.list_ascii_of_string (ToString input)) in
  let '(sign, s) :=
    match s with
    | c :: s' =>
        if is_char c "-" then (-1, s')
        else if is_char c "+" then (1, s')
        else (1, s)
    | [] => (1, s)
    end in
  let '(radix, s) :=
    match s with
    | z :: x :: s' =>
        if is_char z "0" && (is_char x "x" || is_char x "X") then (16, s')
        else (10, s)
    | _ => (10, s)
    end in
  (λ n, sign * n) <$> digits radix s None.

(** What a method of [TmuxController] throws: the error [exec] rejects with
    (its [message] and its [stderr]), or the [RangeError] of [toISOString] on
    an invalid date. *)
Inductive Error :=
  | ExecException (message stderr : string)
  | RangeError.

Inductive Outcome (A : Type) :=
  | Return (a : A)
  | Raise (e : Error).
Arguments Return {A} a.
Arguments Raise {A} e.

(** A method of [TmuxController]: it appends the commands it hands to [exec]
    to the log of the shell, oldest first. *)
Definition Sh (A : Type) : Type := list string → Outcome A * list string.

(** [await m] followed by code that calls nothing. *)
Definition and_then {A B} (m : Sh A) (k : A → Outcome B) : Sh B :=
  λ log, match m log with
         | (Return a, log') => (k a, log')
         | (Raise e, log') => (Raise e, log')
         end.

(** [try { m } catch (error) { h error }] where [h] calls nothing. *)
Definition catch {A} (m : Sh A) (h : Error → Outcome A) : Sh A :=
  λ log, match m log with
         | (Return a, log') => (Return a, log')
         | (Raise e, log') => (h e, log')
         end.

(** [l.map(callbackfn)] for a callback that may throw. *)
Fixpoint Array_map {A B} (callbackfn : A → Outcome B) (l : list A)
    : Outcome (list B) :=
  match l with
  | [] => Return []
  | x :: l' =>
      match callbackfn x with
      | Return y =>
          match Array_map callbackfn l' with
          | Return r => Return (y :: r)
          | Raise e => Raise e
          end
      | Raise e => Raise e
      end
  end.

(** What the shell prints for a command: on its standard output when the
    command succeeds, on its standard error when it fails. *)
Record Terminal := mkTerminal {
  exec_stdout : string → string;
  exec_stderr : string → string
}.

Module TmuxSession.
Record t := mk {
  name : string;
  id : option string;
  windows : option Z;
  attached : bool;
  created : string
}.
End TmuxSession.

Module TmuxWindow.
Record t := mk {
  id : string;
  name : option string;
  active : bool;
  session : option string;
  panes : option Z
}.
End TmuxWindow.

Module TmuxPane.
Record t := mk {
  id : string;
  active : bool;
  width : option Z;
  height : option Z;
  command : option string
}.
End TmuxPane.

(** The object [getSessionInfo] returns; [width] and [height] are those of
    its [dimensions]. *)
Module SessionDetails.
Record t := mk {
  name : string;
  id : option string;
  windows : option Z;
  attached : bool;
  created : string;
  width : option Z;
  height : option Z
}.
End SessionDetails.

(** The line feed, as a string. *)
Definition LF : string := String (Ascii.ascii_of_nat 10) EmptyString.

(** [x === '1'], for a field that may be [undefined]. *)
Definition is_one (x : option string) : bool := strict_eq (VStr <$> x) "1".

(** [stdout.trim().split('\n').filter(line => line)]. *)
Definition output_lines (stdout : string) : list string :=
  filter (λ line, line ≠ "") (String_split (String_trim stdout) LF).

(** The Number that the whole number [m >= 2^53] denotes: the nearest
    double, ties to even; [None] is [Infinity]. *)
Definition nearest_double (m : Z) : option Z :=
  let e := Z.log2 m - 52 in
  let q := Z.shiftr m e in
  let r := m - Z.shiftl q e in
  let half := Z.shiftl 1 (e - 1) in
  let q := if r <? half then q
           else if half <? r then q + 1
           else if Z.even q then q else q + 1 in
  let x := Z.shiftl q e in
  if x <? 2 ^ 1024 then Some x else None.

(** The number of decimal digits of [x > 0]; [fuel] bounds it. *)
Fixpoint decimal_length (fuel : nat) (x : Z) : Z :=
  match fuel with
  | O => 0
  | S fuel' => if x <? 10 then 1 else 1 + decimal_length fuel' (x / 10)
  end.

(** The shortest decimal that reads back as the double [x >= 2^53], after
    Number::toString: the [s] of [k] digits, [k] least, for which
    [s * 10^(n - k)] denotes [x]; of two such [s], the one nearer to [x].
    [ks] lists the [k] still to try. *)
Fixpoint shortest_decimal (ks : list Z) (x : Z) : option (Z * Z) :=
  match ks with
  | [] => None
  | k :: ks' =>
      let d := decimal_length 400 x in
      let candidates :=
        n ← [d; d + 1];
        s ← [x / 10 ^ (n - k); x / 10 ^ (n - k) + 1];
        if (k <=? n) && (10 ^ (k - 1) <=? s) && (s <? 10 ^ k) &&
           bool_decide (nearest_double (s * 10 ^ (n - k)) = Some x)
        then [(s, n)] else [] in
      match candidates with
      | [] => shortest_decimal ks' x
      | c :: cs =>
          Some (foldl (λ best c',
                  if Z.abs (c'.1 * 10 ^ (c'.2 - k) - x) <?
                     Z.abs (best.1 * 10 ^ (best.2 - k) - x)
                  then c' else best) c cs)
      end
  end.

(** [`${n}`] for a whole number [n >= 0], the Number::toString of the double
    that [n] denotes: all its digits below 2^53; from there on the shortest
    decimal that reads back, filled with zeros, and in exponent form from
    10^21 on. *)
Definition Number_toString_unsigned (n : Z) : string :=
  if n <? 2 ^ 53 then pretty n
  else
    match nearest_double n with
    | None => "Infinity"
    | Some x =>
        match shortest_decimal (seqZ 1 17) x with
        | Some (s, n) =>
            if n <=? 21
            then pretty s +:+
                 String.concat "" (replicate (Z.to_nat (n - decimal_length 400 s)) "0")
            else
              match pretty s with
              | String c EmptyString => String c ("e+" +:+ pretty (n - 1))
              | String c rest => String c ("." +:+ rest +:+ "e+" +:+ pretty (n - 1))
              | EmptyString => ""
              end
        | None => ""
        end
    end.

(** [`${n}`] for a whole number [n]. *)
Definition Number_toString (n : Z) : string :=
  if n <? 0 then "-" +:+ Number_toString_unsigned (- n)
  else Number_toString_unsigned n.

Section TmuxController.
Variable E : Env.
Variable T : Terminal.

(** [const { stdout } = await execAsync(cmd)]. *)
Definition execAsync_stdout (cmd : string) : Sh string :=
  λ log, match exec_error E cmd with
         | Some msg => (Raise (ExecException msg (exec_stderr T cmd)), log ++ [cmd])
         | None => (Return (exec_stdout T cmd), log ++ [cmd])
         end.

(** [new Date(value).toISOString()] for a number [value]: a [RangeError] when
    the time value is [NaN] or beyond 8.64e15 ms from the epoch. *)
Definition Date_toISOString (value : option Z) : Outcome string :=
  match value with
  | Some t =>
      if Z.abs t <=? 8640000000000000 then Return (toISOString E t)
      else Raise RangeError
  | None => Raise RangeError
  end.

(** [parseInt(created) * 1000]. *)
Definition seconds (created : option string) : option Z :=
  (λ n, n * 1000) <$> parseInt (VStr <$> created).

(** [error.stderr?.includes(searchString)]. *)
Definition stderr_includes (error : Error) (searchString : string) : bool :=
  match error with
  | ExecException _ stderr => String_includes stderr searchString
  | RangeError => false
  end.

Definition list_sessions_cmd : string :=
  "tmux list-sessions -F " +:+ quote +:+
  "#{session_name}:#{session_id}:#{session_windows}:#{session_attached}:#{session_created}"
  +:+ quote.

Definition listSessions : Sh (list TmuxSession.t) :=
  catch
    (and_then (execAsync_stdout list_sessions_cmd) (λ stdout,
       Array_map (λ line,
         let fields := String_split line ":" in
         let name := default "" (fields !! 0%nat) in
         let id := fields !! 1%nat in
         let windows := fields !! 2%nat in
         let attached := fields !! 3%nat in
         let created := fields !! 4%nat in
         match Date_toISOString (seconds created) with
         | Return iso =>
             Return (TmuxSession.mk name id (parseInt (VStr <$> windows))
                       (is_one attached) iso)
         | Raise e => Raise e
         end) (output_lines stdout)))
    (λ error,
       if stderr_includes error "no server running" then Return []
       else Raise error).

Definition create_session_cmd (name : string) (command : option string) : string :=
  if truthy (VStr <$> command)
  then "tmux new-session -d -s " +:+ quote +:+ name +:+ quote +:+ " " +:+
       quote +:+ ToString (VStr <$> command) +:+ quote
  else "tmux new-session -d -s " +:+ quote +:+ name +:+ quote.

Definition createSession (name : string) (command : option string) : Sh string :=
  and_then (execAsync_stdout (create_session_cmd name command)) (λ _,
    Return ("Session " +:+ quote +:+ name +:+ quote +:+ " created successfully")).

Definition kill_session_cmd (name : string) : string :=
  "tmux kill-session -t " +:+ quote +:+ name +:+ quote.

Definition killSession (name : string) : Sh string :=
  and_then (execAsync_stdout (kill_session_cmd name)) (λ _,
    Return ("Session " +:+ quote +:+ name +:+ quote +:+ " killed successfully")).

Definition list_windows_cmd (session : option string) : string :=
  let target :=
    if truthy (VStr <$> session)
    then "-t " +:+ quote +:+ ToString (VStr <$> session) +:+ quote
    else "" in
  "tmux list-windows " +:+ target +:+ " -F " +:+ quote +:+
  "#{window_id}:#{window_name}:#{window_active}:#{session_name}:#{window_panes}"
  +:+ quote.

Definition listWindows (session : option string) : Sh (list TmuxWindow.t) :=
  and_then (execAsync_stdout (list_windows_cmd session)) (λ stdout,
    Return
      ((λ line,
          let fields := String_split line ":" in
          let id := default "" (fields !! 0%nat) in
          let name := fields !! 1%nat in
          let active := fields !! 2%nat in
          let sessionName := fields !! 3%nat in
          let panes := fields !! 4%nat in
          TmuxWindow.mk id name (is_one active) sessionName (parseInt (VStr <$> panes)))
       <$> output_lines stdout)).

Definition create_window_cmd (session : string) (name command : option string)
    : string :=
  let cmd := "tmux new-window -t " +:+ quote +:+ session +:+ quote in
  let cmd :=
    if truthy (VStr <$> name)
    then cmd +:+ " -n " +:+ quote +:+ ToString (VStr <$> name) +:+ quote
    else cmd in
  if truthy (VStr <$> command)
  then cmd +:+ " " +:+ quote +:+ ToString (VStr <$> command) +:+ quote
  else cmd.

Definition createWindow (session : string) (name command : option string)
    : Sh string :=
  and_then (execAsync_stdout (create_window_cmd session name command)) (λ _,
    Return ("Window created in session " +:+ quote +:+ session +:+ quote +:+
            (if truthy (VStr <$> name)
             then " with name " +:+ quote +:+ ToString (VStr <$> name) +:+ quote
             else ""))).

Definition kill_window_cmd (target : string) : string :=
  "tmux kill-window -t " +:+ quote +:+ target +:+ quote.

Definition killWindow (target : string) : Sh string :=
  and_then (execAsync_stdout (kill_window_cmd target)) (λ _,
    Return ("Window " +:+ quote +:+ target +:+ quote +:+ " killed successfully")).

Definition split_window_cmd (target : string) (vertical : bool)
    (command : option string) : string :=
  let cmd := "tmux split-window -t " +:+ quote +:+ target +:+ quote in
  let cmd := if vertical then cmd +:+ " -v" else cmd in
  if truthy (VStr <$> command)
  then cmd +:+ " " +:+ quote +:+ ToString (VStr <$> command) +:+ quote
  else cmd.

Definition splitWindow (target : string) (vertical : bool) (command : option string)
    : Sh string :=
  and_then (execAsync_stdout (split_window_cmd target vertical command)) (λ _,
    Return ("Split window in " +:+ quote +:+ target +:+ quote +:+ " " +:+
            (if vertical then "vertically" else "horizontally"))).

Definition list_panes_cmd (target : string) : string :=
  "tmux list-panes -t " +:+ quote +:+ target +:+ quote +:+ " -F " +:+ quote +:+
  "#{pane_id}:#{pane_active}:#{pane_width}:#{pane_height}:#{pane_current_command}"
  +:+ quote.

Definition listPanes (target : string) : Sh (list TmuxPane.t) :=
  and_then (execAsync_stdout (list_panes_cmd target)) (λ stdout,
    Return
      ((λ line,
          let fields := String_split line ":" in
          let id := default "" (fields !! 0%nat) in
          let active := fields !! 1%nat in
          let width := fields !! 2%nat in
          let height := fields !! 3%nat in
          let command := fields !! 4%nat in
          TmuxPane.mk id (is_one active) (parseInt (VStr <$> width))
            (parseInt (VStr <$> height)) command)
       <$> output_lines stdout)).

Definition session_info_cmd (name : string) : string :=
  "tmux display-message -t " +:+ quote +:+ name +:+ quote +:+ " -p " +:+ quote +:+
  "#{session_name}:#{session_id}:#{session_windows}:#{session_attached}:" +:+
  "#{session_created}:#{client_width}:#{client_height}" +:+ quote.

Definition getSessionInfo (name : string) : Sh SessionDetails.t :=
  and_then (execAsync_stdout (session_info_cmd name)) (λ stdout,
    let fields := String_split (String_trim stdout) ":" in
    let sessionName := default "" (fields !! 0%nat) in
    let id := fields !! 1%nat in
    let windows := fields !! 2%nat in
    let attached := fields !! 3%nat in
    let created := fields !! 4%nat in
    let width := fields !! 5%nat in
    let height := fields !! 6%nat in
    match Date_toISOString (seconds created) with
    | Return iso =>
        Return (SessionDetails.mk sessionName id (parseInt (VStr <$> windows))
                  (is_one attached) iso (parseInt (VStr <$> width))
                  (parseInt (VStr <$> height)))
    | Raise e => Raise e
    end).

(** [startLine] and [endLine] are whole numbers. *)
Definition capture_pane_cmd (target : string) (startLine endLine : option Z) : string :=
  let cmd := "tmux capture-pane -t " +:+ quote +:+ target +:+ quote +:+ " -p" in
  let cmd :=
    match startLine with
    | Some n => cmd +:+ " -S " +:+ Number_toString n
    | None => cmd
    end in
  match endLine with
  | Some n => cmd +:+ " -E " +:+ Number_toString n
  | None => cmd
  end.

Definition capturePane (target : string) (startLine endLine : option Z) : Sh string :=
  and_then (execAsync_stdout (capture_pane_cmd target startLine endLine)) (λ stdout,
    Return stdout).

End TmuxController.

(** ** index.ts: the handler of tool calls *)

(** What the handler answers, [{ content: [{ type: "text", text }] }], with
    [isError: true] when the call failed. *)
Record CallToolResult := mkCallToolResult {
  text : string;
  isError : bool
}.

(** The [try] around the [switch] of the handler, for a case that answers the
    string [result] computes: a thrown error is answered as
    [`Error: ${error.message}`], flagged [isError]. *)
Definition CallToolRequest_handler (result : M string) : M CallToolResult :=
  try_catch
    (let* text := result in ret (mkCallToolResult text false))
    (λ error, ret (mkCallToolResult ("Error: " +:+ error_message error) true)).

(** The cases of the agent tools that answer a string, from the arguments
    that the [parse] of the tool's schema returns.  The cases that answer the
    text of [JSON.stringify] are left out. *)
Section Server.
Variable E : Env.
Variable agentComm : Manager.




Definition send_command (target_agent_id command : string)
    (session window pane : option string) : M CallToolResult :=
  CallToolRequest_handler
    (let sessionInfo :=
       if truthy (VStr <$> session)
       then Some (mkSessionInfo (ToString (VStr <$> session)) window pane)
       else None in
     sendCommandToAgent E agentComm target_agent_id command sessionInfo).



End Server.

(** ** A runtime to evaluate the program in

    [Date] restricted to the one format the program writes,
    [YYYY-MM-DDTHH:mm:ss.sssZ], for times from 1970 on; any other string is an
    invalid date.  UUIDs are drawn in a fixed order.  The shell rejects every
    command aimed at a session named [ghost] and accepts all others.  The home
    directory is [/home/alice]. *)
Module Sample.

Fixpoint zeros (k : nat) : string :=
  match k with
  | O => EmptyString
  | S k' => "0" +:+ zeros k'
  end.

Definition pad (width : nat) (n : Z) : string :=
  let s := pretty n in zeros (width - String.length s) +:+ s.

(** Days since 1970-01-01 to (year, month, day), Gregorian. *)
Definition civil_from_days (days : Z) : Z * Z * Z :=
  let z := days + 719468 in
  let era := z / 146097 in
  let doe := z - era * 146097 in
  let yoe := (doe - doe / 1460 + doe / 36524 - doe / 146096) / 365 in
  let doy := doe - (365 * yoe + yoe / 4 - yoe / 100) in
  let mp := (5 * doy + 2) / 153 in
  let d := doy - (153 * mp + 2) / 5 + 1 in
  let m := if mp <? 10 then mp + 3 else mp - 9 in
  let y := yoe + era * 400 + (if m <=? 2 then 1 else 0) in
  (y, m, d).

Definition days_from_civil (y m d : Z) : Z :=
  let y := y - (if m <=? 2 then 1 else 0) in
  let era := y / 400 in
  let yoe := y - era * 400 in
  let doy := (153 * (if 2 <? m then m - 3 else m + 9) + 2) / 5 + d - 1 in
  let doe := yoe * 365 + yoe / 4 - yoe / 100 + doy in
  era * 146097 + doe - 719468.

Definition toISOString (t : Z) : string :=
  let '(y, m, d) := civil_from_days (t / 86400000) in
  let ms := t mod 86400000 in
  pad 4 y +:+ "-" +:+ pad 2 m +:+ "-" +:+ pad 2 d +:+ "T" +:+
  pad 2 (ms / 3600000) +:+ ":" +:+ pad 2 (ms / 60000 mod 60) +:+ ":" +:+
  pad 2 (ms / 1000 mod 60) +:+ "." +:+ pad 3 (ms mod 1000) +:+ "Z".

Definition digit (c : Ascii.ascii) : option Z :=
  let n := Z.of_nat (Ascii.nat_of_ascii c) in
  if (48 <=? n) && (n <=? 57) then Some (n - 48) else None.

Fixpoint number (cs : list Ascii.ascii) (acc : Z) : option Z :=
  match cs with
  | [] => Some acc
  | c :: cs' =>
      match digit c with
      | Some d => number cs' (acc * 10 + d)
      | None => None
      end
  end.

Definition sep (c : Ascii.ascii) (s : string) : bool :=
  String.eqb (String c EmptyString) s.

Definition Date_parse (s : string) : option Z :=
  match String.list_ascii_of_string s with
  | [y1; y2; y3; y4; s1; m1; m2; s2; d1; d2; s3; h1; h2; s4; n1; n2; s5; c1; c2; s6;
     f1; f2; f3; s7] =>
      if sep s1 "-" && sep s2 "-" && sep s3 "T" && sep s4 ":" && sep s5 ":" &&
         sep s6 "." && sep s7 "Z"
      then
        match number [y1; y2; y3; y4] 0, number [m1; m2] 0, number [d1; d2] 0,
              number [h1; h2] 0, number [n1; n2] 0, number [c1; c2] 0,
              number [f1; f2; f3] 0 with
        | Some y, Some m, Some d, Some h, Some n, Some c, Some f =>
            let days := days_from_civil y m d in
            if (1 <=? m) && (m <=? 12) && (1 <=? d) && (h <? 24) && (n <? 60) &&
               (c <? 60) &&
               bool_decide (civil_from_days days = (y, m, d))
            then Some (days * 86400000 + h * 3600000 + n * 60000 + c * 1000 + f)
            else None
        | _, _, _, _, _, _, _ => None
        end
      else None
  | _ => None
  end.

(** The UUID that reads [s]; the empty string when [s] holds a [/]. *)
Definition as_UUID (s : string) : UUID :=
  match String_includes s "/" as b return String_includes s "/" = b → UUID with
  | false => mkUUID s
  | true => λ _, mkUUID "" eq_refl
  end eq_refl.

Definition uuid (n : nat) : UUID :=
  as_UUID ("00000000-0000-4000-8000-" +:+ pad 12 (Z.of_nat n)).

Fixpoint contains (sub s : string) : bool :=
  String.prefix sub s ||
  match s with
  | EmptyString => false
  | String _ s' => contains sub s'
  end.

Definition exec_error (cmd : string) : option string :=
  if contains ("-t " +:+ quote +:+ "ghost") cmd
  then Some "can't find session: ghost"
  else None.

Definition env : Env := mkEnv uuid Date_parse toISOString exec_error "/home/alice".

End Sample.

(** ** Worlds to evaluate the program in *)
Module Scenario.

Definition alice : Manager := mkManager (Sample.as_UUID "id-alice") "alice".
Definition bob : Manager := mkManager (Sample.as_UUID "id-bob") "bob".

(** 2023-11-14T22:13:20.000Z. *)
Definition noon : Z := 1700000000000.

Definition stored (t : Z) (o : JSObject) : File := mkFile t (Some (JObj o)).

(** A message record written at time [t]. *)
Definition note (id from to type content : string) (t : Z) : JSObject :=
  AgentMessage id from (Some (VStr to)) type content (Sample.toISOString t) None.

Definition m1 := note "m1" "id-bob" "id-alice" "message" "first" noon.
Definition m2 := note "m2" "id-bob" "id-alice" "command" "ls" (noon + 1000).
Definition m3 := note "m3" "id-carol" "id-alice" "message" "third" (noon + 2000).
Definition m4 := note "m4" "id-bob" "id-carol" "message" "aside" (noon + 500).

(** Alice's inbox five seconds after noon: three records for her, one
    between Bob and Carol, and a file that is not JSON.  No agent is
    registered. *)
Definition inbox : World :=
  mkWorld (Some ∅)
    (Some (<["m3.json" := stored (noon + 2000) m3]>
          (<["m1.json" := stored noon m1]>
          (<["junk.json" := mkFile noon None]>
          (<["m4.json" := stored (noon + 500) m4]>
          (<["m2.json" := stored (noon + 1000) m2]> ∅))))))
    (noon + 5000) 0 [].

(** Bob registered at noon from session [dev] and has not been heard of
    since; it is now an hour later. *)
Definition bob_record : JSObject :=
  AgentInfo "id-bob" "bob" "dev" (Sample.toISOString noon) "online".

Definition stale : World :=
  mkWorld (Some (<["id-bob.json" := stored noon bob_record]> ∅)) (Some ∅)
    (noon + 3600000) 0 [].

(** Bob is registered in a session named [ghost], which tmux does not
    have. *)
Definition haunted : World :=
  mkWorld
    (Some (<["id-bob.json" :=
               stored noon (AgentInfo "id-bob" "bob" "ghost" (Sample.toISOString noon)
                              "online")]> ∅))
    (Some ∅) noon 0 [].

(** A message for Alice beside a file that holds the JSON value [null] and
    a file that is not JSON. *)
Definition corrupted : World :=
  mkWorld (Some ∅)
    (Some (<["null.json" := mkFile noon (Some JNull)]>
          (<["junk.json" := mkFile noon None]>
          (<["m1.json" := stored noon m1]> ∅))))
    (noon + 5000) 0 [].

(** Two record files and a text file, an hour apart in age. *)
Definition attic : World :=
  mkWorld (Some ∅)
    (Some (<["m1.json" := stored noon m1]>
          (<["m3.json" := stored (noon + 2 * 3600000) m3]>
          (<["notes.txt" := mkFile noon None]> ∅))))
    (noon + 3 * 3600000) 0 [].

End Scenario.

(** * The vocabulary of the properties *)

(** ** Directories and records *)

(** The entries of a directory, in the order [readdir] lists them; none when
    the directory does not exist. *)
Definition entries (d : DirName) (w : World) : list (string * File) :=
  match dir d w with
  | Some files => map_to_list files
  | None => []
  end.

(** The record an entry holds: the [.json] files that [JSON.parse] accepts. *)
Definition record (e : string * File) : option Json :=
  if endsWith e.1 ".json" then parsed e.2 else None.

(** The entry is a file that [JSON.parse] accepts. *)
Definition parses (e : string * File) : Prop := is_Some (parsed e.2).

#[global] Instance parses_dec e : Decision (parses e).
Proof. unfold parses. apply _. Defined.

(** The agent record filed under the name [`${agentId}.json`] in the agents
    directory, or [null]. *)
Definition registry_record (agentId : JSValue) (w : World) : Json :=
  match lookup_file AgentsDir (ToString agentId +:+ ".json") w with
  | Some f => default JNull (parsed f)
  | None => JNull
  end.

(** The record [getAgentInfo(agentId)] reads in world [w], or [null]: that of
    the file [join(agentsDir, `${agentId}.json`)] names, an entry of either
    directory. *)
Definition found (E : Env) (agentId : JSValue) (w : World) : Json :=
  match entry_of E (path_join E AgentsDir (ToString agentId +:+ ".json")) with
  | Some (d, file) =>
      match lookup_file d file w with
      | Some f => default JNull (parsed f)
      | None => JNull
      end
  | None => JNull
  end.

(** ** Listings *)

(** [online] while less than five minutes have passed since [lastSeen]. *)
Definition status_at (E : Env) (now : Z) (lastSeen : JSValue) : string :=
  if num_lt (diffMinutes now (Date_getTime E lastSeen)) (inject_Z 5)
  then "online" else "offline".

(** The agent an entry contributes to the listing at time [now]. *)
Definition listed_agent (E : Env) (now : Z) (e : string * File) : option Json :=
  match record e with
  | Some (JObj o) =>
      Some (JObj (<["status" := VStr (status_at E now (o !! "lastSeen"))]> o))
  | _ => None
  end.

(** The message an entry contributes to the caller's inbox. *)
Definition addressed_to_me (this : Manager) (e : string * File) : option Json :=
  match record e with
  | Some (JObj o) =>
      if strict_eq (o !! "to") (agentId this) then Some (JObj o) else None
  | _ => None
  end.

(** The record an entry contributes to the history with [targetAgentId]. *)
Definition relevant_record (this : Manager) (targetAgentId : option string) (e : string * File)
    : option Json :=
  match record e with
  | Some j =>
      match isRelevant this targetAgentId j with
      | Ok true => Some j
      | _ => None
      end
  | None => None
  end.

(** The records [getMessageHistory] selects: every parsed record when no
    [targetAgentId] is given (or an empty one), otherwise the records that have
    [targetAgentId] or the caller as sender or recipient. *)
Definition wanted (this : Manager) (targetAgentId : option string) (j : Json) : Prop :=
  match targetAgentId with
  | Some target =>
      target = "" ∨
      ∃ o, j = JObj o ∧
           (o !! "from" = Some (VStr target) ∨ o !! "to" = Some (VStr target) ∨
            o !! "from" = Some (VStr (agentId this)) ∨
            o !! "to" = Some (VStr (agentId this)))
  | None => True
  end.

(** ** Order *)

(** The order of two elements by an integer key. *)
Definition key_le {A} (key : A → Z) (a b : A) : Prop := key a ≤ key b.

(** The time a record's [timestamp] denotes, when [Date] can read it. *)
Definition time_of (E : Env) (j : Json) : option Z :=
  match timestamp_time E j with
  | Ok t => t
  | Throw _ => None
  end.

(** [a] is not newer than [b]; both timestamps are dates. *)
Definition not_newer (E : Env) (a b : Json) : Prop :=
  ∃ ta tb, time_of E a = Some ta ∧ time_of E b = Some tb ∧ ta ≤ tb.

(** A message record whose [timestamp] is a date. *)
Definition dated (E : Env) (j : Json) : Prop :=
  ∃ o t, j = JObj o ∧ Date_getTime E (o !! "timestamp") = Some t.

(** ** Registration *)

(** What [registerAgent] writes, and where. *)
Definition registration (E : Env) (this : Manager) (sessionName : string) (now : Z)
    : File :=
  mkFile now (Some (JObj (AgentInfo (agentId this) (agentName this) sessionName
                            (toISOString E now) "online"))).

Definition registered_with (this : Manager) : string :=
  "Agent " +:+ quote +:+ agentName this +:+ quote +:+
  " registered with ID: " +:+ agentId this.

(** A sequence of [registerAgent] calls by one manager, each after a pause;
    the confirmations are collected in order. *)
Definition register_each (E : Env) (this : Manager) (calls : list (Z * string))
    : M (list string) :=
  for_of calls [] (λ confirmations call,
    setTimeout call.1;;;
    let* confirmation := registerAgent E this call.2 in
    ret (confirmations ++ [confirmation])).

(** ** Sending *)

(** The world once [shell] has run [cmds] and [waited] ms have passed. *)
Definition after_shell (cmds : list string) (waited : Z) (w : World) : World :=
  mkWorld (agents w) (messages w) (clock w + waited) (drawn w) (shell w ++ cmds).

(** The world once the record [o] is written to [file] and its UUID drawn. *)
Definition persisted (file : string) (o : JSObject) (files : Dir) (w : World) : World :=
  mkWorld (agents w) (Some (<[file := mkFile (clock w) (Some (JObj o))]> files))
          (clock w) (S (drawn w)) (shell w).

(** The record [sendMessage] writes in world [w]. *)
Definition sent_message (E : Env) (this : Manager) (targetAgentId : JSValue)
    (content : string) (type : SendType) (w : World) : JSObject :=
  AgentMessage (uuid E (drawn w)) (agentId this) targetAgentId (type_string type)
    content (toISOString E (clock w)) None.

(** The record [sendCommandToAgent] writes in world [w]. *)
Definition sent_command (E : Env) (this : Manager) (targetAgentId command : string)
    (sessionInfo : option SessionInfo) (w : World) : JSObject :=
  AgentMessage (uuid E (drawn w)) (agentId this) (Some (VStr targetAgentId)) "command"
    command (toISOString E (clock w)) sessionInfo.

(** How the delivery of [text] at [target] fails: with the message of the
    first of the two [send-keys] commands that the shell rejects; [None] when
    it accepts both. *)
Definition delivery_error (E : Env) (target text : string) : option string :=
  match exec_error E (send_keys_cmd target text false) with
  | Some msg => Some msg
  | None => exec_error E (send_keys_cmd target "" true)
  end.

(** ** Pruning *)

(** A message record file last modified before [cutoff]. *)
Definition old (cutoff : Z) (e : string * File) : Prop :=
  endsWith e.1 ".json" = true ∧ mtime e.2 < cutoff.

#[global] Instance old_dec cutoff e : Decision (old cutoff e).
Proof. unfold old. apply _. Defined.

(** The directory once the old files among [l] are unlinked. *)
Definition pruned (cutoff : Z) (l : list (string * File)) (cur : Dir) : Dir :=
  foldl (λ d e, if decide (old cutoff e) then delete e.1 d else d) cur l.

(** ** Command processing *)

(** An inbox entry of type [command]. *)
Definition is_command (j : Json) : Prop :=
  ∃ o, j = JObj o ∧ o !! "type" = Some (VStr "command").

#[global] Instance is_command_dec j : Decision (is_command j).
Proof.
  refine (match j with
          | JObj o => cast_if (decide (o !! "type" = Some (VStr "command")))
          | _ => right _
          end); unfold is_command; naive_solver.
Defined.

(** The file [deleteMessage(message.id)] unlinks. *)
Definition command_file (j : Json) : string :=
  match j with
  | JObj o => ToString (o !! "id") +:+ ".json"
  | _ => ""
  end.

(** The description pushed for a command. *)
Definition processed (j : Json) : string :=
  match j with
  | JObj o =>
      "Processed command from " +:+ ToString (o !! "from") +:+ ": " +:+
      ToString (o !! "content")
  | _ => ""
  end.

(** The file of the [n]-th UUID drawn. *)
Definition ack_file (E : Env) (n : nat) : string := uuid E n +:+ ".json".

(** The acknowledgement of command [j], written under the [n]-th UUID with
    timestamp [timestamp]: a record of type [message]. *)
Definition acknowledgement (E : Env) (this : Manager) (j : Json) (n : nat)
    (timestamp : string) : JSObject :=
  match j with
  | JObj o =>
      AgentMessage (uuid E n) (agentId this) (o !! "from") "message"
        ("Command executed: " +:+ ToString (o !! "content")) timestamp None
  | _ => ∅
  end.

(** ** What command processing hands to the shell *)



(** ** The output of tmux *)

(** What a method that catches nothing comes to when [exec] rejects [cmd]:
    the error is thrown on, with its message and its [stderr]. *)
Definition rejected {A} (E : Env) (T : Terminal) (cmd : string) (log : list string)
    : Outcome A * list string :=
  (Raise (ExecException (default "" (exec_error E cmd)) (exec_stderr T cmd)),
   log ++ [cmd]).

(** What a listing prints: each line followed by a line feed. *)
Definition unlines (lines : list string) : string :=
  foldr (λ line rest, line +:+ LF +:+ rest) "" lines.

(** A printable ASCII character other than the space. *)
Definition printable (c : Ascii.ascii) : bool := (33 <=? code c) && (code c <=? 126).

Definition starts_printable (s : string) : bool :=
  match s with
  | String c _ => printable c
  | EmptyString => false
  end.

Definition ends_printable (s : string) : bool :=
  match rev (String.list_ascii_of_string s) with
  | c :: _ => printable c
  | [] => false
  end.

(** A field of an output line: it holds no colon and no line feed. *)
Definition field (s : string) : Prop :=
  String_includes s ":" = false ∧ String_includes s LF = false.

(** The fields of an output line: the line, the fields joined by colons,
    begins and ends with a printable character. *)
Definition row (fields : list string) : Prop :=
  Forall field fields ∧
  starts_printable (String.concat ":" fields) = true ∧
  ends_printable (String.concat ":" fields) = true.

(** The time value of [new Date(parseInt(created) * 1000)]; [None] when the
    date is invalid. *)
Definition time_value (created : option string) : option Z :=
  match seconds created with
  | Some t => if Z.abs t <=? 8640000000000000 then Some t else None
  | None => None
  end.

(** ** Sample output of tmux *)
Module Screen.

(** Two windows of session [dev]; the name of the second holds a colon. *)
Definition windows : list (list string) :=
  [["@0"; "editor"; "1"; "dev"; "2"];
   ["@1"; "logs"; " tail"; "0"; "dev"; "1"]].

(** Two sessions, created at [Scenario.noon] and 100 s later. *)
Definition sessions : list (list string) :=
  [["dev"; "$0"; "2"; "1"; "1700000000"];
   ["ops"; "$1"; "1"; "0"; "1700000100"]].

Definition panes : list (list string) :=
  [["%0"; "1"; "120"; "40"; "vim"];
   ["%1"; "0"; "120"; "10"; "bash"]].

Definition details : list string :=
  ["dev"; "$0"; "2"; "1"; "1700000000"; "200"; "50"].

(** A terminal that prints [rows] for every command. *)
Definition printing (rows : list (list string)) : Terminal :=
  mkTerminal (λ _, unlines (String.concat ":" <$> rows)) (λ _, "").

(** A host on which no tmux server runs. *)
Definition down : Env :=
  mkEnv Sample.uuid Sample.Date_parse Sample.toISOString
    (λ _, Some "Command failed: tmux") "/home/alice".

Definition no_server : Terminal :=
  mkTerminal (λ _, "") (λ _, "no server running on /tmp/tmux-1000/default").

End Screen.

(** * Properties *)

(** ** Strings, loops and directory enumeration *)

Lemma is_char_true c d : is_char c (String d EmptyString) = true ↔ c = d.
Proof.
  unfold is_char. rewrite String.eqb_eq. split; [by intros [= ->]|by intros ->].
Qed.

Lemma String_includes_char_cons c d s :
  String_includes (String d s) (String c EmptyString) =
  bool_decide (c = d) || String_includes s (String c EmptyString).
Proof.
  simpl. destruct (Ascii.ascii_dec c d) as [->|Hne].
  - rewrite bool_decide_eq_true_2 by done. by destruct s.
  - by rewrite bool_decide_eq_false_2 by done.
Qed.

Lemma String_includes_char_app c a b :
  String_includes (a +:+ b) (String c EmptyString) =
  String_includes a (String c EmptyString) || String_includes b (String c EmptyString).
Proof.
  induction a as [|d a IH]; [done|].
  change (String d a +:+ b) with (String d (a +:+ b)).
  by rewrite !String_includes_char_cons, IH, orb_assoc.
Qed.

Lemma String_split_unfold s separator :
  String_split s separator =
  match s with
  | EmptyString => [EmptyString]
  | String c s' =>
      if is_char c separator then EmptyString :: String_split s' separator
      else
        match String_split s' separator with
        | x :: l => String c x :: l
        | [] => [String c EmptyString]
        end
  end.
Proof. by destruct s. Qed.

Lemma String_split_none c s :
  String_includes s (String c EmptyString) = false →
  String_split s (String c EmptyString) = [s].
Proof.
  induction s as [|d s IH]; [done|].
  rewrite String_includes_char_cons. intros [Hd Hs]%orb_false_iff.
  apply bool_decide_eq_false in Hd.
  rewrite String_split_unfold.
  destruct (is_char d (String c EmptyString)) eqn:Hchar.
  { apply is_char_true in Hchar. by subst. }
  by rewrite IH.
Qed.

Lemma String_split_app c a b :
  String_includes a (String c EmptyString) = false →
  String_split (a +:+ String c b) (String c EmptyString) =
  a :: String_split b (String c EmptyString).
Proof.
  induction a as [|d a IH].
  - intros _. change ("" +:+ String c b) with (String c b).
    rewrite String_split_unfold.
    by rewrite (proj2 (is_char_true c c) eq_refl).
  - rewrite String_includes_char_cons. intros [Hd Hs]%orb_false_iff.
    apply bool_decide_eq_false in Hd.
    change (String d a +:+ String c b) with (String d (a +:+ String c b)).
    rewrite String_split_unfold.
    destruct (is_char d (String c EmptyString)) eqn:Hchar.
    { apply is_char_true in Hchar. by subst. }
    by rewrite IH.
Qed.

Lemma endsWith_unfold s suffix :
  endsWith s suffix =
  String.eqb s suffix ||
  match s with EmptyString => false | String _ s' => endsWith s' suffix end.
Proof. by destruct s. Qed.

Lemma endsWith_refl s : endsWith s s = true.
Proof. by rewrite endsWith_unfold, String.eqb_refl. Qed.

Lemma endsWith_app s suffix : endsWith (s +:+ suffix) suffix = true.
Proof.
  induction s as [|c s IH].
  - apply endsWith_refl.
  - change (String c s +:+ suffix) with (String c (s +:+ suffix)).
    rewrite endsWith_unfold, IH. apply orb_true_r.
Qed.

Lemma list_ascii_of_string_app (a b : string) :
  String.list_ascii_of_string (a +:+ b) =
  String.list_ascii_of_string a ++ String.list_ascii_of_string b.
Proof. induction a as [|c a IH]; [done|]. simpl. by rewrite <- IH. Qed.

Lemma string_app_inj_r (a b suffix : string) : a +:+ suffix = b +:+ suffix → a = b.
Proof.
  intros H. apply (f_equal String.list_ascii_of_string) in H.
  rewrite !list_ascii_of_string_app in H. apply app_inv_tail in H.
  apply (f_equal String.string_of_list_ascii) in H.
  by rewrite !String.string_of_list_ascii_of_string in H.
Qed.

(** A loop that only reads: each round appends what [g] selects. *)
Lemma for_of_collect {A B} (g : A → option B) (body : list B → A → M (list B))
    (w : World) :
  ∀ (l : list A) (acc : list B),
    (∀ acc x, x ∈ l → body acc x w = (Ok (acc ++ option_list (g x)), w)) →
    for_of l acc body w = (Ok (acc ++ omap g l), w).
Proof.
  induction l as [|x l IH]; intros acc Hbody; simpl.
  - by rewrite app_nil_r.
  - unfold bind. rewrite Hbody by left.
    rewrite IH by (intros; apply Hbody; by right).
    rewrite <- app_assoc. by destruct (g x).
Qed.

(** Looking each enumerated name up again finds the enumerated file. *)
Lemma omap_names {B} (files : Dir) (g : string * File → option B) :
  omap (λ n, files !! n ≫= λ f, g (n, f)) (map_to_list files).*1 =
  omap g (map_to_list files).
Proof.
  assert (H : Forall (λ e, files !! e.1 = Some e.2) (map_to_list files)).
  { apply Forall_forall. intros [n f] Hin. by apply elem_of_map_to_list. }
  induction H as [|[n f] l Hx _ IH]; [done|].
  cbn [fmap list_fmap omap list_omap fst snd] in *. rewrite Hx.
  cbn [mbind option_bind]. by rewrite IH.
Qed.

Lemma elem_of_entries d w file f :
  (file, f) ∈ entries d w ↔ lookup_file d file w = Some f.
Proof.
  unfold entries, lookup_file. destruct (dir d w) as [files|].
  - apply elem_of_map_to_list.
  - split; [by intros ?%elem_of_nil | done].
Qed.

(** ** [Array.prototype.sort] *)

Section Array_sort_facts.
Context {A : Type} (comparefn : A → A → Res (option Z)).

Lemma sort_insert_perm x l r : sort_insert comparefn x l = Ok r → r ≡ₚ x :: l.
Proof.
  revert r. induction l as [|y l IH]; intros r; simpl.
  - by intros [= <-].
  - destruct (comparefn x y) as [v|]; simpl; [|done].
    destruct (nan_to_zero v <=? 0); [by intros [= <-]|].
    destruct (sort_insert comparefn x l) as [r'|]; simpl; [|done].
    intros [= <-]. rewrite (IH r' eq_refl). apply perm_swap.
Qed.

Lemma Array_sort_perm l r : Array_sort comparefn l = Ok r → r ≡ₚ l.
Proof.
  revert r. induction l as [|x l IH]; intros r; simpl.
  - by intros [= <-].
  - destruct (Array_sort comparefn l) as [s|]; simpl; [|done].
    intros Hr%sort_insert_perm. by rewrite Hr, (IH s eq_refl).
Qed.

(** On elements that the comparator orders by a key, the result is sorted. *)
Context (P : A → Prop) (key : A → Z).
Hypothesis comparefn_key :
  ∀ x y, P x → P y → comparefn x y = Ok (Some (key x - key y)).

Lemma sort_insert_sorted x l :
  P x → Forall P l → Sorted (key_le key) l →
  ∃ r, sort_insert comparefn x l = Ok r ∧ Sorted (key_le key) r ∧
       ∀ z, (key_le key) z x → HdRel (key_le key) z l → HdRel (key_le key) z r.
Proof.
  intros Hx. induction l as [|y l IH]; intros Hl Hs; simpl.
  - exists [x]. repeat split; [by repeat constructor|]. by constructor.
  - apply Forall_cons in Hl as [Hy Hl]. apply Sorted_inv in Hs as [Hs Hhd].
    rewrite comparefn_key by done. simpl.
    destruct (Z.leb_spec (key x - key y) 0) as [Hle|Hgt].
    + exists (x :: y :: l). repeat split; [|by constructor].
      constructor; [by constructor|]. constructor. unfold key_le. lia.
    + destruct (IH Hl Hs) as (r & -> & Hr & Hrel). simpl.
      exists (y :: r). repeat split.
      * constructor; [done|]. apply Hrel; [|done]. unfold key_le. lia.
      * intros z _ Hz. apply HdRel_inv in Hz. by constructor.
Qed.

Lemma Array_sort_sorted l :
  Forall P l →
  ∃ r, Array_sort comparefn l = Ok r ∧ r ≡ₚ l ∧ StronglySorted (key_le key) r.
Proof.
  intros Hl.
  assert (∃ r, Array_sort comparefn l = Ok r ∧ Sorted (key_le key) r) as (r & Hr & Hs).
  { induction Hl as [|x l Hx Hl IH]; simpl.
    - exists []. by split; [|constructor].
    - destruct IH as (s & Hs & Hsorted). rewrite Hs. simpl.
      assert (Forall P s) as HPs.
      { apply Array_sort_perm in Hs. by rewrite Hs. }
      destruct (sort_insert_sorted x s Hx HPs Hsorted) as (r & Hr & ? & _).
      exists r. by split. }
  exists r. split; [done|]. split; [by apply Array_sort_perm|].
  apply Sorted_StronglySorted; [|done].
  intros a b c. unfold key_le. lia.
Qed.
End Array_sort_facts.

Section Array_sort_total.
Context {A : Type} (comparefn : A → A → Res (option Z)) (P : A → Prop).
Hypothesis comparefn_total : ∀ x y, P x → P y → ∃ v, comparefn x y = Ok v.

Lemma sort_insert_total x l :
  P x → Forall P l → ∃ r, sort_insert comparefn x l = Ok r.
Proof.
  intros Hx. induction 1 as [|y l Hy Hl [r IH]]; simpl; [by eexists|].
  destruct (comparefn_total x y Hx Hy) as [v ->]. simpl.
  destruct (nan_to_zero v <=? 0); [by eexists|].
  rewrite IH. by eexists.
Qed.

Lemma Array_sort_total l : Forall P l → ∃ r, Array_sort comparefn l = Ok r.
Proof.
  induction 1 as [|x l Hx Hl [s IH]]; simpl; [by eexists|].
  rewrite IH. simpl. apply sort_insert_total; [done|].
  apply Array_sort_perm in IH. by rewrite IH.
Qed.
End Array_sort_total.


Lemma slice0_nil {A} limit : slice0 limit (@nil A) = [].
Proof. unfold slice0. by destruct (limit <? 0); rewrite take_nil. Qed.

Lemma slice0_length {A} limit (l : list A) :
  0 ≤ limit → (length (slice0 limit l) ≤ Z.to_nat limit)%nat.
Proof.
  intros Hlimit. unfold slice0.
  destruct (Z.ltb_spec limit 0); [lia|]. rewrite length_take. lia.
Qed.

(** The five-minute test, on whole milliseconds. *)
Lemma num_lt_diffMinutes now t :
  num_lt (diffMinutes now (Some t)) (inject_Z 5) = bool_decide (now - t < 5 * 60 * 1000).
Proof.
  unfold num_lt, diffMinutes. simpl.
  destruct (Qle_bool _ _) eqn:Hle; simpl; symmetry.
  - apply Qle_bool_iff in Hle. unfold Qle in Hle. simpl in Hle.
    apply bool_decide_eq_false. lia.
  - apply bool_decide_eq_true. apply not_true_iff_false in Hle.
    rewrite Qle_bool_iff in Hle. unfold Qle in Hle. simpl in Hle. lia.
Qed.

(** ** What the listing operations return *)

Section Listings.
Variable E : Env.
Variable this : Manager.

Lemma listActiveAgents_eq w :
  listActiveAgents E w =
  (Ok (omap (listed_agent E (clock w)) (entries AgentsDir w)), w).
Proof.
  unfold listActiveAgents, entries, try_catch, bind, readdir. simpl.
  destruct (agents w) as [files|] eqn:Hdir; [|done].
  rewrite (for_of_collect (λ n, files !! n ≫= λ f, listed_agent E (clock w) (n, f))).
  { by rewrite omap_names. }
  intros acc file _. unfold listed_agent, record, status_at. simpl.
  destruct (endsWith file ".json") eqn:Hjson.
  - unfold try_catch, bind, readFile_JSON_parse, lookup_file, lift, Date_now, ret.
    simpl. rewrite Hdir.
    destruct (files !! file) as [[mt [[| | | |o]|]]|]; simpl;
      rewrite ?app_nil_r; try done.
    by destruct (num_lt _ _).
  - unfold ret. destruct (files !! file); simpl; by rewrite app_nil_r.
Qed.

Lemma addressed_to_me_object l :
  Forall (λ j, ∃ o, j = JObj o) (omap (addressed_to_me this) l).
Proof.
  apply Forall_forall. intros j (e & _ & He)%list_elem_of_omap.
  unfold addressed_to_me in He.
  destruct (record e) as [[| | | |o]|]; try done.
  destruct (strict_eq _ _); [|done]. injection He as <-. by exists o.
Qed.

Lemma getIncomingMessages_eq w :
  ∃ sorted,
    Array_sort (oldest_first E) (omap (addressed_to_me this) (entries MessagesDir w))
      = Ok sorted ∧
    getIncomingMessages E this w = (Ok sorted, w).
Proof.
  destruct (Array_sort_total (oldest_first E) (λ j, ∃ o, j = JObj o))
    with (l := omap (addressed_to_me this) (entries MessagesDir w)) as [sorted Hsorted].
  { intros x y [ox ->] [oy ->]. by eexists. }
  { apply addressed_to_me_object. }
  exists sorted. split; [done|]. revert Hsorted.
  unfold getIncomingMessages, entries, try_catch, bind, readdir. simpl.
  destruct (messages w) as [files|] eqn:Hdir; [|by intros [= <-]].
  rewrite (for_of_collect (λ n, files !! n ≫= λ f, addressed_to_me this (n, f))).
  { rewrite omap_names. simpl. unfold lift. by intros ->. }
  intros acc file _. unfold addressed_to_me, record. simpl.
  destruct (endsWith file ".json") eqn:Hjson.
  - unfold try_catch, bind, readFile_JSON_parse, lookup_file, lift, ret.
    simpl. rewrite Hdir.
    destruct (files !! file) as [[mt [[| | | |o]|]]|]; simpl;
      rewrite ?app_nil_r; try done.
    destruct (strict_eq _ _); simpl; by rewrite ?app_nil_r.
  - unfold ret. destruct (files !! file); simpl; by rewrite app_nil_r.
Qed.

Lemma getMessageHistory_eq targetAgentId limit w :
  getMessageHistory E this targetAgentId limit w =
  (Ok match Array_sort (newest_first E)
              (omap (relevant_record this targetAgentId) (entries MessagesDir w)) with
      | Ok sorted => slice0 (default 50 limit) sorted
      | Throw _ => []
      end, w).
Proof.
  unfold getMessageHistory, entries, try_catch, bind, readdir. simpl.
  destruct (messages w) as [files|] eqn:Hdir.
  2: { cbn [omap list_omap Array_sort]. by rewrite slice0_nil. }
  rewrite (for_of_collect
             (λ n, files !! n ≫= λ f, relevant_record this targetAgentId (n, f))).
  { rewrite omap_names. simpl. unfold lift, ret. by destruct (Array_sort _ _). }
  intros acc file _. unfold relevant_record, record. simpl.
  destruct (endsWith file ".json") eqn:Hjson.
  - unfold try_catch, bind, readFile_JSON_parse, lookup_file, lift, ret.
    simpl. rewrite Hdir.
    destruct (files !! file) as [[mt [j|]]|]; simpl; rewrite ?app_nil_r; try done.
    destruct (isRelevant this targetAgentId j) as [[]|]; simpl;
      by rewrite ?app_nil_r.
  - unfold ret. destruct (files !! file); simpl; by rewrite app_nil_r.
Qed.
End Listings.

(** ** Ordering by timestamp *)

Lemma dated_time_of E j : dated E j → ∃ t, time_of E j = Some t.
Proof. intros (o & t & -> & Ht). exists t. unfold time_of. simpl. by rewrite Ht. Qed.

Lemma oldest_first_dated E x y :
  dated E x → dated E y →
  oldest_first E x y = Ok (Some (default 0 (time_of E x) - default 0 (time_of E y))).
Proof.
  intros (ox & tx & -> & Hx) (oy & ty & -> & Hy).
  unfold oldest_first, time_of. simpl. by rewrite Hx, Hy.
Qed.

Lemma newest_first_dated E x y :
  dated E x → dated E y →
  newest_first E x y =
  Ok (Some (- default 0 (time_of E x) - - default 0 (time_of E y))).
Proof.
  intros (ox & tx & -> & Hx) (oy & ty & -> & Hy).
  unfold newest_first, time_of. simpl. rewrite Hx, Hy. simpl.
  do 2 f_equal. lia.
Qed.

(** A sort by key of dated records is sorted by any relation the key order
    implies on dated records. *)
Lemma StronglySorted_dated E (key : Json → Z) (R : relation Json) (l : list Json) :
  (∀ x y, dated E x → dated E y → key x ≤ key y → R x y) →
  Forall (dated E) l →
  StronglySorted (key_le key) l → StronglySorted R l.
Proof.
  intros HR Hl Hs. induction Hs as [|x l Hs IH Hx]; [constructor|].
  apply Forall_cons in Hl as [Hdx Hl]. constructor; [by apply IH|].
  apply Forall_forall. intros y Hy. apply HR; [done| |].
  - by apply (proj1 (Forall_forall _ _) Hl).
  - by apply (proj1 (Forall_forall _ _) Hx).
Qed.

Lemma not_newer_of_key E x y :
  dated E x → dated E y →
  default 0 (time_of E x) ≤ default 0 (time_of E y) → not_newer E x y.
Proof.
  intros [tx Hx]%dated_time_of [ty Hy]%dated_time_of. rewrite Hx, Hy. simpl.
  intros Hle. by exists tx, ty.
Qed.

Lemma not_older_of_key E x y :
  dated E x → dated E y →
  - default 0 (time_of E x) ≤ - default 0 (time_of E y) → not_newer E y x.
Proof.
  intros [tx Hx]%dated_time_of [ty Hy]%dated_time_of. rewrite Hx, Hy. simpl.
  intros Hle. exists ty, tx. repeat split; [done..|lia].
Qed.

(** A list sorted by time that holds three records of strictly increasing
    times holds them in that order. *)
Lemma sorted_three E (l : list Json) (m1 m2 m3 : Json) (t1 t2 t3 : Z) :
  l ≡ₚ [m1; m2; m3] →
  StronglySorted (not_newer E) l →
  time_of E m1 = Some t1 → time_of E m2 = Some t2 → time_of E m3 = Some t3 →
  t1 < t2 → t2 < t3 →
  l = [m1; m2; m3].
Proof.
  intros Hperm Hs H1 H2 H3 H12 H23.
  assert (m1 ≠ m2 ∧ m1 ≠ m3 ∧ m2 ≠ m3) as (Hn12 & Hn13 & Hn23).
  { repeat split; intros ->; simplify_eq; lia. }
  assert (NoDup l) as Hnd.
  { rewrite Hperm. rewrite !NoDup_cons, !elem_of_cons, !elem_of_nil.
    repeat split; try tauto. apply NoDup_nil_2. }
  assert (length l = 3%nat) as Hlen by (by rewrite Hperm).
  destruct l as [|a [|b [|c [|]]]]; try done.
  assert (Hin : ∀ x, x ∈ [a; b; c] → x = m1 ∨ x = m2 ∨ x = m3).
  { intros x Hx. rewrite Hperm in Hx.
    rewrite !elem_of_cons, elem_of_nil in Hx. tauto. }
  apply StronglySorted_inv in Hs as [Hs Hab].
  apply StronglySorted_inv in Hs as [_ Hbc].
  apply Forall_cons in Hab as [(ta & tb & Ha & Hb & Hab) Hac].
  apply Forall_cons in Hac as [(ta' & tc & Ha' & Hc & Hac) _].
  apply Forall_cons in Hbc as [(tb' & tc' & Hb' & Hc' & Hbc) _].
  rewrite !NoDup_cons, !elem_of_cons, !elem_of_nil in Hnd.
  destruct Hnd as (Hna & Hnb & _).
  assert (a = m1 ∨ a = m2 ∨ a = m3) as Da by (apply Hin; repeat constructor).
  assert (b = m1 ∨ b = m2 ∨ b = m3) as Db by (apply Hin; repeat constructor).
  assert (c = m1 ∨ c = m2 ∨ c = m3) as Dc by (apply Hin; repeat constructor).
  destruct Da as [-> | [-> | ->]], Db as [-> | [-> | ->]], Dc as [-> | [-> | ->]];
    simplify_eq; try done; try lia; tauto.
Qed.

Lemma strict_eq_true v s : strict_eq v s = true ↔ v = Some (VStr s).
Proof.
  destruct v as [[x|]|]; simpl; [|done..].
  rewrite String.eqb_eq. split; [by intros ->|by intros [= ->]].
Qed.

Lemma addressed_to_me_Some this e j :
  addressed_to_me this e = Some j ↔
  endsWith e.1 ".json" = true ∧
  ∃ o, parsed e.2 = Some (JObj o) ∧ o !! "to" = Some (VStr (agentId this)) ∧ j = JObj o.
Proof.
  unfold addressed_to_me, record. destruct (endsWith e.1 ".json").
  - destruct (parsed e.2) as [[| | | |o]|]; try (split; [done|]; naive_solver).
    destruct (strict_eq (o !! "to") (agentId this)) eqn:Hto.
    + apply strict_eq_true in Hto. naive_solver.
    + split; [done|]. intros (_ & o' & [= <-] & Hto' & _).
      apply strict_eq_true in Hto'. congruence.
  - naive_solver.
Qed.

(** A property of every file of a directory, as a property of its entries. *)
Lemma Forall_entries (Q : string → File → Prop) d w :
  Forall (λ e, Q e.1 e.2) (entries d w) →
  ∀ file f, lookup_file d file w = Some f → Q file f.
Proof.
  intros H file f Hf. apply elem_of_entries in Hf.
  by apply (proj1 (Forall_forall _ _) H (file, f)).
Qed.

(** ** C5: the inbox, oldest first *)

(** C5.  [getIncomingMessages] returns exactly the persisted messages whose
    [to] is the caller's identifier (each [.json] file that parses to such a
    record, once per file), and leaves the store as it is.  When the
    timestamps of those messages are dates, the result is sorted ascending by
    timestamp; three such messages of strictly increasing timestamps come back
    in that order. *)
Theorem getIncomingMessages_oldest_first (E : Env) (this : Manager) (w : World) :
  (∀ file f o,
     lookup_file MessagesDir file w = Some f → endsWith file ".json" = true →
     parsed f = Some (JObj o) → o !! "to" = Some (VStr (agentId this)) →
     ∃ t, Date_getTime E (o !! "timestamp") = Some t) →
  ∃ result,
    getIncomingMessages E this w = (Ok result, w) ∧
    (∀ j, j ∈ result ↔
          ∃ file f o, lookup_file MessagesDir file w = Some f ∧
                      endsWith file ".json" = true ∧
                      parsed f = Some (JObj o) ∧
                      o !! "to" = Some (VStr (agentId this)) ∧ j = JObj o) ∧
    result ≡ₚ omap (addressed_to_me this) (entries MessagesDir w) ∧
    StronglySorted (not_newer E) result ∧
    (∀ m1 m2 m3 t1 t2 t3,
       omap (addressed_to_me this) (entries MessagesDir w) ≡ₚ [m1; m2; m3] →
       time_of E m1 = Some t1 → time_of E m2 = Some t2 → time_of E m3 = Some t3 →
       t1 < t2 → t2 < t3 →
       result = [m1; m2; m3]).
Proof.
  intros Hdated.
  set (inbox := omap (addressed_to_me this) (entries MessagesDir w)).
  assert (Forall (dated E) inbox) as Hinbox.
  { apply Forall_forall. intros j (e & He & Hj)%list_elem_of_omap.
    destruct e as [file f]. apply elem_of_entries in He.
    apply addressed_to_me_Some in Hj as (Hjson & o & Ho & Hto & ->).
    destruct (Hdated file f o) as [t Ht]; try done. by exists o, t. }
  destruct (getIncomingMessages_eq E this w) as (result & Hsort & Hrun).
  fold inbox in Hsort.
  destruct (Array_sort_sorted (oldest_first E) (dated E)
              (λ j, default 0 (time_of E j)) (oldest_first_dated E) inbox Hinbox)
    as (r & Hr & Hperm & Hsorted).
  rewrite Hsort in Hr. injection Hr as <-.
  assert (StronglySorted (not_newer E) result) as Hs.
  { apply (StronglySorted_dated E (λ j, default 0 (time_of E j))); [|by rewrite Hperm|done].
    apply not_newer_of_key. }
  exists result. repeat split; try done.
  - rewrite Hperm. intros (e & He & Hj)%list_elem_of_omap.
    destruct e as [file f]. apply elem_of_entries in He.
    apply addressed_to_me_Some in Hj as (Hjson & o & Ho & Hto & ->).
    by exists file, f, o.
  - intros (file & f & o & Hf & Hjson & Ho & Hto & ->).
    rewrite Hperm. apply list_elem_of_omap. exists (file, f).
    split; [by apply elem_of_entries|].
    apply addressed_to_me_Some. split; [done|]. by exists o.
  - intros m1 m2 m3 t1 t2 t3 Hthree. apply sorted_three; [|done].
    by rewrite Hperm.
Qed.

(** Replaces [entries d w] by the list it evaluates to. *)
Ltac list_entries d w :=
  let l := eval vm_compute in (entries d w) in
  change (entries d w) with l.

Lemma getIncomingMessages_oldest_first_witness :
  ∃ result,
    getIncomingMessages Sample.env Scenario.alice Scenario.inbox =
      (Ok result, Scenario.inbox) ∧
    result = [JObj Scenario.m1; JObj Scenario.m2; JObj Scenario.m3].
Proof.
  destruct (getIncomingMessages_oldest_first Sample.env Scenario.alice Scenario.inbox)
    as (result & Hrun & _ & _ & _ & Hthree).
  { intros file f o Hf. revert o. revert file f Hf.
    apply (Forall_entries (λ file f, ∀ o, endsWith file ".json" = true →
       parsed f = Some (JObj o) → o !! "to" = Some (VStr "id-alice") →
       ∃ t, Date_getTime Sample.env (o !! "timestamp") = Some t)).
    list_entries MessagesDir Scenario.inbox.
    repeat constructor; simpl; intros o _ Ho _; simplify_eq; eexists;
      vm_compute; reflexivity. }
  exists result. split; [done|].
  apply (Hthree _ _ _ Scenario.noon (Scenario.noon + 1000) (Scenario.noon + 2000));
    try (vm_compute; reflexivity).
  apply (bool_decide_unpack _). vm_compute. exact I.
Defined.

(** ** C6: online and offline *)

Lemma status_at_dated E now lastSeen t :
  Date_getTime E lastSeen = Some t →
  status_at E now lastSeen = if decide (now - t < 5 * 60 * 1000) then "online" else "offline".
Proof.
  intros Ht. unfold status_at. rewrite Ht, num_lt_diffMinutes.
  by destruct (decide _) as [H|H];
    [rewrite bool_decide_eq_true_2|rewrite bool_decide_eq_false_2].
Qed.

Lemma registerAgent_run E this sessionName w files :
  agents w = Some files →
  registerAgent E this sessionName w =
  (Ok (registered_with this),
   mkWorld (Some (<[agentId this +:+ ".json" := registration E this sessionName (clock w)]>
                    files))
           (messages w) (clock w) (drawn w) (shell w)).
Proof.
  intros Hdir. unfold registerAgent, new_Date_toISOString, bind, Date_now, ret, writeFile.
  simpl. by rewrite Hdir.
Qed.



(** ** Paths *)

Lemma String_length_app (a b : string) :
  String.length (a +:+ b) = (String.length a + String.length b)%nat.
Proof. induction a as [|c a IH]; [done|]. simpl. by rewrite IH. Qed.

Lemma directory_eq E d :
  directory E d =
  dirName d :: ".mcp-tmux" :: foldl normalizeString [] (String_split (HOME E) "/").
Proof. unfold directory. rewrite foldl_app. by destruct d. Qed.

Lemma directory_inj E d d' : directory E d = directory E d' → d = d'.
Proof. rewrite !directory_eq. by destruct d, d'. Qed.

(** [join] of a directory and a file name is the entry of that name. *)
Lemma path_join_file_name E d name :
  String_includes name "/" = false → name ≠ "" → name ≠ "." → name ≠ ".." →
  path_join E d name = name :: directory E d.
Proof.
  intros Hsep H1 H2 H3. unfold path_join.
  pose proof (String_split_none (Ascii.ascii_of_nat 47) name Hsep) as Hsplit.
  change (String (Ascii.ascii_of_nat 47) "") with "/" in Hsplit. rewrite Hsplit.
  simpl. unfold normalizeString.
  apply String.eqb_neq in H1, H2, H3. by rewrite H1, H2, H3.
Qed.

Lemma entry_of_directory E d file : entry_of E (file :: directory E d) = Some (d, file).
Proof.
  unfold entry_of. destruct d.
  - by rewrite decide_True.
  - rewrite decide_False; [by rewrite decide_True|]. by intros ?%directory_inj.
Qed.

(** [`${stem}.json`] is a file name when [stem] holds no separator. *)
Lemma entry_of_stem E d (stem : string) :
  String_includes stem "/" = false →
  entry_of E (path_join E d (stem +:+ ".json")) = Some (d, stem +:+ ".json").
Proof.
  intros Hsep. rewrite path_join_file_name; [apply entry_of_directory|..].
  - pose proof (String_includes_char_app (Ascii.ascii_of_nat 47) stem ".json") as Happ.
    change (String (Ascii.ascii_of_nat 47) "") with "/" in Happ.
    by rewrite Happ, Hsep.
  - intros H%(f_equal String.length). rewrite String_length_app in H. simpl in H. lia.
  - intros H%(f_equal String.length). rewrite String_length_app in H. simpl in H. lia.
  - intros H%(f_equal String.length). rewrite String_length_app in H. simpl in H. lia.
Qed.

Lemma UUID_file_name (id : UUID) : String_includes (id +:+ ".json") "/" = false.
Proof.
  pose proof (String_includes_char_app (Ascii.ascii_of_nat 47) id ".json") as Happ.
  change (String (Ascii.ascii_of_nat 47) "") with "/" in Happ.
  by rewrite Happ, UUID_no_separator.
Qed.

(** Two UUIDs that read the same are the same. *)
Lemma UUID_eq (a b : UUID) : (a : string) = b → a = b.
Proof. destruct a, b. simpl. intros ->. f_equal. apply proof_irrel. Qed.

Lemma entry_of_UUID E d (id : UUID) :
  entry_of E (path_join E d (id +:+ ".json")) = Some (d, id +:+ ".json").
Proof. apply entry_of_stem, UUID_no_separator. Qed.

(** ** C3: [getAgentInfo] returns the stored record *)

Lemma getAgentInfo_eq E agentId w :
  getAgentInfo E agentId w = (Ok (found E agentId w), w).
Proof.
  unfold getAgentInfo, found, try_catch, at_path, readFile_JSON_parse, throw.
  destruct (entry_of E _) as [[d file]|]; [|done].
  destruct (lookup_file _ _ w) as [[mt [j|]]|]; done.
Qed.

(** For an identifier that holds no separator, the record read is the one
    filed under the identifier in the agents directory. *)
Lemma found_stem E agentId w :
  String_includes (ToString agentId) "/" = false →
  found E agentId w = registry_record agentId w.
Proof. intros H. unfold found, registry_record. by rewrite entry_of_stem. Qed.

Lemma getAgentInfo_UUID E (id : UUID) w :
  getAgentInfo E (Some (VStr id)) w = (Ok (registry_record (Some (VStr id)) w), w).
Proof.
  rewrite getAgentInfo_eq, found_stem; [done|]. simpl. apply UUID_no_separator.
Qed.

(** C3.  An hour after Bob's last heartbeat [getAgentInfo] still returns his
    record with the stored status [online], where [listActiveAgents] returns
    the same record marked [offline]. *)
Theorem getAgentInfo_returns_stored_status :
  getAgentInfo Sample.env (Some (VStr "id-bob")) Scenario.stale =
    (Ok (JObj Scenario.bob_record), Scenario.stale) ∧
  Scenario.bob_record !! "status" = Some (VStr "online") ∧
  Date_getTime Sample.env (Scenario.bob_record !! "lastSeen") =
    Some (clock Scenario.stale - 60 * 60 * 1000) ∧
  listActiveAgents Sample.env Scenario.stale =
    (Ok [JObj (<["status" := VStr "offline"]> Scenario.bob_record)], Scenario.stale).
Proof. repeat split; vm_compute; reflexivity. Qed.

(** ** C2: the history, newest first *)

Lemma isRelevant_true this targetAgentId j :
  isRelevant this targetAgentId j = Ok true ↔ wanted this targetAgentId j.
Proof.
  unfold isRelevant, wanted. destruct targetAgentId as [target|]; [|done].
  destruct (String.eqb_spec target "") as [->|Hne]; [naive_solver|].
  destruct j as [| | | |o]; simpl; try (split; [done|]; naive_solver).
  split.
  - intros [= H]. right. exists o. split; [done|].
    rewrite <- !strict_eq_true.
    repeat (apply orb_true_iff in H as [H|H]); tauto.
  - intros [?|(o' & [= <-] & H)]; [done|]. f_equal.
    rewrite <- !strict_eq_true in H. rewrite !orb_true_iff. tauto.
Qed.

Lemma relevant_record_Some this targetAgentId e j :
  relevant_record this targetAgentId e = Some j ↔
  endsWith e.1 ".json" = true ∧ parsed e.2 = Some j ∧ wanted this targetAgentId j.
Proof.
  rewrite <- isRelevant_true. unfold relevant_record, record.
  destruct (endsWith e.1 ".json"); [|split; [done|by intros [? _]]].
  destruct (parsed e.2) as [j'|]; [|split; [done|by intros (_ & ? & _)]].
  split.
  - destruct (isRelevant this targetAgentId j') as [[]|] eqn:Hrel; try done.
    by intros [= <-].
  - by intros (_ & [= <-] & ->).
Qed.

(** C2, as the code has it.  [getMessageHistory] changes nothing and returns
    the first [limit] entries of the selected records sorted descending by
    timestamp, provided their timestamps are dates; the selected records are
    all parsed records when [targetAgentId] is absent or empty, and otherwise
    those with [targetAgentId] or the caller as sender or recipient.  For
    [limit >= 0] the result has at most [limit] entries. *)
Theorem getMessageHistory_newest_first (E : Env) (this : Manager)
    (targetAgentId : option string) (limit : option Z) (w : World) :
  (∀ file f j,
     lookup_file MessagesDir file w = Some f → endsWith file ".json" = true →
     parsed f = Some j → wanted this targetAgentId j → dated E j) →
  ∃ result sorted,
    getMessageHistory E this targetAgentId limit w = (Ok result, w) ∧
    result = slice0 (default 50 limit) sorted ∧
    (0 ≤ default 50 limit → (length result ≤ Z.to_nat (default 50%Z limit))%nat) ∧
    StronglySorted (flip (not_newer E)) sorted ∧
    sorted ≡ₚ omap (relevant_record this targetAgentId) (entries MessagesDir w) ∧
    (∀ j, j ∈ sorted ↔
          ∃ file f, lookup_file MessagesDir file w = Some f ∧
                    endsWith file ".json" = true ∧ parsed f = Some j ∧
                    wanted this targetAgentId j).
Proof.
  intros Hdated.
  set (selected := omap (relevant_record this targetAgentId) (entries MessagesDir w)).
  assert (Forall (dated E) selected) as Hselected.
  { apply Forall_forall. intros j (e & He & Hj)%list_elem_of_omap.
    destruct e as [file f]. apply elem_of_entries in He.
    apply relevant_record_Some in Hj as (Hjson & Hj & Hwanted).
    by apply (Hdated file f). }
  destruct (Array_sort_sorted (newest_first E) (dated E)
              (λ j, - default 0 (time_of E j)) (newest_first_dated E) selected Hselected)
    as (sorted & Hsort & Hperm & Hsorted).
  exists (slice0 (default 50 limit) sorted), sorted.
  split. { rewrite getMessageHistory_eq. fold selected. by rewrite Hsort. }
  split; [done|]. split; [apply slice0_length|].
  split.
  { apply (StronglySorted_dated E (λ j, - default 0 (time_of E j)));
      [|by rewrite Hperm|done].
    intros x y. apply not_older_of_key. }
  split; [done|]. intros j. rewrite Hperm. split.
  - intros (e & He & Hj)%list_elem_of_omap.
    destruct e as [file f]. apply elem_of_entries in He.
    apply relevant_record_Some in Hj as (Hjson & Hj & Hwanted).
    by exists file, f.
  - intros (file & f & Hf & Hjson & Hj & Hwanted).
    apply list_elem_of_omap. exists (file, f).
    split; [by apply elem_of_entries|]. by apply relevant_record_Some.
Qed.

(** C2 as stated fails: with no [targetAgentId], Alice's history holds [m4],
    a record that Bob sent to Carol. *)
Lemma getMessageHistory_returns_others_records :
  getMessageHistory Sample.env Scenario.alice None (Some 50) Scenario.inbox =
    (Ok [JObj Scenario.m3; JObj Scenario.m2; JObj Scenario.m4; JObj Scenario.m1],
     Scenario.inbox) ∧
  Scenario.m4 !! "from" = Some (VStr "id-bob") ∧
  Scenario.m4 !! "to" = Some (VStr "id-carol") ∧
  (agentId Scenario.alice : string) = "id-alice".
Proof.
  split; [vm_compute; reflexivity|]. split; [vm_compute; reflexivity|].
  split; vm_compute; reflexivity.
Qed.

Lemma getMessageHistory_newest_first_witness :
  ∃ result sorted,
    getMessageHistory Sample.env Scenario.alice (Some "id-carol") (Some 1) Scenario.inbox =
      (Ok result, Scenario.inbox) ∧
    result = slice0 1 sorted ∧
    (length result ≤ 1)%nat ∧
    StronglySorted (flip (not_newer Sample.env)) sorted ∧
    (JObj Scenario.m4 ∈ sorted).
Proof.
  destruct (getMessageHistory_newest_first Sample.env Scenario.alice
              (Some "id-carol") (Some 1) Scenario.inbox)
    as (result & sorted & Hrun & Hresult & Hlen & Hsorted & _ & Hin).
  { intros file f j Hf. revert j. revert file f Hf.
    apply (Forall_entries (λ file f, ∀ j, endsWith file ".json" = true →
       parsed f = Some j → wanted Scenario.alice (Some "id-carol") j →
       dated Sample.env j)).
    list_entries MessagesDir Scenario.inbox.
    repeat constructor; simpl; intros j _ Hj _; simplify_eq;
      eexists _, _; (split; [reflexivity|vm_compute; reflexivity]). }
  exists result, sorted. split; [done|]. split; [done|].
  split; [apply Hlen; simpl; lia|]. split; [done|].
  apply Hin. exists "m4.json", (Scenario.stored (Scenario.noon + 500) Scenario.m4).
    split; [vm_compute; reflexivity|]. split; [vm_compute; reflexivity|].
    split; [reflexivity|].
    right. exists Scenario.m4. split; [done|]. right. left. vm_compute. reflexivity.
Defined.

(** ** C4: a record that is not of the expected shape *)

(** C4.  In a store that holds a message for Alice, a file that is not JSON
    and a file whose JSON is [null], the inbox and the history with a target
    pass over both files and return the message; the history without a target
    returns nothing at all, the message included: [null] is pushed unread, the
    comparator of the sort throws on it, and the outer [catch] answers [[]].
    Without the [null] file the same call returns the message. *)
Theorem getMessageHistory_null_file_hides_records :
  getIncomingMessages Sample.env Scenario.alice Scenario.corrupted =
    (Ok [JObj Scenario.m1], Scenario.corrupted) ∧
  getMessageHistory Sample.env Scenario.alice (Some "id-bob") None Scenario.corrupted =
    (Ok [JObj Scenario.m1], Scenario.corrupted) ∧
  getMessageHistory Sample.env Scenario.alice None None Scenario.corrupted =
    (Ok [], Scenario.corrupted) ∧
  (∀ files,
     messages Scenario.corrupted = Some files →
     let w := set_dir MessagesDir (Some (delete "null.json" files)) Scenario.corrupted in
     getMessageHistory Sample.env Scenario.alice None None w = (Ok [JObj Scenario.m1], w)).
Proof.
  split; [vm_compute; reflexivity|]. split; [vm_compute; reflexivity|].
  split; [vm_compute; reflexivity|]. intros files [= <-]. vm_compute. reflexivity.
Qed.

(** ** Sending: persistence first, delivery second *)

Section Sending.
Variable E : Env.
Variable this : Manager.

(** What the two-step delivery does, by what the shell answers. *)
Lemma deliver_run target text w :
  let first := send_keys_cmd target text false in
  let enter := send_keys_cmd target "" true in
  deliver E target text w =
  match exec_error E first with
  | Some msg => (Throw (ExecError msg), after_shell [first] 0 w)
  | None =>
      match exec_error E enter with
      | Some msg => (Throw (ExecError msg), after_shell [first; enter] 500 w)
      | None => (Ok tt, after_shell [first; enter] 500 w)
      end
  end.
Proof.
  simpl. unfold deliver, sendKeys, execAsync, setTimeout, bind, ret, after_shell.
  simpl. destruct (exec_error E (send_keys_cmd target text false)); simpl.
  - by rewrite Z.add_0_r.
  - rewrite <- app_assoc. simpl.
    by destruct (exec_error E (send_keys_cmd target "" true)).
Qed.

(** Delivery touches the shell and the clock, nothing else. *)
Lemma deliver_frame target text w :
  ∃ r rest waited,
    deliver E target text w =
    (r, after_shell (send_keys_cmd target text false :: rest) waited w).
Proof.
  rewrite deliver_run. simpl.
  destruct (exec_error E (send_keys_cmd target text false)); [by eexists _, _, _|].
  destruct (exec_error E (send_keys_cmd target "" true)); by eexists _, _, _.
Qed.

Lemma sendMessage_run targetAgentId content type w files :
  messages w = Some files →
  let w1 := persisted (uuid E (drawn w) +:+ ".json")
              (sent_message E this targetAgentId content type w) files w in
  sendMessage E this targetAgentId content type w =
  match type, registered_session (found E targetAgentId w1) with
  | message_, Some sess =>
      match deliver E (ToString sess +:+ ":0") content w1 with
      | (Ok _, w2) =>
          (Ok ("Message sent to agent " +:+ ToString targetAgentId +:+
               " in tmux session " +:+ ToString sess +:+ ": " +:+ content), w2)
      | (Throw error, w2) =>
          (Ok ("Message saved for agent " +:+ ToString targetAgentId +:+
               ", but failed to send to tmux: " +:+ error_message error), w2)
      end
  | _, _ =>
      (Ok ("Message sent to agent " +:+ ToString targetAgentId +:+ ": " +:+ content), w1)
  end.
Proof.
  intros Hdir. simpl.
  unfold sendMessage, randomUUID, new_Date_toISOString, Date_now, bind, ret, writeFile.
  simpl. rewrite Hdir. destruct type; [done|].
  rewrite getAgentInfo_eq. unfold persisted, sent_message. simpl.
  destruct (registered_session _); [|done].
  unfold try_catch, bind, ret. by destruct (deliver _ _ _ _) as [[|] ?].
Qed.

Lemma sendMessage_no_directory targetAgentId content type w :
  messages w = None →
  sendMessage E this targetAgentId content type w =
  (Throw (ENOENT (join MessagesDir (uuid E (drawn w) +:+ ".json"))),
   mkWorld (agents w) None (clock w) (S (drawn w)) (shell w)).
Proof.
  intros Hdir.
  unfold sendMessage, randomUUID, new_Date_toISOString, Date_now, bind, ret, writeFile.
  simpl. by rewrite Hdir.
Qed.

Lemma sendCommandToAgent_run targetAgentId command sessionInfo w files :
  messages w = Some files →
  let w1 := persisted (uuid E (drawn w) +:+ ".json")
              (sent_command E this targetAgentId command sessionInfo w) files w in
  sendCommandToAgent E this targetAgentId command sessionInfo w =
  match sessionInfo with
  | Some sessionInfo =>
      match deliver E (session_target sessionInfo) command w1 with
      | (Ok _, w2) =>
          (Ok ("Command sent to agent " +:+ targetAgentId +:+
               " and executed in tmux: " +:+ command), w2)
      | (Throw error, w2) =>
          (Ok ("Command queued for agent " +:+ targetAgentId +:+
               ", but failed to execute in tmux: " +:+ error_message error), w2)
      end
  | None =>
      match registered_session (found E (Some (VStr targetAgentId)) w1) with
      | Some sess =>
          match deliver E (ToString sess +:+ ":0") command w1 with
          | (Ok _, w2) =>
              (Ok ("Command sent to agent " +:+ targetAgentId +:+
                   " in tmux session " +:+ ToString sess +:+ ": " +:+ command), w2)
          | (Throw error, w2) =>
              (Ok ("Command queued for agent " +:+ targetAgentId +:+
                   ", but failed to send to tmux: " +:+ error_message error), w2)
          end
      | None =>
          (Ok ("Command queued for agent " +:+ targetAgentId +:+ ": " +:+ command), w1)
      end
  end.
Proof.
  intros Hdir. simpl.
  unfold sendCommandToAgent, randomUUID, new_Date_toISOString, Date_now, bind, ret,
    writeFile.
  simpl. rewrite Hdir. destruct sessionInfo as [si|].
  - unfold try_catch, bind, ret. by destruct (deliver _ _ _ _) as [[|] ?].
  - rewrite getAgentInfo_eq. unfold persisted, sent_command. simpl.
    destruct (registered_session _); [|done].
    unfold try_catch, bind, ret. by destruct (deliver _ _ _ _) as [[|] ?].
Qed.

Lemma sendCommandToAgent_no_directory targetAgentId command sessionInfo w :
  messages w = None →
  sendCommandToAgent E this targetAgentId command sessionInfo w =
  (Throw (ENOENT (join MessagesDir (uuid E (drawn w) +:+ ".json"))),
   mkWorld (agents w) None (clock w) (S (drawn w)) (shell w)).
Proof.
  intros Hdir.
  unfold sendCommandToAgent, randomUUID, new_Date_toISOString, Date_now, bind, ret,
    writeFile.
  simpl. by rewrite Hdir.
Qed.

(** Whatever the shell does, a send returns normally, and its effect is the
    record written, one UUID drawn, and what delivery did to the shell and
    the clock. *)
Lemma sendMessage_effect targetAgentId content type w files :
  messages w = Some files →
  ∃ s cmds waited,
    sendMessage E this targetAgentId content type w =
    (Ok s, after_shell cmds waited
             (persisted (uuid E (drawn w) +:+ ".json")
                (sent_message E this targetAgentId content type w) files w)).
Proof.
  intros Hdir. rewrite (sendMessage_run _ _ _ _ files Hdir). simpl.
  assert (∀ w1 (s : string), ∃ s' cmds waited,
            (Ok s, w1) = (Ok s', after_shell cmds waited w1)) as Hsame.
  { intros w1 s. exists s, [], 0. unfold after_shell.
    rewrite app_nil_r, Z.add_0_r. by destruct w1. }
  destruct type; [apply Hsame|].
  destruct (registered_session _) as [sess|]; [|apply Hsame].
  destruct (deliver_frame (ToString sess +:+ ":0") content
              (persisted (uuid E (drawn w) +:+ ".json")
                 (sent_message E this targetAgentId content message_ w) files w))
    as (r & rest & waited & ->).
  destruct r; by eexists _, _, _.
Qed.

Lemma sendCommandToAgent_effect targetAgentId command sessionInfo w files :
  messages w = Some files →
  ∃ s cmds waited,
    sendCommandToAgent E this targetAgentId command sessionInfo w =
    (Ok s, after_shell cmds waited
             (persisted (uuid E (drawn w) +:+ ".json")
                (sent_command E this targetAgentId command sessionInfo w) files w)).
Proof.
  intros Hdir. rewrite (sendCommandToAgent_run _ _ _ _ files Hdir). simpl.
  assert (∀ w1 (s : string), ∃ s' cmds waited,
            (Ok s, w1) = (Ok s', after_shell cmds waited w1)) as Hsame.
  { intros w1 s. exists s, [], 0. unfold after_shell.
    rewrite app_nil_r, Z.add_0_r. by destruct w1. }
  destruct sessionInfo as [si|].
  - destruct (deliver_frame (session_target si) command
                (persisted (uuid E (drawn w) +:+ ".json")
                   (sent_command E this targetAgentId command (Some si) w) files w))
      as (r & rest & waited & ->).
    destruct r; by eexists _, _, _.
  - destruct (registered_session _) as [sess|]; [|apply Hsame].
    destruct (deliver_frame (ToString sess +:+ ":0") command
                (persisted (uuid E (drawn w) +:+ ".json")
                   (sent_command E this targetAgentId command None w) files w))
      as (r & rest & waited & ->).
    destruct r; by eexists _, _, _.
Qed.
End Sending.

(** A message record has no [session]: no delivery goes by it. *)
Lemma AgentMessage_session id from to type content timestamp sessionInfo :
  registered_session
    (JObj (AgentMessage id from to type content timestamp sessionInfo)) = None.
Proof.
  unfold registered_session, AgentMessage, with_prop.
  destruct to, sessionInfo; simpl; by simplify_map_eq.
Qed.

(** The record found once a message is written: the message itself when the
    path leads to its file, and otherwise the record found before. *)
Lemma found_persisted E agentId file o files w :
  messages w = Some files →
  found E agentId (persisted file o files w) =
  if decide (entry_of E (path_join E AgentsDir (ToString agentId +:+ ".json")) =
             Some (MessagesDir, file))
  then JObj o else found E agentId w.
Proof.
  intros Hdir. unfold found.
  destruct (entry_of E _) as [[[] name]|].
  - by destruct (decide _) as [[=]|_].
  - destruct (decide _) as [[= ->]|Hne]; unfold lookup_file; simpl; rewrite ?Hdir.
    + by rewrite lookup_insert_eq.
    + rewrite lookup_insert_ne; [done|]. by intros ->.
  - by destruct (decide _).
Qed.

(** A session found after the write was found before it. *)
Lemma found_persisted_session E this agentId content type w files sess :
  messages w = Some files →
  registered_session
    (found E agentId
       (persisted (uuid E (drawn w) +:+ ".json")
          (sent_message E this agentId content type w) files w)) = Some sess →
  registered_session (found E agentId w) = Some sess.
Proof.
  intros Hdir. rewrite (found_persisted _ _ _ _ files) by done.
  destruct (decide _); [|done]. unfold sent_message.
  by rewrite AgentMessage_session.
Qed.

(** No session found before the write, none after it. *)
Lemma found_persisted_none E agentId file id from to type content timestamp sessionInfo
    files w :
  messages w = Some files →
  registered_session (found E agentId w) = None →
  registered_session
    (found E agentId
       (persisted file (AgentMessage id from to type content timestamp sessionInfo)
          files w)) = None.
Proof.
  intros Hdir Hnone. rewrite (found_persisted _ _ _ _ files) by done.
  destruct (decide _); [apply AgentMessage_session|done].
Qed.

(** For a target whose identifier holds no separator the record found is the
    one the registry files under it, before the write as after. *)
Lemma found_persisted_stem E agentId file o files w :
  String_includes (ToString agentId) "/" = false →
  found E agentId (persisted file o files w) = registry_record agentId w.
Proof. intros H. by rewrite found_stem. Qed.

(** ** C7: a failed delivery is reported, a failed write is thrown *)

(** C7.  While the messages directory exists, [sendMessage] and
    [sendCommandToAgent] return normally whatever the shell answers, and leave
    the new record in the store exactly as written, every other record and
    the registry as they were.  When the delivery fails, at the text or at
    Enter, towards the session given with the command or the one read from
    the registry, the returned string carries the error's message.  When the
    record cannot be written, the error of [writeFile] is thrown to the
    caller. *)
Theorem send_survives_delivery_failure (E : Env) (this : Manager)
    (to : JSValue) (targetAgentId text : string) (type : SendType)
    (sessionInfo : option SessionInfo) (w : World) :
  let file := uuid E (drawn w) +:+ ".json" in
  let message := sent_message E this to text type w in
  let command := sent_command E this targetAgentId text sessionInfo w in
  match messages w with
  | Some files =>
      (∃ s w',
         sendMessage E this to text type w = (Ok s, w') ∧
         messages w' = Some (<[file := mkFile (clock w) (Some (JObj message))]> files) ∧
         agents w' = agents w ∧
         ∀ sess msg,
           type = message_ →
           registered_session (found E to (persisted file message files w)) = Some sess →
           delivery_error E (ToString sess +:+ ":0") text = Some msg →
           s = "Message saved for agent " +:+ ToString to +:+
               ", but failed to send to tmux: " +:+ msg) ∧
      (∃ s w',
         sendCommandToAgent E this targetAgentId text sessionInfo w = (Ok s, w') ∧
         messages w' = Some (<[file := mkFile (clock w) (Some (JObj command))]> files) ∧
         agents w' = agents w ∧
         (∀ si msg,
            sessionInfo = Some si →
            delivery_error E (session_target si) text = Some msg →
            s = "Command queued for agent " +:+ targetAgentId +:+
                ", but failed to execute in tmux: " +:+ msg) ∧
         (∀ sess msg,
            sessionInfo = None →
            registered_session
              (found E (Some (VStr targetAgentId)) (persisted file command files w)) =
              Some sess →
            delivery_error E (ToString sess +:+ ":0") text = Some msg →
            s = "Command queued for agent " +:+ targetAgentId +:+
                ", but failed to send to tmux: " +:+ msg))
  | None =>
      (sendMessage E this to text type w).1 = Throw (ENOENT (join MessagesDir file)) ∧
      (sendCommandToAgent E this targetAgentId text sessionInfo w).1 =
        Throw (ENOENT (join MessagesDir file))
  end.
Proof.
  cbv zeta. destruct (messages w) as [files|] eqn:Hdir.
  - assert (∀ target (r : string → string) (s ok : string) (v v' : World) msg,
              delivery_error E target text = Some msg →
              match deliver E target text v with
              | (Ok _, w2) => (Ok ok, w2)
              | (Throw error, w2) => (Ok (r (error_message error)), w2)
              end = (Ok s, v') →
              s = r msg) as Hreport.
    { intros target r s ok v v' msg Herr. rewrite deliver_run. cbv zeta.
      unfold delivery_error in Herr.
      destruct (exec_error E (send_keys_cmd target text false)) as [m|].
      - injection Herr as ->. by intros [= <-].
      - rewrite Herr. by intros [= <-]. }
    split.
    + destruct (sendMessage_effect E this to text type w files Hdir)
        as (s & cmds & waited & Hrun).
      eexists _, _. split; [exact Hrun|]. split; [done|]. split; [done|].
      intros sess msg -> Hsess Herr. revert Hrun.
      rewrite (sendMessage_run E this to text message_ w files Hdir). cbv zeta.
      rewrite Hsess.
      apply (Hreport _ (λ m, "Message saved for agent " +:+ ToString to +:+
                             ", but failed to send to tmux: " +:+ m)), Herr.
    + destruct (sendCommandToAgent_effect E this targetAgentId text sessionInfo w files Hdir)
        as (s & cmds & waited & Hrun).
      eexists _, _. split; [exact Hrun|]. split; [done|]. split; [done|]. split.
      * intros si msg -> Herr. revert Hrun.
        rewrite (sendCommandToAgent_run E this targetAgentId text (Some si) w files Hdir).
        cbv zeta.
        apply (Hreport _ (λ m, "Command queued for agent " +:+ targetAgentId +:+
                               ", but failed to execute in tmux: " +:+ m)), Herr.
      * intros sess msg -> Hsess Herr. revert Hrun.
        rewrite (sendCommandToAgent_run E this targetAgentId text None w files Hdir).
        cbv zeta. rewrite Hsess.
        apply (Hreport _ (λ m, "Command queued for agent " +:+ targetAgentId +:+
                               ", but failed to send to tmux: " +:+ m)), Herr.
  - by rewrite sendMessage_no_directory, sendCommandToAgent_no_directory.
Qed.

(** ** C9: where a command is delivered *)


(** ** C10: one identifier, one record *)

Lemma register_each_loop E this (calls : list (Z * string)) :
  ∀ confirmations w files,
    agents w = Some files →
    ∃ files' waited,
      for_of calls confirmations (λ confirmations call,
        setTimeout call.1;;;
        let* confirmation := registerAgent E this call.2 in
        ret (confirmations ++ [confirmation])) w =
      (Ok (confirmations ++ ((λ _, registered_with this) <$> calls)),
       mkWorld (Some files') (messages w) (clock w + waited) (drawn w) (shell w)) ∧
      (∀ file, file ≠ agentId this +:+ ".json" → files' !! file = files !! file) ∧
      match last calls with
      | Some call =>
          files' !! (agentId this +:+ ".json") =
            Some (registration E this call.2 (clock w + waited))
      | None => files' = files ∧ waited = 0
      end.
Proof.
  induction calls as [|[pause sessionName] calls IH]; intros confirmations w files Hdir.
  - exists files, 0. simpl. unfold ret. rewrite app_nil_r, Z.add_0_r.
    destruct w; simpl in *. by subst.
  - cbn [for_of]. unfold bind at 1. unfold bind at 1. unfold setTimeout at 1.
    unfold bind at 1. cbn [fst snd].
    rewrite (registerAgent_run E this sessionName
               (mkWorld (agents w) (messages w) (clock w + pause) (drawn w) (shell w))
               files Hdir).
    unfold ret at 1. cbn [agents messages clock drawn shell].
    edestruct (IH (confirmations ++ [registered_with this]))
      as (files' & waited & -> & Hother & Hlast); [reflexivity|].
    cbn [agents messages clock drawn shell] in *.
    exists files', (pause + waited). split; [|split].
    + rewrite <- app_assoc, Z.add_assoc. done.
    + intros file Hfile. rewrite Hother by done. by apply lookup_insert_ne.
    + rewrite Z.add_assoc. destruct calls as [|call calls].
      * simpl in *. destruct Hlast as [-> ->]. rewrite Z.add_0_r.
        apply lookup_insert_eq.
      * change (last ((pause, sessionName) :: call :: calls))
          with (last (call :: calls)).
        destruct (last (call :: calls)) eqn:Hl; [exact Hlast|].
        by apply last_None in Hl.
Qed.

(** The constructor draws the identifier and leaves the store as it is. *)
Lemma constructor_run E name w0 :
  constructor E name w0 =
  (Ok (mkManager (uuid E (drawn w0)) name),
   mkWorld (agents w0) (messages w0) (clock w0) (S (drawn w0)) (shell w0)).
Proof. done. Qed.

(** C10.  The identifier is drawn once, by the constructor, which leaves
    the directories as they were.  Every [registerAgent] call of that manager
    then reports this identifier in its confirmation and writes the one file
    named after it: the other files of the registry stay as they were, no
    other file appears, and after any number of calls that file holds the
    record of the last call, whose [id] is this identifier. *)
Theorem registerAgent_same_identifier (E : Env) (name : string) (w0 w1 : World)
    (this : Manager) :
  constructor E name w0 = (Ok this, w1) →
  agentId this = uuid E (drawn w0) ∧
  agentName this = name ∧
  agents w1 = agents w0 ∧ messages w1 = messages w0 ∧
  ∀ (calls : list (Z * string)) (w : World) (files : Dir),
    agents w = Some files →
    ∃ w' files',
      register_each E this calls w =
        (Ok ((λ _, "Agent " +:+ quote +:+ name +:+ quote +:+
                   " registered with ID: " +:+ uuid E (drawn w0)) <$> calls), w') ∧
      agents w' = Some files' ∧
      (∀ file, file ≠ uuid E (drawn w0) +:+ ".json" → files' !! file = files !! file) ∧
      dom files' ⊆ {[uuid E (drawn w0) +:+ ".json"]} ∪ dom files ∧
      match last calls with
      | Some call =>
          ∃ record : JSObject,
            files' !! (uuid E (drawn w0) +:+ ".json") =
              Some (mkFile (clock w') (Some (JObj record))) ∧
            record !! "id" = Some (VStr (uuid E (drawn w0))) ∧
            record !! "name" = Some (VStr name) ∧
            record !! "session" = Some (VStr call.2) ∧
            record !! "lastSeen" = Some (VStr (toISOString E (clock w'))) ∧
            record !! "status" = Some (VStr "online") ∧
            dom record = {["id"; "name"; "session"; "lastSeen"; "status"]}
      | None => files' = files
      end.
Proof.
  rewrite constructor_run. intros [= <- <-].
  split; [done|]. split; [done|]. split; [done|]. split; [done|].
  intros calls w files Hdir.
  destruct (register_each_loop E (mkManager (uuid E (drawn w0)) name) calls [] w files Hdir)
    as (files' & waited & Hrun & Hother & Hlast).
  eexists _, files'. split; [exact Hrun|]. split; [done|]. split; [done|].
  split.
  - intros file Hfile. apply elem_of_dom in Hfile.
    destruct (decide (file = uuid E (drawn w0) +:+ ".json")) as [->|Hne];
      [set_solver|].
    rewrite (Hother file Hne) in Hfile. apply elem_of_dom in Hfile. set_solver.
  - destruct (last calls) as [call|]; [|by destruct Hlast].
    eexists. split; [exact Hlast|]. unfold AgentInfo. simpl.
    repeat split; by simplify_map_eq.
Qed.

(** ** C8: pruning by age *)

Lemma pruned_lookup_other cutoff l : ∀ cur file,
  file ∉ l.*1 → pruned cutoff l cur !! file = cur !! file.
Proof.
  induction l as [|e l IH]; intros cur file Hfile; [done|].
  apply not_elem_of_cons in Hfile as [Hne Hfile]. simpl.
  rewrite IH by done. destruct (decide (old cutoff e)); [|done].
  by apply lookup_delete_ne.
Qed.

Lemma pruned_lookup cutoff l : ∀ cur file f,
  NoDup l.*1 → (file, f) ∈ l → cur !! file = Some f →
  pruned cutoff l cur !! file = if decide (old cutoff (file, f)) then None else Some f.
Proof.
  induction l as [|e l IH]; intros cur file f Hnd Hin Hcur; [by apply elem_of_nil in Hin|].
  apply NoDup_cons in Hnd as [Hfresh Hnd]. simpl.
  apply elem_of_cons in Hin as [<-|Hin].
  - rewrite pruned_lookup_other by done. simpl.
    destruct (decide (old cutoff (file, f))); [apply lookup_delete_eq|done].
  - assert (e.1 ≠ file) as Hne.
    { intros <-. apply Hfresh. apply list_elem_of_fmap. by exists (e.1, f). }
    apply IH; [done..|]. destruct (decide (old cutoff e)); [|done].
    by rewrite lookup_delete_ne.
Qed.

Lemma pruned_none cutoff l cur :
  Forall (λ e, ¬ old cutoff e) l →
  pruned cutoff l cur = cur ∧ filter (old cutoff) l = [].
Proof.
  induction 1 as [|e l He Hl [IH1 IH2]]; [done|].
  simpl. rewrite filter_cons. by rewrite !decide_False.
Qed.

Lemma set_dir_same w files :
  messages w = Some files → set_dir MessagesDir (Some files) w = w.
Proof. intros <-. by destruct w. Qed.

(** The loop of [clearOldMessages] over entries that are all still present,
    when the cutoff is a valid date. *)
Lemma clear_loop cutoff (l : list (string * File)) :
  ∀ (cur : Dir) (count : nat) (w : World),
    NoDup l.*1 → messages w = Some cur → (∀ e, e ∈ l → cur !! e.1 = Some e.2) →
    for_of l.*1 count (λ deletedCount file,
      if endsWith file ".json" then
        let* mtime := stat_mtime MessagesDir file in
        if Date_lt (Some mtime) (Some cutoff) then
          unlink MessagesDir file;;;
          ret (S deletedCount)
        else ret deletedCount
      else ret deletedCount) w =
    (Ok (count + length (filter (old cutoff) l))%nat,
     set_dir MessagesDir (Some (pruned cutoff l cur)) w).
Proof.
  unfold Date_lt.
  induction l as [|[file f] l IH]; intros cur count w Hnd Hdir Hcur.
  - change (pruned cutoff [] cur) with cur. rewrite set_dir_same by done.
    rewrite filter_nil. simpl. unfold ret. by rewrite Nat.add_0_r.
  - apply NoDup_cons in Hnd as [Hfresh Hnd].
    pose proof (Hcur (file, f) ltac:(left)) as Hf. simpl in Hf.
    rewrite filter_cons. cbn [fmap list_fmap fst for_of pruned foldl].
    unfold bind at 1.
    destruct (decide (old cutoff (file, f))) as [[Hjson Hold]|Hyoung]; simpl in *.
    + rewrite Hjson. unfold bind at 1, stat_mtime, lookup_file. simpl.
      rewrite Hdir, Hf. rewrite (proj2 (Z.ltb_lt _ _) Hold).
      unfold bind, unlink, ret. simpl. rewrite Hdir, Hf.
      rewrite (IH (delete file cur)); [|done|done|].
      { simpl. f_equal. f_equal. lia. }
      intros e He. rewrite lookup_delete_ne; [by apply Hcur; right|].
      intros ->. apply Hfresh. by apply list_elem_of_fmap_2.
    + assert ((if endsWith file ".json"
               then let* mtime := stat_mtime MessagesDir file
                    in if mtime <? cutoff
                       then unlink MessagesDir file;;; ret (S count)
                       else ret count
               else ret count) w = (Ok count, w)) as ->.
      { destruct (endsWith file ".json") eqn:Hjson; [|done].
        unfold bind, stat_mtime, lookup_file. simpl. rewrite Hdir, Hf.
        destruct (Z.ltb_spec (mtime f) cutoff); [|done].
        destruct Hyoung. by split. }
      apply IH; [done..|]. intros e He. apply Hcur. by right.
Qed.

(** The same loop when the cutoff is an invalid date: no file is older. *)
Lemma clear_loop_invalid (l : list (string * File)) :
  ∀ (cur : Dir) (count : nat) (w : World),
    messages w = Some cur → (∀ e, e ∈ l → cur !! e.1 = Some e.2) →
    for_of l.*1 count (λ deletedCount file,
      if endsWith file ".json" then
        let* mtime := stat_mtime MessagesDir file in
        if Date_lt (Some mtime) None then
          unlink MessagesDir file;;;
          ret (S deletedCount)
        else ret deletedCount
      else ret deletedCount) w =
    (Ok count, w).
Proof.
  induction l as [|[file f] l IH]; intros cur count w Hdir Hcur; [done|].
  pose proof (Hcur (file, f) ltac:(left)) as Hf. simpl in Hf.
  cbn [fmap list_fmap fst for_of]. unfold bind at 1.
  assert ((if endsWith file ".json"
           then let* mtime := stat_mtime MessagesDir file
                in if Date_lt (Some mtime) None
                   then unlink MessagesDir file;;; ret (S count)
                   else ret count
           else ret count) w = (Ok count, w)) as ->.
  { destruct (endsWith file ".json"); [|done].
    unfold bind, stat_mtime, lookup_file, Date_lt. simpl. by rewrite Hdir, Hf. }
  apply (IH cur); [done|]. intros e He. apply Hcur. by right.
Qed.

Lemma new_Date_valid t : Z.abs t ≤ 8640000000000000 → new_Date t = Some t.
Proof. intros H. unfold new_Date. by rewrite (proj2 (Z.leb_le _ _) H). Qed.

Lemma new_Date_invalid t : 8640000000000000 < Z.abs t → new_Date t = None.
Proof. intros H. unfold new_Date. by rewrite (proj2 (Z.leb_gt _ _) H). Qed.

Lemma clearOldMessages_run hoursOld v cur :
  messages v = Some cur →
  clearOldMessages hoursOld v =
  match new_Date (clock v - default 24 hoursOld * 60 * 60 * 1000) with
  | Some cutoff =>
      (Ok ("Deleted " +:+ pretty (length (filter (old cutoff) (map_to_list cur))) +:+
           " old messages"),
       set_dir MessagesDir (Some (pruned cutoff (map_to_list cur) cur)) v)
  | None => (Ok "Deleted 0 old messages", v)
  end.
Proof.
  intros Hv. unfold clearOldMessages, try_catch, bind at 1, readdir. simpl.
  rewrite Hv. unfold bind at 1, Date_now. unfold bind at 1.
  destruct (new_Date _) as [cutoff|].
  - rewrite (clear_loop _ (map_to_list cur) cur 0 v); [done| |done|].
    + apply NoDup_fst_map_to_list.
    + intros [file f] He. by apply elem_of_map_to_list.
  - rewrite (clear_loop_invalid (map_to_list cur) cur 0 v); [done|done|].
    intros [file f] He. by apply elem_of_map_to_list.
Qed.

(** C8, as the code has it.  While the messages directory exists (so that
    every [stat] and [unlink] succeeds) and [now - hoursOld hours] is a valid
    date, [clearOldMessages] deletes exactly the [.json] files whose
    modification time is strictly before that instant, leaves every other
    file as it was, touches nothing else, and reports how many it deleted; a
    second run [later] ms after the first deletes nothing provided none of
    the remaining [.json] files has by then become older than the cutoff, as
    is the case when no time has passed.  When [now - hoursOld hours] is not
    a valid date, nothing is deleted. *)
Theorem clearOldMessages_deletes_old (hoursOld : option Z) (w : World) (files : Dir) :
  messages w = Some files →
  let cutoff := clock w - default 24 hoursOld * 60 * 60 * 1000 in
  (Z.abs cutoff ≤ 8640000000000000 →
   ∃ kept : Dir,
     let w' := mkWorld (agents w) (Some kept) (clock w) (drawn w) (shell w) in
     clearOldMessages hoursOld w =
       (Ok ("Deleted " +:+ pretty (length (filter (old cutoff) (map_to_list files))) +:+
            " old messages"), w') ∧
     (∀ file f, files !! file = Some f →
        kept !! file =
        if decide (endsWith file ".json" = true ∧ mtime f < cutoff) then None else Some f) ∧
     (∀ file, files !! file = None → kept !! file = None) ∧
     clearOldMessages hoursOld w' = (Ok "Deleted 0 old messages", w') ∧
     (∀ later,
        Z.abs (cutoff + later) ≤ 8640000000000000 →
        (∀ file f, kept !! file = Some f → endsWith file ".json" = true →
                   cutoff + later ≤ mtime f) →
        clearOldMessages hoursOld (setTimeout later w').2 =
          (Ok "Deleted 0 old messages", (setTimeout later w').2))) ∧
  (8640000000000000 < Z.abs cutoff →
   clearOldMessages hoursOld w = (Ok "Deleted 0 old messages", w)).
Proof.
  intros Hdir cutoff. split.
  2: { intros Hinvalid. rewrite (clearOldMessages_run _ _ files Hdir).
       fold cutoff. by rewrite new_Date_invalid. }
  intros Hvalid.
  assert (Hkept : ∀ cur file f, cur !! file = Some f →
    pruned cutoff (map_to_list cur) cur !! file =
    if decide (old cutoff (file, f)) then None else Some f).
  { intros cur file f Hf. apply pruned_lookup; [|by apply elem_of_map_to_list|done].
    apply NoDup_fst_map_to_list. }
  assert (Hgone : ∀ cur file, cur !! file = None →
    pruned cutoff (map_to_list cur) cur !! file = None).
  { intros cur file Hf. rewrite pruned_lookup_other; [done|].
    intros ([file' f] & -> & He%elem_of_map_to_list)%list_elem_of_fmap.
    simpl in Hf. congruence. }
  exists (pruned cutoff (map_to_list files) files). cbv zeta.
  split.
  { rewrite (clearOldMessages_run _ _ files Hdir). fold cutoff.
    by rewrite new_Date_valid. }
  split; [apply Hkept|]. split; [apply Hgone|].
  set (kept := pruned cutoff (map_to_list files) files).
  assert (Hlater : ∀ later,
    Z.abs (cutoff + later) ≤ 8640000000000000 →
    (∀ file f, kept !! file = Some f → endsWith file ".json" = true →
               cutoff + later ≤ mtime f) →
    clearOldMessages hoursOld
      (mkWorld (agents w) (Some kept) (clock w + later) (drawn w) (shell w)) =
    (Ok "Deleted 0 old messages",
     mkWorld (agents w) (Some kept) (clock w + later) (drawn w) (shell w))).
  { intros later Hvalid' Hyoung.
    rewrite (clearOldMessages_run hoursOld
               (mkWorld (agents w) (Some kept) (clock w + later) (drawn w) (shell w))
               kept eq_refl). cbn [clock].
    replace (clock w + later - default 24 hoursOld * 60 * 60 * 1000)
      with (cutoff + later) by (unfold cutoff; lia).
    rewrite new_Date_valid by done.
    destruct (pruned_none (cutoff + later) (map_to_list kept) kept) as [-> ->]; [|done].
    apply Forall_forall. intros [file f] Hf%elem_of_map_to_list [Hjson Hold].
    simpl in *. specialize (Hyoung file f Hf Hjson). lia. }
  split; [|exact Hlater].
  specialize (Hlater 0). rewrite !Z.add_0_r in Hlater. apply Hlater; [done|].
  intros file f Hf Hjson.
  destruct (files !! file) as [f0|] eqn:Hfile.
  - unfold kept in Hf. rewrite (Hkept files file f0 Hfile) in Hf.
    destruct (decide (old cutoff (file, f0))) as [|Hnot]; [done|]. simplify_eq.
    destruct (Z.le_gt_cases cutoff (mtime f)) as [|Hlt]; [done|].
    destruct Hnot. split; [done|simpl; lia].
  - unfold kept in Hf. by rewrite (Hgone files file Hfile) in Hf.
Qed.

(** ** C1: processing the commands of the inbox *)

Section Processing.
Variable E : Env.
Variable this : Manager.

(** [deleteMessage] of an identifier that holds no separator unlinks the
    file of that name in the messages directory. *)
Lemma deleteMessage_run messageId v cur :
  String_includes (ToString messageId) "/" = false →
  messages v = Some cur →
  deleteMessage E messageId v =
  (Ok tt, set_dir MessagesDir (Some (delete (ToString messageId +:+ ".json") cur)) v).
Proof.
  intros Hstem Hdir. unfold deleteMessage, try_catch, at_path.
  rewrite entry_of_stem by done. unfold unlink, ret. cbn [dir].
  rewrite Hdir. destruct (cur !! _) eqn:Hfile; [done|].
  rewrite delete_id by done. by rewrite set_dir_same.
Qed.

(** A file name [`${id}.json`] holds no separator only if [id] holds none. *)
Lemma stem_of_file_name (stem : string) :
  String_includes (stem +:+ ".json") "/" = false → String_includes stem "/" = false.
Proof.
  pose proof (String_includes_char_app (Ascii.ascii_of_nat 47) stem ".json") as Happ.
  change (String (Ascii.ascii_of_nat 47) "") with "/" in Happ.
  rewrite Happ. by intros [? _]%orb_false_iff.
Qed.

Lemma process_message_other results j v :
  (∃ o, j = JObj o) → ¬ is_command j →
  process_message E this results j v = (Ok results, v).
Proof.
  intros [o ->] Hnot. unfold process_message, bind, lift. simpl.
  destruct (strict_eq (o !! "type") "command") eqn:Htype; [|done].
  apply strict_eq_true in Htype. destruct Hnot. by exists o.
Qed.

Lemma process_message_command results j v cur :
  is_command j → String_includes (command_file j) "/" = false →
  messages v = Some cur →
  ∃ cmds waited,
    process_message E this results j v =
    (Ok (results ++ [processed j]),
     after_shell cmds waited
       (mkWorld (agents v)
          (Some (delete (command_file j)
                   (<[ack_file E (drawn v) :=
                        mkFile (clock v)
                          (Some (JObj (acknowledgement E this j (drawn v)
                                         (toISOString E (clock v)))))]> cur)))
          (clock v) (S (drawn v)) (shell v))).
Proof.
  intros (o & -> & Htype) Hname%stem_of_file_name Hdir.
  destruct (sendMessage_effect E this (o !! "from")
              ("Command executed: " +:+ ToString (o !! "content")) message_ v cur Hdir)
    as (s & cmds & waited & Hsend).
  exists cmds, waited.
  unfold process_message, bind at 1, lift at 1. simpl get_prop. cbv iota beta.
  rewrite (proj2 (strict_eq_true _ _) Htype).
  unfold try_catch, bind, lift. cbn [get_prop]. rewrite Hsend.
  erewrite deleteMessage_run; [done..|reflexivity].
Qed.

Lemma process_loop (msgs : list Json) :
  Forall (λ j, (∃ o, j = JObj o) ∧
               (is_command j → String_includes (command_file j) "/" = false)) msgs →
  ∀ (results : list string) (v : World) (cur : Dir),
    messages v = Some cur →
    (∀ i k, (i < length (filter is_command msgs))%nat →
            (k < length (filter is_command msgs))%nat →
            ack_file E (drawn v + i) = ack_file E (drawn v + k) → i = k) →
    (∀ k j, (k < length (filter is_command msgs))%nat → j ∈ filter is_command msgs →
            ack_file E (drawn v + k) ≠ command_file j) →
    ∃ v' cur',
      for_of msgs results (process_message E this) v =
        (Ok (results ++ (processed <$> filter is_command msgs)), v') ∧
      messages v' = Some cur' ∧ agents v' = agents v ∧
      drawn v' = (drawn v + length (filter is_command msgs))%nat ∧
      (∀ file,
         (∀ k, (k < length (filter is_command msgs))%nat → file ≠ ack_file E (drawn v + k)) →
         (∀ j, j ∈ filter is_command msgs → file ≠ command_file j) →
         cur' !! file = cur !! file) ∧
      (∀ j, j ∈ filter is_command msgs → cur' !! command_file j = None) ∧
      (∀ k j, filter is_command msgs !! k = Some j →
         ∃ mt timestamp,
           cur' !! ack_file E (drawn v + k) =
           Some (mkFile mt (Some (JObj (acknowledgement E this j (drawn v + k) timestamp))))).
Proof.
  induction 1 as [|j msgs [Hobj Hname] Hmsgs IH]; intros results v cur Hdir Hinj Hfresh.
  { exists v, cur. rewrite filter_nil. simpl. unfold ret.
    rewrite app_nil_r, Nat.add_0_r.
    do 5 (split; [done|]). split.
    - intros j Hj. by apply elem_of_nil in Hj.
    - intros k j Hk. done. }
  cbn [for_of]. unfold bind at 1. rewrite filter_cons in *.
  destruct (decide (is_command j)) as [Hcmd|Hnot].
  2: { rewrite process_message_other by done. by apply IH. }
  destruct (process_message_command results j v cur Hcmd (Hname Hcmd) Hdir)
    as (cmds & waited & ->).
  set (ack := mkFile (clock v) (Some (JObj (acknowledgement E this j (drawn v)
                                             (toISOString E (clock v)))))) in *.
  set (cur1 := delete (command_file j) (<[ack_file E (drawn v) := ack]> cur)).
  set (rest := filter is_command msgs) in *.
  simpl length in Hinj, Hfresh.
  edestruct (IH (results ++ [processed j])) as
    (v' & cur' & -> & Hdir' & Hagents & Hdrawn & Hother & Hgone & Hacks);
    [reflexivity| | |].
  { intros i k Hi Hk Heq. cbn [drawn after_shell] in Heq.
    assert (S i = S k) as [= ->]; [|done].
    apply Hinj; [lia..|]. by rewrite <- !Nat.add_succ_comm. }
  { intros k j' Hk Hj'. cbn [drawn after_shell].
    rewrite Nat.add_succ_comm. apply Hfresh; [lia|by right]. }
  cbn [drawn after_shell agents messages] in *.
  assert (Hshift : ∀ k, (S (drawn v) + k)%nat = (drawn v + S k)%nat) by (intros; lia).
  setoid_rewrite Hshift in Hother. setoid_rewrite Hshift in Hacks.
  assert (Hzero : (drawn v + 0)%nat = drawn v) by lia.
  exists v', cur'. split; [by rewrite <- app_assoc|].
  split; [done|]. split; [done|]. split; [simpl; lia|].
  split; [|split].
  - intros file Hfile Hnotcmd. rewrite Hother.
    + unfold cur1. rewrite lookup_delete_ne by (apply not_eq_sym, Hnotcmd; by left).
      apply lookup_insert_ne. specialize (Hfile 0%nat ltac:(simpl; lia)).
      rewrite Hzero in Hfile. done.
    + intros k Hk. apply Hfile. simpl. lia.
    + intros j' Hj'. apply Hnotcmd. by right.
  - intros j' [->|Hj']%elem_of_cons; [|by apply Hgone].
    destruct (decide (command_file j ∈ command_file <$> rest)) as [Hin|Hnotin].
    + apply list_elem_of_fmap in Hin as (j' & -> & Hj'). by apply Hgone.
    + rewrite Hother.
      * unfold cur1. apply lookup_delete_eq.
      * intros k Hk Heq. apply (Hfresh (S k) j); [simpl; lia|by left|done].
      * intros j' Hj' Heq. apply Hnotin. rewrite Heq. by apply list_elem_of_fmap_2.
  - intros [|k] j' Hk; simpl in Hk.
    + injection Hk as <-. exists (clock v), (toISOString E (clock v)).
      rewrite Hzero. rewrite Hother.
      * unfold cur1. rewrite lookup_delete_ne.
        { apply lookup_insert_eq. }
        intros Heq. apply (Hfresh 0%nat j); [simpl; lia|by left|].
        by rewrite Hzero.
      * intros k Hk Heq. assert (0%nat = S k) as [=].
        apply Hinj; [simpl; lia..|]. by rewrite Hzero.
      * intros j' Hj' Heq. apply (Hfresh 0%nat j'); [simpl; lia|by right|].
        by rewrite Hzero.
    + destruct (Hacks k j' Hk) as (mt & timestamp & Hack). by exists mt, timestamp.
Qed.
End Processing.

Lemma acknowledgement_props E this o n timestamp :
  let a := acknowledgement E this (JObj o) n timestamp in
  a !! "type" = Some (VStr "message") ∧
  a !! "to" = o !! "from" ∧
  a !! "from" = Some (VStr (agentId this)) ∧
  a !! "id" = Some (VStr (uuid E n)) ∧
  a !! "content" = Some (VStr ("Command executed: " +:+ ToString (o !! "content"))).
Proof. simpl. unfold AgentMessage. by destruct (o !! "from"). Qed.

Lemma length_omap_le {A B} (g : A → option B) (l : list A) :
  (length (omap g l) ≤ length l)%nat.
Proof.
  induction l as [|x l IH]; [done|]. cbn [omap list_omap length] in *.
  destruct (g x); cbn [length]; lia.
Qed.

(** C1, as the code has it.  In a store where every command addressed to the
    caller is filed under its own [id] (the name of a directory entry, which
    holds no [/]) and the UUIDs about to be drawn are new and distinct, [processIncomingCommands] returns one
    description per
    incoming command, oldest first; deletes the file of each; writes for each
    exactly one acknowledgement, a record of type [message] (not [response])
    from the caller to the command's sender; and leaves every other file and
    the registry as they were, so that a record of type [message] is
    untouched. *)
Theorem processIncomingCommands_acknowledges (E : Env) (this : Manager)
    (w : World) (files : Dir) :
  messages w = Some files →
  (∀ file f o,
     files !! file = Some f → endsWith file ".json" = true →
     parsed f = Some (JObj o) → o !! "to" = Some (VStr (agentId this)) →
     o !! "type" = Some (VStr "command") →
     file = ToString (o !! "id") +:+ ".json" ∧ String_includes file "/" = false) →
  (∀ k, (k < size files)%nat → files !! ack_file E (drawn w + k) = None) →
  (∀ i k, (i < size files)%nat → (k < size files)%nat →
          uuid E (drawn w + i) = uuid E (drawn w + k) → i = k) →
  ∃ inbox w' files',
    getIncomingMessages E this w = (Ok inbox, w) ∧
    processIncomingCommands E this w = (Ok (processed <$> filter is_command inbox), w') ∧
    messages w' = Some files' ∧ agents w' = agents w ∧
    (∀ o, JObj o ∈ filter is_command inbox →
          files' !! (ToString (o !! "id") +:+ ".json") = None) ∧
    (∀ k o, filter is_command inbox !! k = Some (JObj o) →
       ∃ mt a,
         files' !! ack_file E (drawn w + k) = Some (mkFile mt (Some (JObj a))) ∧
         a !! "type" = Some (VStr "message") ∧
         a !! "to" = o !! "from" ∧
         a !! "from" = Some (VStr (agentId this)) ∧
         a !! "id" = Some (VStr (uuid E (drawn w + k))) ∧
         a !! "content" =
           Some (VStr ("Command executed: " +:+ ToString (o !! "content")))) ∧
    (∀ file f,
       files !! file = Some f →
       (∀ o, endsWith file ".json" = true → parsed f = Some (JObj o) →
             o !! "to" = Some (VStr (agentId this)) →
             o !! "type" ≠ Some (VStr "command")) →
       files' !! file = Some f) ∧
    (∀ file,
       is_Some (files' !! file) →
       is_Some (files !! file) ∨
       ∃ k, (k < length (filter is_command inbox))%nat ∧ file = ack_file E (drawn w + k)).
Proof.
  intros Hdir Hfiled Hnew Hdistinct.
  destruct (getIncomingMessages_eq E this w) as (inbox & Hsort & Hinbox).
  apply Array_sort_perm in Hsort. unfold entries in Hsort. simpl in Hsort.
  rewrite Hdir in Hsort.
  set (commands := filter is_command inbox).
  assert (length commands ≤ size files)%nat as Hcount.
  { unfold commands. rewrite Hsort, length_filter, length_omap_le.
    by rewrite length_map_to_list. }
  assert (Hsource : ∀ j, j ∈ commands →
    ∃ file f o, j = JObj o ∧ files !! file = Some f ∧ file = command_file j ∧
                addressed_to_me this (file, f) = Some j ∧ is_command j).
  { intros j [Hcmd Hj]%list_elem_of_filter. rewrite Hsort in Hj.
    apply list_elem_of_omap in Hj as ([file f] & Hf%elem_of_map_to_list & Hj).
    pose proof Hj as (Hjson & o & Ho & Hto & ->)%addressed_to_me_Some.
    destruct Hcmd as (o' & [= <-] & Htype).
    exists file, f, o. repeat split; try done; [|by exists o].
    by apply (Hfiled file f o). }
  destruct (process_loop E this inbox) with (results := @nil string) (v := w) (cur := files)
    as (w' & files' & Hrun & Hdir' & Hagents & _ & Hother & Hgone & Hacks).
  { apply Forall_forall. intros j Hj. split.
    - revert j Hj. apply Forall_forall. rewrite Hsort. apply addressed_to_me_object.
    - intros Hcmd. rewrite Hsort in Hj.
      apply list_elem_of_omap in Hj as ([file f] & Hf%elem_of_map_to_list & Hj).
      pose proof Hj as (Hjson & o & Ho & Hto & ->)%addressed_to_me_Some.
      destruct Hcmd as (o' & [= <-] & Htype).
      destruct (Hfiled file f o) as [-> Hname]; done. }
  { done. }
  { intros i k Hi Hk Heq%string_app_inj_r. fold commands in Hi, Hk.
    apply Hdistinct; [lia..|]. destruct (uuid E (drawn w + i)), (uuid E (drawn w + k)).
    simpl in Heq. subst. f_equal. apply proof_irrel. }
  { intros k j Hk Hj Heq. fold commands in Hk, Hj.
    destruct (Hsource j Hj) as (file & f & o & -> & Hf & -> & _).
    rewrite <- Heq, Hnew in Hf by lia. done. }
  fold commands in Hrun, Hother, Hgone, Hacks.
  exists inbox, w', files'. split; [done|]. split.
  { unfold processIncomingCommands, bind. by rewrite Hinbox. }
  split; [done|]. split; [done|]. split; [|split; [|split]].
  - intros o Ho. by apply (Hgone (JObj o)).
  - intros k o Hk. destruct (Hacks k (JObj o) Hk) as (mt & timestamp & Hack).
    eexists mt, _. split; [exact Hack|]. apply acknowledgement_props.
  - intros file f Hf Hnotcmd. rewrite Hother; [done| |].
    + intros k Hk Heq. rewrite Heq, Hnew in Hf by lia. done.
    + intros j Hj ->.
      destruct (Hsource j Hj) as (file & f' & o & -> & Hf' & Hfile & Haddr & Hcmd).
      rewrite <- Hfile in Hf. simplify_eq.
      apply addressed_to_me_Some in Haddr as (Hjson & o' & Ho & Hto & [= <-]).
      destruct Hcmd as (o' & [= <-] & Htype). by apply (Hnotcmd o).
  - intros file Hfile.
    destruct (decide (file ∈ (λ k, ack_file E (drawn w + k)) <$> seq 0 (length commands)))
      as [Hack|Hnotack].
    { right. apply list_elem_of_fmap in Hack as (k & -> & Hk%elem_of_seq).
      exists k. fold commands. split; [lia|done]. }
    left. destruct (decide (file ∈ command_file <$> commands)) as [Hcmd|Hnotcmd].
    { apply list_elem_of_fmap in Hcmd as (j & -> & Hj).
      rewrite (Hgone j Hj) in Hfile. by destruct Hfile. }
    rewrite Hother in Hfile; [done| |].
    + intros k Hk ->. apply Hnotack. apply list_elem_of_fmap. exists k.
      split; [done|]. apply elem_of_seq. lia.
    + intros j Hj ->. apply Hnotcmd. by apply list_elem_of_fmap_2.
Qed.

(** ** The theorems at work *)

(** C1 as stated fails: the acknowledgement of Bob's command is a record of
    type [message], not [response]. *)
Lemma processIncomingCommands_acknowledgement_type :
  (processIncomingCommands Sample.env Scenario.alice Scenario.inbox).1 =
    Ok ["Processed command from id-bob: ls"] ∧
  lookup_file MessagesDir "m2.json"
    (processIncomingCommands Sample.env Scenario.alice Scenario.inbox).2 = None ∧
  lookup_file MessagesDir "00000000-0000-4000-8000-000000000000.json"
    (processIncomingCommands Sample.env Scenario.alice Scenario.inbox).2 =
    Some (Scenario.stored (Scenario.noon + 5000)
            (AgentMessage "00000000-0000-4000-8000-000000000000" "id-alice"
               (Some (VStr "id-bob")) "message" "Command executed: ls"
               "2023-11-14T22:13:25.000Z" None)) ∧
  size <$> messages (processIncomingCommands Sample.env Scenario.alice Scenario.inbox).2 =
    Some 5%nat.
Proof.
  split; [vm_compute; reflexivity|]. split; [vm_compute; reflexivity|].
  split; vm_compute; reflexivity.
Qed.

Lemma processIncomingCommands_acknowledges_witness :
  ∃ w' files',
    processIncomingCommands Sample.env Scenario.alice Scenario.inbox =
      (Ok ["Processed command from id-bob: ls"], w') ∧
    messages w' = Some files' ∧
    files' !! "m2.json" = None ∧
    files' !! "m1.json" = Some (Scenario.stored Scenario.noon Scenario.m1).
Proof.
  destruct (messages Scenario.inbox) as [files|] eqn:Hdir; [|discriminate].
  injection Hdir as Hfiles.
  destruct (processIncomingCommands_acknowledges Sample.env Scenario.alice
              Scenario.inbox files) as
    (inbox & w' & files' & Hinbox & Hrun & Hdir' & _ & Hgone & _ & Hkept & _).
  - by subst files.
  - subst files. intros file f o Hf. revert o. revert file f Hf.
    apply (map_Forall_to_list (λ file f, ∀ o,
      endsWith file ".json" = true → parsed f = Some (JObj o) →
      o !! "to" = Some (VStr "id-alice") → o !! "type" = Some (VStr "command") →
      file = ToString (o !! "id") +:+ ".json" ∧ String_includes file "/" = false)).
    match goal with |- context [map_to_list ?m] =>
      let l := eval vm_compute in (map_to_list m) in change (map_to_list m) with l end.
    repeat (constructor;
            [simpl; intros o _ Ho _ _; simplify_eq; split; vm_compute; reflexivity|]).
    constructor.
  - subst files. intros k Hk. change (size _) with 5%nat in Hk.
    destruct k as [|[|[|[|[|k]]]]]; try lia; vm_compute; reflexivity.
  - subst files. intros i k Hi Hk Heq.
    change (size _) with 5%nat in Hi, Hk.
    destruct i as [|[|[|[|[|i]]]]]; try lia;
      destruct k as [|[|[|[|[|k]]]]]; try lia; try reflexivity;
      vm_compute in Heq; discriminate.
  - vm_compute in Hinbox. injection Hinbox as <-.
    exists w', files'. split; [exact Hrun|]. split; [done|]. split.
    + apply (Hgone Scenario.m2). apply list_elem_of_filter. split.
      * exists Scenario.m2. split; [done|]. vm_compute. reflexivity.
      * right. left.
    + apply Hkept; [subst files; vm_compute; reflexivity|].
      intros o _ [= <-] _. vm_compute. discriminate.
Defined.

Lemma send_survives_delivery_failure_witness :
  ∃ w',
    sendMessage Sample.env Scenario.alice (Some (VStr "id-bob")) "hello" message_
      Scenario.haunted =
      (Ok "Message saved for agent id-bob, but failed to send to tmux: can't find session: ghost",
       w') ∧
    messages w' =
      Some {[ "00000000-0000-4000-8000-000000000000.json" :=
                Scenario.stored Scenario.noon
                  (AgentMessage "00000000-0000-4000-8000-000000000000" "id-alice"
                     (Some (VStr "id-bob")) "message" "hello"
                     "2023-11-14T22:13:20.000Z" None) ]}.
Proof.
  pose proof (send_survives_delivery_failure Sample.env Scenario.alice
                (Some (VStr "id-bob")) "id-bob" "hello" message_ None Scenario.haunted)
    as [(s & w' & Hrun & Hstore & _ & Hreport) _].
  exists w'. split.
  - rewrite Hrun. f_equal. f_equal.
    apply (Hreport (Some (VStr "ghost")) "can't find session: ghost");
      [done|vm_compute; reflexivity..].
  - rewrite Hstore. vm_compute. reflexivity.
Defined.

(** C8 as stated fails.  With [hoursOld = -2400000000] every file of the
    attic is older than [now - hoursOld hours], and none is deleted: that
    instant is not a valid date.  And a second run deletes a file that the
    first run kept, once an hour has passed. *)
Lemma clearOldMessages_deletes_nothing_or_again :
  clearOldMessages (Some (-2400000000)) Scenario.attic =
    (Ok "Deleted 0 old messages", Scenario.attic) ∧
  Forall (λ e, mtime e.2 < clock Scenario.attic - (-2400000000) * 60 * 60 * 1000)
    (entries MessagesDir Scenario.attic) ∧
  (clearOldMessages (Some 2) Scenario.attic).1 = Ok "Deleted 1 old messages" ∧
  (clearOldMessages (Some 2)
     (setTimeout 3600001 (clearOldMessages (Some 2) Scenario.attic).2).2).1 =
    Ok "Deleted 1 old messages".
Proof.
  split; [vm_compute; reflexivity|]. split.
  - match goal with |- Forall _ ?l =>
      let l' := eval vm_compute in l in change l with l' end.
    repeat constructor.
  - split; vm_compute; reflexivity.
Qed.

Lemma clearOldMessages_deletes_old_witness :
  ∃ kept,
    clearOldMessages (Some 2) Scenario.attic =
      (Ok "Deleted 1 old messages",
       mkWorld (Some ∅) (Some kept) (Scenario.noon + 3 * 3600000) 0 []) ∧
    kept !! "m1.json" = None ∧
    kept !! "m3.json" = Some (Scenario.stored (Scenario.noon + 2 * 3600000) Scenario.m3) ∧
    kept !! "notes.txt" = Some (mkFile Scenario.noon None).
Proof.
  destruct (messages Scenario.attic) as [files|] eqn:Hdir; [|discriminate].
  injection Hdir as Hfiles.
  destruct (clearOldMessages_deletes_old (Some 2) Scenario.attic files) as
    [Hvalid _]; [by subst files|].
  destruct Hvalid as (kept & Hrun & Hkept & _); [by vm_compute|].
  exists kept. subst files. split; [|split; [|split]].
  - rewrite Hrun. vm_compute. reflexivity.
  - rewrite (Hkept "m1.json" (Scenario.stored Scenario.noon Scenario.m1))
      by (vm_compute; reflexivity).
    vm_compute. reflexivity.
  - rewrite (Hkept "m3.json" (Scenario.stored (Scenario.noon + 2 * 3600000) Scenario.m3))
      by (vm_compute; reflexivity).
    vm_compute. reflexivity.
  - rewrite (Hkept "notes.txt" (mkFile Scenario.noon None)) by (vm_compute; reflexivity).
    vm_compute. reflexivity.
Defined.


Lemma registerAgent_same_identifier_witness :
  ∃ w' files' record,
    register_each Sample.env (mkManager (uuid Sample.env 0) "alice")
      [(0, "dev"); (60000, "ops")] Scenario.inbox =
      (Ok ["Agent " +:+ quote +:+ "alice" +:+ quote +:+
             " registered with ID: 00000000-0000-4000-8000-000000000000";
           "Agent " +:+ quote +:+ "alice" +:+ quote +:+
             " registered with ID: 00000000-0000-4000-8000-000000000000"], w') ∧
    agents w' = Some files' ∧
    dom files' ⊆ {["00000000-0000-4000-8000-000000000000.json"]} ∧
    files' !! "00000000-0000-4000-8000-000000000000.json" =
      Some (mkFile (Scenario.noon + 65000) (Some (JObj record))) ∧
    record !! "id" = Some (VStr "00000000-0000-4000-8000-000000000000") ∧
    record !! "session" = Some (VStr "ops").
Proof.
  destruct (registerAgent_same_identifier Sample.env "alice" Scenario.inbox
              (mkWorld (Some ∅) (messages Scenario.inbox) (clock Scenario.inbox) 1 [])
              (mkManager (uuid Sample.env 0) "alice"))
    as (_ & _ & _ & _ & Hcalls); [vm_compute; reflexivity|].
  destruct (Hcalls [(0, "dev"); (60000, "ops")] Scenario.inbox ∅ eq_refl)
    as (w' & files' & Hrun & Hdir & _ & Hdom & Hlast).
  simpl in Hlast. destruct Hlast as (record & Hfile & Hid & _ & Hsession & _).
  exists w', files', record. split; [exact Hrun|]. split; [done|]. split.
  { rewrite dom_empty_L, (right_id_L ∅ (∪)) in Hdom. exact Hdom. }
  split; [|split; [exact Hid|exact Hsession]].
  refine (eq_trans Hfile _). f_equal. f_equal.
  assert (clock w' = Scenario.noon + 65000) as ->; [|done].
  vm_compute in Hrun. by injection Hrun as <-.
Defined.

(** ** Further properties of the registry and the queue *)

Lemma unregisterAgent_run this w :
  unregisterAgent this w =
  match lookup_file AgentsDir (agentId this +:+ ".json") w, agents w with
  | Some _, Some files =>
      (Ok ("Agent " +:+ quote +:+ agentName this +:+ quote +:+ " unregistered successfully"),
       set_dir AgentsDir (Some (delete (agentId this +:+ ".json") files)) w)
  | _, _ =>
      (Ok ("Failed to unregister agent: " +:+
           error_message (ENOENT (join AgentsDir (agentId this +:+ ".json")))), w)
  end.
Proof.
  unfold unregisterAgent, try_catch, bind, unlink, ret, lookup_file. simpl.
  destruct (agents w) as [files|]; [|done]. by destruct (files !! _).
Qed.

(** X1.  [unregisterAgent] never throws, and after it [getAgentInfo] of the
    same identifier yields [null]; unregistering an agent that has no record
    reports the failure in the returned string and changes nothing. *)
Theorem unregisterAgent_then_getAgentInfo (E : Env) (this : Manager) (w : World) :
  ∃ s w',
    unregisterAgent this w = (Ok s, w') ∧
    getAgentInfo E (Some (VStr (agentId this))) w' = (Ok JNull, w') ∧
    (lookup_file AgentsDir (agentId this +:+ ".json") w = None →
     w' = w ∧
     s = "Failed to unregister agent: " +:+
         error_message (ENOENT (join AgentsDir (agentId this +:+ ".json")))).
Proof.
  rewrite unregisterAgent_run. unfold lookup_file. simpl.
  destruct (agents w) as [files|] eqn:Hdir.
  - destruct (files !! (agentId this +:+ ".json")) as [f|] eqn:Hfile.
    + eexists _, _. split; [done|]. split; [|done].
      rewrite getAgentInfo_UUID. unfold registry_record, lookup_file. simpl.
      by rewrite lookup_delete_eq.
    + eexists _, _. split; [done|]. split; [|done].
      rewrite getAgentInfo_UUID. unfold registry_record, lookup_file. simpl.
      by rewrite Hdir, Hfile.
  - eexists _, _. split; [done|]. split; [|done].
    rewrite getAgentInfo_UUID. unfold registry_record, lookup_file. simpl.
    by rewrite Hdir.
Qed.

Lemma unregisterAgent_then_getAgentInfo_witness :
  ∃ s w',
    unregisterAgent Scenario.alice Scenario.stale = (Ok s, w') ∧
    w' = Scenario.stale ∧
    s = "Failed to unregister agent: ENOENT: no such file or directory, ~/.mcp-tmux/agents/id-alice.json".
Proof.
  destruct (unregisterAgent_then_getAgentInfo Sample.env Scenario.alice Scenario.stale)
    as (s & w' & Hrun & _ & Hmissing).
  destruct Hmissing as [-> ->]; [vm_compute; reflexivity|].
  eexists _, _. split; [exact Hrun|]. split; reflexivity.
Defined.

(** X2.  A message sent to [target] is persisted with the sender's
    identifier, the target, the type and the content given, and
    [getIncomingMessages] of the agent whose identifier is [target] returns
    it. *)
Theorem sendMessage_then_getIncomingMessages (E : Env) (sender receiver : Manager)
    (content : string) (type : SendType) (w : World) (files : Dir) :
  messages w = Some files →
  ∃ s w' inbox sent,
    sendMessage E sender (Some (VStr (agentId receiver))) content type w = (Ok s, w') ∧
    getIncomingMessages E receiver w' = (Ok inbox, w') ∧
    JObj sent ∈ inbox ∧
    sent !! "from" = Some (VStr (agentId sender)) ∧
    sent !! "to" = Some (VStr (agentId receiver)) ∧
    sent !! "type" = Some (VStr (type_string type)) ∧
    sent !! "content" = Some (VStr content).
Proof.
  intros Hdir.
  destruct (sendMessage_effect E sender (Some (VStr (agentId receiver))) content type
              w files Hdir) as (s & cmds & waited & Hsend).
  rewrite Hsend.
  match goal with |- context [(Ok s, ?w1)] => set (w' := w1) end.
  destruct (getIncomingMessages_eq E receiver w') as (inbox & Hsort & Hinbox).
  exists s, w', inbox,
    (sent_message E sender (Some (VStr (agentId receiver))) content type w).
  split; [done|]. split; [done|]. split; [|done].
  apply Array_sort_perm in Hsort. rewrite Hsort.
  apply list_elem_of_omap.
  exists (uuid E (drawn w) +:+ ".json",
          mkFile (clock w)
            (Some (JObj (sent_message E sender (Some (VStr (agentId receiver)))
                           content type w)))).
  split.
  - apply elem_of_entries. unfold lookup_file. simpl. apply lookup_insert_eq.
  - apply addressed_to_me_Some. simpl. split; [apply endsWith_app|].
    by eexists.
Qed.

Lemma sendMessage_then_getIncomingMessages_witness :
  ∃ s w' inbox,
    sendMessage Sample.env Scenario.bob (Some (VStr "id-alice")) "hello" message_
      Scenario.haunted = (Ok s, w') ∧
    getIncomingMessages Sample.env Scenario.alice w' = (Ok inbox, w') ∧
    length inbox = 1%nat.
Proof.
  destruct (sendMessage_then_getIncomingMessages Sample.env Scenario.bob Scenario.alice
              "hello" message_ Scenario.haunted ∅ eq_refl)
    as (s & w' & inbox & sent & Hsend & Hinbox & _).
  exists s, w', inbox. split; [done|]. split; [done|].
  vm_compute in Hsend. injection Hsend as <- <-.
  vm_compute in Hinbox. by injection Hinbox as <-.
Defined.

(** X3.  [updateHeartbeat] never throws.  When the caller's record is an
    object it is rewritten with [lastSeen] set to now and [status] to
    [online], its other properties kept; when the record is missing or is not
    an object nothing changes: no record is created. *)
Theorem updateHeartbeat_refreshes (E : Env) (this : Manager) (w : World) :
  let file := agentId this +:+ ".json" in
  match agents w, lookup_file AgentsDir file w with
  | Some files, Some (mkFile _ (Some (JObj o))) =>
      updateHeartbeat E this w =
      (Ok tt,
       set_dir AgentsDir
         (Some (<[file := mkFile (clock w)
                            (Some (JObj (<["status" := VStr "online"]>
                                           (<["lastSeen" := VStr (toISOString E (clock w))]> o))))]>
                  files)) w)
  | _, _ => updateHeartbeat E this w = (Ok tt, w)
  end.
Proof.
  simpl. unfold updateHeartbeat, try_catch, bind, readFile_JSON_parse, lookup_file,
    new_Date_toISOString, Date_now, bind, ret, lift, writeFile.
  simpl. destruct (agents w) as [files|] eqn:Hdir; [|done].
  destruct (files !! (agentId this +:+ ".json")) as [[mt [[| | | |o]|]]|]; try done.
  simpl. by rewrite Hdir.
Qed.

(** X4.  A record file that is valid JSON but has no [lastSeen] that [Date]
    can read is not skipped by [listActiveAgents]: it is listed, marked
    [offline]. *)
Theorem listActiveAgents_undated_offline (E : Env) (w : World)
    (file : string) (f : File) (o : JSObject) :
  lookup_file AgentsDir file w = Some f → endsWith file ".json" = true →
  parsed f = Some (JObj o) → Date_getTime E (o !! "lastSeen") = None →
  ∃ result,
    listActiveAgents E w = (Ok result, w) ∧
    JObj (<["status" := VStr "offline"]> o) ∈ result.
Proof.
  intros Hf Hjson Ho Hdate. eexists. split; [apply listActiveAgents_eq|].
  apply list_elem_of_omap. exists (file, f). split; [by apply elem_of_entries|].
  unfold listed_agent, record, status_at. simpl. by rewrite Hjson, Ho, Hdate.
Qed.

Lemma listActiveAgents_undated_offline_witness :
  ∃ result,
    listActiveAgents Sample.env
      (mkWorld (Some {["x.json" := mkFile 0 (Some (JObj ∅))]}) (Some ∅) Scenario.noon 0 []) =
      (Ok result,
       mkWorld (Some {["x.json" := mkFile 0 (Some (JObj ∅))]}) (Some ∅) Scenario.noon 0 []) ∧
    JObj {["status" := VStr "offline"]} ∈ result.
Proof.
  apply (listActiveAgents_undated_offline Sample.env _ "x.json" (mkFile 0 (Some (JObj ∅))) ∅);
    vm_compute; reflexivity.
Defined.


Lemma updateHeartbeat_run E this w files mt o :
  agents w = Some files →
  files !! (agentId this +:+ ".json") = Some (mkFile mt (Some (JObj o))) →
  updateHeartbeat E this w =
  (Ok tt,
   mkWorld
     (Some (<[agentId this +:+ ".json" :=
                mkFile (clock w)
                  (Some (JObj (<["status" := VStr "online"]>
                                 (<["lastSeen" := VStr (toISOString E (clock w))]> o))))]>
              files))
     (messages w) (clock w) (drawn w) (shell w)).
Proof.
  intros Hdir Hfile.
  unfold updateHeartbeat, try_catch, bind, readFile_JSON_parse, lookup_file,
    new_Date_toISOString, Date_now, bind, ret, lift, writeFile.
  simpl. rewrite Hdir, Hfile. simpl. by rewrite Hdir.
Qed.

(** X6.  After [updateHeartbeat] of an agent that has a record,
    [listActiveAgents] lists that agent [online] while less than five minutes
    have passed since the heartbeat and [offline] from then on, whatever its
    [lastSeen] was before, provided [Date] reads back the timestamp it
    printed. *)
Theorem updateHeartbeat_then_listActiveAgents (E : Env) (this : Manager) (w : World)
    (files : Dir) (f : File) (o : JSObject) (later : Z) :
  agents w = Some files →
  files !! (agentId this +:+ ".json") = Some f →
  parsed f = Some (JObj o) →
  Date_parse E (toISOString E (clock w)) = Some (clock w) →
  ∃ w1 listed,
    updateHeartbeat E this w = (Ok tt, w1) ∧
    listActiveAgents E (setTimeout later w1).2 = (Ok listed, (setTimeout later w1).2) ∧
    JObj (<["status" := VStr (if decide (later < 5 * 60 * 1000)
                              then "online" else "offline")]>
            (<["lastSeen" := VStr (toISOString E (clock w))]> o)) ∈ listed.
Proof.
  intros Hdir Hfile Ho Hparse. destruct f as [mt p]. simpl in Ho. subst p.
  rewrite (updateHeartbeat_run E this w files mt o Hdir Hfile).
  eexists _, _. split; [done|]. split; [apply listActiveAgents_eq|].
  apply list_elem_of_omap.
  eexists (agentId this +:+ ".json", _). split.
  { apply elem_of_entries. unfold lookup_file. simpl. apply lookup_insert_eq. }
  unfold listed_agent, record. simpl. rewrite endsWith_app.
  rewrite (status_at_dated E _ _ (clock w)).
  2: { rewrite lookup_insert_ne by done. rewrite lookup_insert_eq. exact Hparse. }
  rewrite insert_insert_eq. do 3 f_equal.
  destruct (decide (later < _)), (decide (_ < _)); (done || lia).
Qed.

Lemma updateHeartbeat_then_listActiveAgents_witness :
  ∃ w1 listed,
    updateHeartbeat Sample.env Scenario.bob Scenario.stale = (Ok tt, w1) ∧
    listActiveAgents Sample.env (setTimeout 60000 w1).2 =
      (Ok listed, (setTimeout 60000 w1).2) ∧
    JObj (<["status" := VStr "online"]>
            (<["lastSeen" := VStr "2023-11-14T23:13:20.000Z"]> Scenario.bob_record))
      ∈ listed.
Proof.
  destruct (updateHeartbeat_then_listActiveAgents Sample.env Scenario.bob Scenario.stale
              {["id-bob.json" := Scenario.stored Scenario.noon Scenario.bob_record]}
              (Scenario.stored Scenario.noon Scenario.bob_record) Scenario.bob_record 60000)
    as (w1 & listed & Hbeat & Hlist & Hin); [vm_compute; reflexivity..|].
  exists w1, listed. split; [exact Hbeat|]. split; [exact Hlist|]. exact Hin.
Defined.

(** X7.  A [sendMessage] of type [command], or to a target for which
    [getAgentInfo] finds no record with a session, only persists the record:
    no command is handed to the shell, no time passes, and the confirmation
    reads [Message sent to agent ...] all the same. *)
Theorem sendMessage_without_delivery (E : Env) (this : Manager)
    (targetAgentId : JSValue) (content : string) (type : SendType)
    (w : World) (files : Dir) :
  messages w = Some files →
  type = command ∨ registered_session (found E targetAgentId w) = None →
  ∃ w',
    sendMessage E this targetAgentId content type w =
      (Ok ("Message sent to agent " +:+ ToString targetAgentId +:+ ": " +:+ content), w') ∧
    shell w' = shell w ∧ clock w' = clock w ∧ agents w' = agents w ∧
    messages w' =
      Some (<[uuid E (drawn w) +:+ ".json" :=
                mkFile (clock w)
                  (Some (JObj (sent_message E this targetAgentId content type w)))]> files).
Proof.
  intros Hdir Hcase. rewrite (sendMessage_run E this _ _ _ w files Hdir). cbv zeta.
  destruct Hcase as [->|Hnone]; [by eexists|].
  unfold sent_message. rewrite (found_persisted_none _ _ _ _ _ _ _ _ _ _ files) by done.
  destruct type; by eexists.
Qed.

Lemma sendMessage_without_delivery_witness :
  ∃ w',
    sendMessage Sample.env Scenario.alice (Some (VStr "id-nobody")) "hello" message_
      Scenario.inbox = (Ok "Message sent to agent id-nobody: hello", w') ∧
    shell w' = [].
Proof.
  destruct (messages Scenario.inbox) as [files|] eqn:Hdir; [|discriminate].
  destruct (sendMessage_without_delivery Sample.env Scenario.alice
              (Some (VStr "id-nobody")) "hello" message_ Scenario.inbox files Hdir)
    as (w' & Hrun & Hshell & _); [right; vm_compute; reflexivity|].
  exists w'. split; [exact Hrun|exact Hshell].
Defined.

(** X8.  To an agent registered with a session, one for which [getAgentInfo]
    finds such a record once the message is written, [sendMessage] of type
    [message] types the text at window [0] of that session without Enter,
    waits 500 ms, and sends Enter alone.  When the shell rejects the text,
    Enter is not sent and no time passes; when it rejects either command the
    confirmation reports the failure.  For an identifier that holds no [/],
    the record found is the one the registry files under it. *)
Theorem sendMessage_delivery (E : Env) (this : Manager) (targetAgentId : JSValue)
    (content : string) (w : World) (files : Dir) (agent : JSObject) :
  messages w = Some files →
  let written :=
    persisted (uuid E (drawn w) +:+ ".json")
      (sent_message E this targetAgentId content message_ w) files w in
  found E targetAgentId written = JObj agent →
  truthy (agent !! "session") = true →
  let target := ToString (agent !! "session") +:+ ":0" in
  let text := send_keys_cmd target content false in
  let enter := send_keys_cmd target "" true in
  (String_includes (ToString targetAgentId) "/" = false →
   found E targetAgentId written = registry_record targetAgentId w) ∧
  ∃ s w',
    sendMessage E this targetAgentId content message_ w = (Ok s, w') ∧
    match exec_error E text, exec_error E enter with
    | Some msg, _ =>
        shell w' = shell w ++ [text] ∧ clock w' = clock w ∧
        s = "Message saved for agent " +:+ ToString targetAgentId +:+
            ", but failed to send to tmux: " +:+ msg
    | None, Some msg =>
        shell w' = shell w ++ [text; enter] ∧ clock w' = clock w + 500 ∧
        s = "Message saved for agent " +:+ ToString targetAgentId +:+
            ", but failed to send to tmux: " +:+ msg
    | None, None =>
        shell w' = shell w ++ [text; enter] ∧ clock w' = clock w + 500 ∧
        s = "Message sent to agent " +:+ ToString targetAgentId +:+
            " in tmux session " +:+ ToString (agent !! "session") +:+ ": " +:+ content
    end.
Proof.
  intros Hdir written Hagent Hsession. cbv zeta.
  split; [apply found_persisted_stem|].
  rewrite (sendMessage_run E this _ _ _ w files Hdir). cbv zeta.
  fold written. rewrite Hagent. simpl. rewrite Hsession. rewrite deliver_run. simpl.
  destruct (exec_error E (send_keys_cmd _ content false)) as [msg|].
  { eexists _, _. split; [done|]. simpl. by rewrite Z.add_0_r. }
  destruct (exec_error E (send_keys_cmd _ "" true)) as [msg|];
    by eexists _, _.
Qed.

Lemma sendMessage_delivery_witness :
  ∃ w',
    sendMessage Sample.env Scenario.alice (Some (VStr "id-bob")) "hello" message_
      Scenario.stale =
      (Ok "Message sent to agent id-bob in tmux session dev: hello", w') ∧
    shell w' = [send_keys_cmd "dev:0" "hello" false; send_keys_cmd "dev:0" "" true] ∧
    clock w' = clock Scenario.stale + 500.
Proof.
  destruct (sendMessage_delivery Sample.env Scenario.alice (Some (VStr "id-bob")) "hello"
              Scenario.stale ∅ Scenario.bob_record)
    as (_ & s & w' & Hrun & Heffect); [vm_compute; reflexivity..|].
  exists w'. destruct Heffect as (Hshell & Hclock & ->).
  split; [exact Hrun|]. split; [exact Hshell|exact Hclock].
Defined.

(** A sort of two elements or more, one of which makes the comparator
    throw, throws: every element of such a list is compared at least once. *)

Section Array_sort_throws.
Context {A : Type} (comparefn : A → A → Res (option Z)) (bad : A) (e : Exn).
Hypothesis comparefn_bad_l : ∀ y, comparefn bad y = Throw e.
Hypothesis comparefn_bad_r : ∀ x, comparefn x bad = Throw e.
Hypothesis comparefn_throw : ∀ x y e', comparefn x y = Throw e' → e' = e.

Lemma sort_insert_throw x l e' : sort_insert comparefn x l = Throw e' → e' = e.
Proof.
  induction l as [|y l IH]; simpl; [done|].
  destruct (comparefn x y) as [v|e0] eqn:Hxy; simpl.
  - destruct (nan_to_zero v <=? 0); [done|].
    destruct (sort_insert comparefn x l); simpl; [done|].
    intros [= <-]. by apply IH.
  - intros [= <-]. by apply (comparefn_throw x y).
Qed.

Lemma Array_sort_throw l e' : Array_sort comparefn l = Throw e' → e' = e.
Proof.
  induction l as [|x l IH]; simpl; [done|].
  destruct (Array_sort comparefn l) as [r|e0]; simpl.
  - apply sort_insert_throw.
  - intros [= <-]. by apply IH.
Qed.

Lemma Array_sort_bad l :
  bad ∈ l → (2 ≤ length l)%nat → Array_sort comparefn l = Throw e.
Proof.
  induction l as [|x l IH]; intros Hin Hlen; [by apply elem_of_nil in Hin|].
  apply elem_of_cons in Hin as [<-|Hin].
  - simpl. destruct (Array_sort comparefn l) as [r|e'] eqn:Hsort; simpl.
    + apply Array_sort_perm in Hsort. destruct r as [|y r].
      { apply Permutation_nil_l in Hsort. subst l. simpl in Hlen. lia. }
      simpl. by rewrite comparefn_bad_l.
    + by rewrite (Array_sort_throw l e' Hsort).
  - destruct l as [|a [|b l]].
    + by apply elem_of_nil in Hin.
    + apply list_elem_of_singleton in Hin as <-. simpl.
      by rewrite comparefn_bad_r.
    + change (Array_sort comparefn (x :: a :: b :: l))
        with (res_bind (Array_sort comparefn (a :: b :: l)) (sort_insert comparefn x)).
      rewrite IH; [done|done|simpl; lia].
Qed.
End Array_sort_throws.

Lemma newest_first_null E x y e :
  newest_first E x y = Throw e ↔ e = TypeError ∧ (x = JNull ∨ y = JNull).
Proof.
  unfold newest_first, timestamp_time.
  destruct x, y; simpl; split; try done; try (by intros [= <-]; auto);
    try (by intros [-> _]); intros [_ [|]]; done.
Qed.

(** X9.  A record file that holds the JSON value [null] empties the
    unfiltered history: with no [targetAgentId] (or an empty one) no property
    of a record is read before the sort, whose comparator then throws on
    [null], and the outer [catch] returns [[]].  One other record suffices,
    since a sort of two or more elements compares each of them. *)
Theorem getMessageHistory_null_record (E : Env) (this : Manager) (limit : option Z)
    (w : World) (file other : string) (f g : File) :
  lookup_file MessagesDir file w = Some f → endsWith file ".json" = true →
  parsed f = Some JNull →
  lookup_file MessagesDir other w = Some g → endsWith other ".json" = true →
  is_Some (parsed g) →
  other ≠ file →
  getMessageHistory E this None limit w = (Ok [], w) ∧
  getMessageHistory E this (Some "") limit w = (Ok [], w).
Proof.
  intros Hf Hjson Hnull Hg Hjson' [j Hj] Hne.
  assert (∀ targetAgentId, (∀ j, wanted this targetAgentId j) →
    Array_sort (newest_first E)
      (omap (relevant_record this targetAgentId) (entries MessagesDir w)) =
    Throw TypeError) as Hthrow.
  { intros targetAgentId Hwanted.
    apply elem_of_entries in Hf, Hg.
    apply elem_of_Permutation in Hf as [k Hk].
    rewrite Hk in Hg. apply elem_of_cons in Hg as [[= ? ?]|Hg]; [done|].
    apply elem_of_Permutation in Hg as [k' Hk'].
    assert (relevant_record this targetAgentId (file, f) = Some JNull) as Hrf
      by (by apply relevant_record_Some).
    assert (relevant_record this targetAgentId (other, g) = Some j) as Hrg
      by (by apply relevant_record_Some).
    apply (Array_sort_bad (newest_first E) JNull TypeError).
    - intros y. apply newest_first_null. auto.
    - intros x. apply newest_first_null. auto.
    - intros x y e' He'. by apply newest_first_null in He' as [-> _].
    - rewrite Hk. cbn [omap list_omap]. rewrite Hrf. left.
    - rewrite Hk, Hk'. cbn [omap list_omap]. rewrite Hrf, Hrg. simpl. lia. }
  rewrite !getMessageHistory_eq, !Hthrow; [done| |done].
  intros j'. by left.
Qed.

Lemma getMessageHistory_null_record_witness :
  let w :=
    mkWorld (Some ∅)
      (Some (<["null.json" := mkFile Scenario.noon (Some JNull)]>
               (<["m1.json" := Scenario.stored Scenario.noon Scenario.m1]> ∅)))
      (Scenario.noon + 5000) 0 [] in
  getMessageHistory Sample.env Scenario.alice None None w = (Ok [], w) ∧
  getMessageHistory Sample.env Scenario.alice (Some "id-bob") None w =
    (Ok [JObj Scenario.m1], w).
Proof.
  simpl. split; [|vm_compute; reflexivity].
  apply (getMessageHistory_null_record Sample.env Scenario.alice None _
           "null.json" "m1.json" (mkFile Scenario.noon (Some JNull))
           (Scenario.stored Scenario.noon Scenario.m1));
    first [vm_compute; reflexivity | by eexists | done].
Defined.

(** X10.  A negative [limit] is not read as "no entry": [slice(0, limit)]
    then drops the last [-limit] entries of the sorted records, the oldest
    ones, and returns the others, which are none when there are no more than
    [-limit] records. *)
Theorem getMessageHistory_negative_limit (E : Env) (this : Manager)
    (targetAgentId : option string) (limit : Z) (w : World) :
  limit < 0 →
  (∀ file f j,
     lookup_file MessagesDir file w = Some f → endsWith file ".json" = true →
     parsed f = Some j → wanted this targetAgentId j → dated E j) →
  ∃ sorted,
    sorted ≡ₚ omap (relevant_record this targetAgentId) (entries MessagesDir w) ∧
    StronglySorted (flip (not_newer E)) sorted ∧
    getMessageHistory E this targetAgentId (Some limit) w =
      (Ok (take (length sorted - Z.to_nat (- limit)) sorted), w) ∧
    (Z.of_nat (length sorted) ≤ - limit →
     getMessageHistory E this targetAgentId (Some limit) w = (Ok [], w)).
Proof.
  intros Hlimit Hdated.
  set (selected := omap (relevant_record this targetAgentId) (entries MessagesDir w)).
  assert (Forall (dated E) selected) as Hselected.
  { apply Forall_forall. intros j (e & He & Hj)%list_elem_of_omap.
    destruct e as [file f]. apply elem_of_entries in He.
    apply relevant_record_Some in Hj as (Hjson & Hj & Hwanted).
    by apply (Hdated file f). }
  destruct (Array_sort_sorted (newest_first E) (dated E)
              (λ j, - default 0 (time_of E j)) (newest_first_dated E) selected Hselected)
    as (sorted & Hsort & Hperm & Hsorted).
  exists sorted. split; [done|]. split.
  { apply (StronglySorted_dated E (λ j, - default 0 (time_of E j)));
      [|by rewrite Hperm|done].
    intros x y. apply not_older_of_key. }
  rewrite getMessageHistory_eq. fold selected. rewrite Hsort. simpl.
  unfold slice0. rewrite (proj2 (Z.ltb_lt _ _) Hlimit).
  split; [do 3 f_equal; lia|].
  intros Hfew. replace (Z.to_nat _) with 0%nat by lia. done.
Qed.

Lemma getMessageHistory_negative_limit_witness :
  (∃ sorted,
     getMessageHistory Sample.env Scenario.alice None (Some (-1)) Scenario.inbox =
       (Ok (take (length sorted - 1) sorted), Scenario.inbox) ∧
     length sorted = 4%nat) ∧
  getMessageHistory Sample.env Scenario.alice None (Some (-5)) Scenario.inbox =
    (Ok [], Scenario.inbox).
Proof.
  assert (∀ file f j,
    lookup_file MessagesDir file Scenario.inbox = Some f → endsWith file ".json" = true →
    parsed f = Some j → wanted Scenario.alice None j → dated Sample.env j) as Hdated.
  { intros file f j Hf. revert j. revert file f Hf.
    apply (Forall_entries (λ file f, ∀ j, endsWith file ".json" = true →
       parsed f = Some j → wanted Scenario.alice None j → dated Sample.env j)).
    list_entries MessagesDir Scenario.inbox.
    repeat constructor; simpl; intros j _ Hj _; simplify_eq;
      eexists _, _; (split; [reflexivity|vm_compute; reflexivity]). }
  split.
  - destruct (getMessageHistory_negative_limit Sample.env Scenario.alice None (-1)
                Scenario.inbox) as (sorted & Hperm & _ & Hrun & _); [lia|exact Hdated|].
    exists sorted. split; [exact Hrun|]. rewrite Hperm. vm_compute. reflexivity.
  - destruct (getMessageHistory_negative_limit Sample.env Scenario.alice None (-5)
                Scenario.inbox) as (sorted & Hperm & _ & _ & Hempty); [lia|exact Hdated|].
    apply Hempty. rewrite Hperm. vm_compute. discriminate.
Defined.

(** X11.  While the messages directory does not exist, the inbox and the
    history are empty, [processIncomingCommands] processes nothing,
    [deleteMessage] of an identifier that holds no [/] does nothing and
    [clearOldMessages] reports the failure in its string; while the agents
    directory does not exist, no agent is listed, none is found under an
    identifier that holds no [/], and [updateHeartbeat] does nothing.  None of
    them throws, and none creates the directory. *)
Theorem missing_directory (E : Env) (this : Manager)
    (targetAgentId : option string) (limit hoursOld : option Z)
    (messageId agentId : JSValue) (w : World) :
  (messages w = None →
   getIncomingMessages E this w = (Ok [], w) ∧
   getMessageHistory E this targetAgentId limit w = (Ok [], w) ∧
   processIncomingCommands E this w = (Ok [], w) ∧
   (String_includes (ToString messageId) "/" = false →
    deleteMessage E messageId w = (Ok tt, w)) ∧
   ∃ error,
     clearOldMessages hoursOld w =
       (Ok ("Failed to clear old messages: " +:+ error_message error), w)) ∧
  (agents w = None →
   listActiveAgents E w = (Ok [], w) ∧
   (String_includes (ToString agentId) "/" = false →
    getAgentInfo E agentId w = (Ok JNull, w)) ∧
   updateHeartbeat E this w = (Ok tt, w)).
Proof.
  split.
  - intros Hdir.
    assert (getIncomingMessages E this w = (Ok [], w)) as Hinbox.
    { unfold getIncomingMessages, try_catch, bind, readdir. simpl. by rewrite Hdir. }
    split; [done|]. split.
    { rewrite getMessageHistory_eq. unfold entries. simpl. rewrite Hdir. simpl.
      by rewrite slice0_nil. }
    split. { unfold processIncomingCommands, bind. by rewrite Hinbox. }
    split.
    { intros Hstem. unfold deleteMessage, try_catch, at_path.
      rewrite entry_of_stem by done. unfold unlink. simpl. by rewrite Hdir. }
    eexists. unfold clearOldMessages, try_catch, bind, readdir. simpl. by rewrite Hdir.
  - intros Hdir. split; [|split].
    + rewrite listActiveAgents_eq. unfold entries. simpl. by rewrite Hdir.
    + intros Hstem. rewrite getAgentInfo_eq, found_stem by done.
      unfold registry_record, lookup_file. simpl. by rewrite Hdir.
    + unfold updateHeartbeat, try_catch, bind, readFile_JSON_parse, lookup_file.
      simpl. by rewrite Hdir.
Qed.

Lemma missing_directory_witness :
  let w := mkWorld None None Scenario.noon 0 [] in
  getIncomingMessages Sample.env Scenario.alice w = (Ok [], w) ∧
  listActiveAgents Sample.env w = (Ok [], w).
Proof.
  simpl.
  destruct (missing_directory Sample.env Scenario.alice None None None None None
              (mkWorld None None Scenario.noon 0 [])) as [Hmessages Hagents].
  split; [apply Hmessages|apply Hagents]; reflexivity.
Defined.

Lemma process_nothing E this (msgs : list Json) results v :
  Forall (λ j, (∃ o, j = JObj o) ∧ ¬ is_command j) msgs →
  for_of msgs results (process_message E this) v = (Ok results, v).
Proof.
  induction 1 as [|j msgs [Hobj Hnot] _ IH]; [done|].
  cbn [for_of]. unfold bind. by rewrite process_message_other.
Qed.

(** X12.  A command is processed once.  In a store where every command
    addressed to the caller is filed under its own [id] (the name of a
    directory entry, which holds no [/]) and the UUIDs about to be drawn are
    new and distinct, a second [processIncomingCommands] right after the first
    finds no command: it returns no result and changes nothing.  The acknowledgements written by the first call are of type
    [message]. *)
Theorem processIncomingCommands_once (E : Env) (this : Manager)
    (w : World) (files : Dir) :
  messages w = Some files →
  (∀ file f o,
     files !! file = Some f → endsWith file ".json" = true →
     parsed f = Some (JObj o) → o !! "to" = Some (VStr (agentId this)) →
     o !! "type" = Some (VStr "command") →
     file = ToString (o !! "id") +:+ ".json" ∧ String_includes file "/" = false) →
  (∀ k, (k < size files)%nat → files !! ack_file E (drawn w + k) = None) →
  (∀ i k, (i < size files)%nat → (k < size files)%nat →
          uuid E (drawn w + i) = uuid E (drawn w + k) → i = k) →
  ∃ results w',
    processIncomingCommands E this w = (Ok results, w') ∧
    processIncomingCommands E this w' = (Ok [], w').
Proof.
  intros Hdir Hfiled Hnew Hdistinct.
  destruct (getIncomingMessages_eq E this w) as (inbox & Hsort & Hinbox).
  apply Array_sort_perm in Hsort. unfold entries in Hsort. simpl in Hsort.
  rewrite Hdir in Hsort.
  set (commands := filter is_command inbox).
  assert (length commands ≤ size files)%nat as Hcount.
  { unfold commands. rewrite Hsort, length_filter, length_omap_le.
    by rewrite length_map_to_list. }
  assert (Hsource : ∀ j, j ∈ commands →
    ∃ file f o, j = JObj o ∧ files !! file = Some f ∧ file = command_file j ∧
                addressed_to_me this (file, f) = Some j ∧ is_command j).
  { intros j [Hcmd Hj]%list_elem_of_filter. rewrite Hsort in Hj.
    apply list_elem_of_omap in Hj as ([file f] & Hf%elem_of_map_to_list & Hj).
    pose proof Hj as (Hjson & o & Ho & Hto & ->)%addressed_to_me_Some.
    destruct Hcmd as (o' & [= <-] & Htype).
    exists file, f, o. repeat split; try done; [|by exists o].
    by apply (Hfiled file f o). }
  destruct (process_loop E this inbox) with (results := @nil string) (v := w) (cur := files)
    as (w' & files' & Hrun & Hdir' & Hagents & _ & Hother & Hgone & Hacks).
  { apply Forall_forall. intros j Hj. split.
    - revert j Hj. apply Forall_forall. rewrite Hsort. apply addressed_to_me_object.
    - intros Hcmd. rewrite Hsort in Hj.
      apply list_elem_of_omap in Hj as ([file f] & Hf%elem_of_map_to_list & Hj).
      pose proof Hj as (Hjson & o & Ho & Hto & ->)%addressed_to_me_Some.
      destruct Hcmd as (o' & [= <-] & Htype).
      destruct (Hfiled file f o) as [-> Hname]; done. }
  { done. }
  { intros i k Hi Hk Heq%string_app_inj_r. fold commands in Hi, Hk.
    apply Hdistinct; [lia..|]. destruct (uuid E (drawn w + i)), (uuid E (drawn w + k)).
    simpl in Heq. subst. f_equal. apply proof_irrel. }
  { intros k j Hk Hj Heq. fold commands in Hk, Hj.
    destruct (Hsource j Hj) as (file & f & o & -> & Hf & -> & _).
    rewrite <- Heq, Hnew in Hf by lia. done. }
  fold commands in Hrun, Hother, Hgone, Hacks.
  eexists _, w'. split.
  { unfold processIncomingCommands, bind. rewrite Hinbox. exact Hrun. }
  destruct (getIncomingMessages_eq E this w') as (inbox' & Hsort' & Hinbox').
  apply Array_sort_perm in Hsort'. unfold entries in Hsort'. simpl in Hsort'.
  rewrite Hdir' in Hsort'.
  unfold processIncomingCommands, bind. rewrite Hinbox'.
  apply process_nothing. rewrite Hsort'.
  apply Forall_forall. intros j Hj. split.
  { by apply (proj1 (Forall_forall _ _) (addressed_to_me_object this (map_to_list files'))). }
  intros Hcmd.
  apply list_elem_of_omap in Hj as ([file f] & Hf%elem_of_map_to_list & Hj).
  destruct (decide (file ∈ (λ k, ack_file E (drawn w + k)) <$> seq 0 (length commands)))
    as [Hack|Hnotack].
  { apply list_elem_of_fmap in Hack as (k & -> & Hk%elem_of_seq).
    destruct (lookup_lt_is_Some_2 commands k) as [c Hc]; [lia|].
    destruct (Hacks k c Hc) as (mt & timestamp & Hfile).
    rewrite Hf in Hfile. injection Hfile as ->.
    apply addressed_to_me_Some in Hj as (_ & o & [= <-] & _ & ->).
    assert (is_command c) as (oc & -> & _).
    { apply list_elem_of_lookup_2 in Hc. by apply list_elem_of_filter in Hc as [? _]. }
    destruct Hcmd as (o' & [= <-] & Htype).
    destruct (acknowledgement_props E this oc (drawn w + k) timestamp) as (Hmsg & _).
    simpl in Hmsg. rewrite Hmsg in Htype. done. }
  destruct (decide (file ∈ command_file <$> commands)) as [Hfilecmd|Hnotcmd].
  { apply list_elem_of_fmap in Hfilecmd as (c & -> & Hc).
    rewrite (Hgone c Hc) in Hf. done. }
  rewrite Hother in Hf.
  - apply Hnotcmd. apply list_elem_of_fmap. exists j. split.
    + pose proof Hj as (Hjson & o & Ho & Hto & ->)%addressed_to_me_Some.
      destruct Hcmd as (o' & [= <-] & Htype). simpl.
      by apply (Hfiled file f o).
    + apply list_elem_of_filter. split; [done|]. rewrite Hsort.
      apply list_elem_of_omap. exists (file, f). split; [|done].
      by apply elem_of_map_to_list.
  - intros k Hk ->. apply Hnotack. apply list_elem_of_fmap. exists k.
    split; [done|]. apply elem_of_seq. lia.
  - intros c Hc ->. apply Hnotcmd. by apply list_elem_of_fmap_2.
Qed.

Lemma processIncomingCommands_once_witness :
  ∃ w',
    processIncomingCommands Sample.env Scenario.alice Scenario.inbox =
      (Ok ["Processed command from id-bob: ls"], w') ∧
    processIncomingCommands Sample.env Scenario.alice w' = (Ok [], w').
Proof.
  destruct (messages Scenario.inbox) as [files|] eqn:Hdir; [|discriminate].
  injection Hdir as Hfiles.
  destruct (processIncomingCommands_once Sample.env Scenario.alice Scenario.inbox files)
    as (results & w' & Hrun & Hagain).
  - by subst files.
  - subst files. intros file f o Hf. revert o. revert file f Hf.
    apply (map_Forall_to_list (λ file f, ∀ o,
      endsWith file ".json" = true → parsed f = Some (JObj o) →
      o !! "to" = Some (VStr "id-alice") → o !! "type" = Some (VStr "command") →
      file = ToString (o !! "id") +:+ ".json" ∧ String_includes file "/" = false)).
    match goal with |- context [map_to_list ?m] =>
      let l := eval vm_compute in (map_to_list m) in change (map_to_list m) with l end.
    repeat (constructor;
            [simpl; intros o _ Ho _ _; simplify_eq; split; vm_compute; reflexivity|]).
    constructor.
  - subst files. intros k Hk. change (size _) with 5%nat in Hk.
    destruct k as [|[|[|[|[|k]]]]]; try lia; vm_compute; reflexivity.
  - subst files. intros i k Hi Hk Heq.
    change (size _) with 5%nat in Hi, Hk.
    destruct i as [|[|[|[|[|i]]]]]; try lia;
      destruct k as [|[|[|[|[|k]]]]]; try lia; try reflexivity;
      vm_compute in Heq; discriminate.
  - exists w'. split; [|exact Hagain].
    rewrite Hrun. f_equal. f_equal.
    pose proof Hrun as Hrun'. vm_compute in Hrun'. by injection Hrun' as <- _.
Defined.






Lemma omap_none {A B} (g : A → option B) (l : list A) :
  Forall (λ x, g x = None) l → omap g l = [].
Proof. induction 1 as [|x l Hx _ IH]; [done|]. cbn [omap list_omap]. by rewrite Hx. Qed.

(** X23.  A command makes the round trip.  When no record is waiting for the
    receiver and the next two UUIDs differ, a command sent by
    [sendCommandToAgent] is the one command the receiver's
    [processIncomingCommands] processes; its record is deleted, and the
    sender's inbox then holds the acknowledgement, a [message] from the
    receiver that reads [Command executed: ...]. *)
Theorem command_round_trip (E : Env) (sender receiver : Manager) (command : string)
    (sessionInfo : option SessionInfo) (w : World) (files : Dir) :
  messages w = Some files →
  (∀ file f o, files !! file = Some f → parsed f = Some (JObj o) →
               o !! "to" ≠ Some (VStr (agentId receiver))) →
  uuid E (S (drawn w)) ≠ uuid E (drawn w) →
  ∃ s w1 w2 inbox ack,
    sendCommandToAgent E sender (agentId receiver) command sessionInfo w = (Ok s, w1) ∧
    processIncomingCommands E receiver w1 =
      (Ok ["Processed command from " +:+ agentId sender +:+ ": " +:+ command], w2) ∧
    lookup_file MessagesDir (uuid E (drawn w) +:+ ".json") w2 = None ∧
    getIncomingMessages E sender w2 = (Ok inbox, w2) ∧
    JObj ack ∈ inbox ∧
    ack !! "from" = Some (VStr (agentId receiver)) ∧
    ack !! "type" = Some (VStr "message") ∧
    ack !! "content" = Some (VStr ("Command executed: " +:+ command)).
Proof.
  intros Hdir Hnone Huuid.
  destruct (sendCommandToAgent_effect E sender (agentId receiver) command sessionInfo
              w files Hdir) as (s & cmds & waited & Hsend).
  set (rec0 := sent_command E sender (agentId receiver) command sessionInfo w) in *.
  set (file0 := uuid E (drawn w) +:+ ".json") in *.
  set (files1 := <[file0 := mkFile (clock w) (Some (JObj rec0))]> files).
  match type of Hsend with _ = (_, ?x) => set (w1 := x) in * end.
  assert (messages w1 = Some files1) as Hdir1 by done.
  assert (rec0 !! "type" = Some (VStr "command") ∧
          rec0 !! "to" = Some (VStr (agentId receiver)) ∧
          rec0 !! "from" = Some (VStr (agentId sender)) ∧
          rec0 !! "id" = Some (VStr (uuid E (drawn w))) ∧
          rec0 !! "content" = Some (VStr command)) as (Htype & Hto & Hfrom & Hid & Hcontent).
  { unfold rec0, sent_command, AgentMessage. by destruct sessionInfo. }
  assert (is_command (JObj rec0)) as Hcmd by (by exists rec0).
  (* the receiver's inbox is the command *)
  destruct (getIncomingMessages_eq E receiver w1) as (inbox1 & Hsort1 & Hinbox1).
  apply Array_sort_perm in Hsort1. unfold entries in Hsort1. simpl in Hsort1.
  assert (inbox1 = [JObj rec0]) as ->.
  { apply Permutation_singleton_r. rewrite Hsort1. unfold files1.
    rewrite <- insert_delete_eq.
    rewrite map_to_list_insert by apply lookup_delete_eq.
    cbn [omap list_omap].
    assert (addressed_to_me receiver (file0, mkFile (clock w) (Some (JObj rec0))) =
            Some (JObj rec0)) as ->.
    { apply addressed_to_me_Some. simpl. split; [apply endsWith_app|]. by exists rec0. }
    rewrite omap_none; [done|].
    apply Forall_forall. intros [file f] [Hne Hf]%elem_of_map_to_list%lookup_delete_Some.
    destruct (addressed_to_me receiver (file, f)) as [j|] eqn:Hj; [|done].
    apply addressed_to_me_Some in Hj as (_ & o & Ho & Hto' & _).
    by destruct (Hnone file f o). }
  assert (String_includes (command_file (JObj rec0)) "/" = false) as Hname.
  { simpl. rewrite Hid. apply UUID_file_name. }
  destruct (process_message_command E receiver [] (JObj rec0) w1 files1 Hcmd Hname Hdir1)
    as (cmds' & waited' & Hprocess).
  match type of Hprocess with _ = (_, ?x) => set (w2 := x) in * end.
  exists s, w1, w2.
  destruct (getIncomingMessages_eq E sender w2) as (inbox & Hsort & Hinbox).
  apply Array_sort_perm in Hsort. unfold entries in Hsort. simpl in Hsort.
  set (ack := acknowledgement E receiver (JObj rec0) (drawn w1) (toISOString E (clock w1))).
  exists inbox, ack.
  assert (ack_file E (drawn w1) ≠ file0) as Hfresh.
  { simpl. unfold ack_file, file0. by intros Heq%string_app_inj_r%UUID_eq. }
  assert (command_file (JObj rec0) = file0) as Hfile.
  { simpl. by rewrite Hid. }
  pose proof (acknowledgement_props E receiver rec0 (drawn w1) (toISOString E (clock w1)))
    as Hack.
  cbv zeta in Hack. fold ack in Hack.
  destruct Hack as (Hatype & Hato & Hafrom & _ & Hacontent).
  split; [done|]. split.
  { unfold processIncomingCommands, bind. rewrite Hinbox1. cbn [for_of].
    unfold bind. rewrite Hprocess. unfold ret. simpl. by rewrite Hfrom, Hcontent. }
  split. { unfold lookup_file. simpl. rewrite Hid. apply lookup_delete_eq. }
  split; [done|]. split; [|split; [done|split; [done|]]].
  2: { by rewrite Hacontent, Hcontent. }
  rewrite Hsort. apply list_elem_of_omap.
  exists (ack_file E (drawn w1), mkFile (clock w1) (Some (JObj ack))). split.
  - apply elem_of_map_to_list. rewrite Hid.
    rewrite lookup_delete_ne by (apply not_eq_sym, Hfresh). apply lookup_insert_eq.
  - apply addressed_to_me_Some. simpl. split; [apply endsWith_app|].
    exists ack. split; [done|]. split; [|done]. by rewrite Hato, Hfrom.
Qed.

Lemma command_round_trip_witness :
  ∃ s w1 w2 inbox,
    sendCommandToAgent Sample.env Scenario.alice "id-bob" "ls" None Scenario.haunted =
      (Ok s, w1) ∧
    processIncomingCommands Sample.env Scenario.bob w1 =
      (Ok ["Processed command from id-alice: ls"], w2) ∧
    getIncomingMessages Sample.env Scenario.alice w2 = (Ok inbox, w2) ∧
    length inbox = 1%nat.
Proof.
  destruct (command_round_trip Sample.env Scenario.alice Scenario.bob "ls" None
              Scenario.haunted ∅ eq_refl)
    as (s & w1 & w2 & inbox & ack & Hsend & Hprocess & _ & Hinbox & _).
  - intros file f o Hf. by rewrite lookup_empty in Hf.
  - vm_compute. discriminate.
  - exists s, w1, w2, inbox. split; [exact Hsend|]. split; [exact Hprocess|].
    split; [exact Hinbox|].
    vm_compute in Hsend. injection Hsend as <- <-.
    vm_compute in Hprocess. injection Hprocess as <-.
    vm_compute in Hinbox. by injection Hinbox as <-.
Defined.

(** X24.  A message just sent is deleted by [deleteMessage] of its
    identifier, which leaves the message store as it was before the send when
    the UUID drawn was a new one; deleting it a second time does nothing, and
    does not throw. *)
Theorem sendMessage_then_deleteMessage (E : Env) (this : Manager)
    (targetAgentId : JSValue) (content : string) (type : SendType)
    (w : World) (files : Dir) :
  messages w = Some files →
  files !! (uuid E (drawn w) +:+ ".json") = None →
  ∃ s w1 w2,
    sendMessage E this targetAgentId content type w = (Ok s, w1) ∧
    is_Some (lookup_file MessagesDir (uuid E (drawn w) +:+ ".json") w1) ∧
    deleteMessage E (Some (VStr (uuid E (drawn w)))) w1 = (Ok tt, w2) ∧
    messages w2 = Some files ∧ agents w2 = agents w ∧
    deleteMessage E (Some (VStr (uuid E (drawn w)))) w2 = (Ok tt, w2).
Proof.
  intros Hdir Hnew.
  destruct (sendMessage_effect E this targetAgentId content type w files Hdir)
    as (s & cmds & waited & Hsend).
  eexists s, _, _. split; [exact Hsend|]. split.
  { unfold lookup_file. simpl. rewrite lookup_insert_eq. by eexists. }
  split; [apply deleteMessage_run; [apply UUID_no_separator|done]|]. simpl.
  rewrite delete_insert_eq, delete_id by done.
  split; [done|]. split; [done|].
  erewrite deleteMessage_run; [|apply UUID_no_separator|reflexivity].
  simpl. by rewrite delete_id.
Qed.

Lemma sendMessage_then_deleteMessage_witness :
  ∃ s w1 w2,
    sendMessage Sample.env Scenario.alice (Some (VStr "id-bob")) "hello" message_
      Scenario.inbox = (Ok s, w1) ∧
    deleteMessage Sample.env (Some (VStr "00000000-0000-4000-8000-000000000000")) w1 =
      (Ok tt, w2) ∧
    messages w2 = messages Scenario.inbox.
Proof.
  destruct (messages Scenario.inbox) as [files|] eqn:Hdir; [|discriminate].
  destruct (sendMessage_then_deleteMessage Sample.env Scenario.alice
              (Some (VStr "id-bob")) "hello" message_ Scenario.inbox files Hdir)
    as (s & w1 & w2 & Hsend & _ & Hdelete & Hstore & _).
  { injection Hdir as <-. vm_compute. reflexivity. }
  exists s, w1, w2. split; [exact Hsend|]. split; [exact Hdelete|].
  by rewrite Hstore.
Defined.

(** X25.  [unregisterAgent] after [registerAgent] removes the record just
    written and reports success: the registry is left without a record of the
    caller, the other records and the messages as they were.  A second
    [unregisterAgent] reports a failure in its string and changes nothing. *)
Theorem registerAgent_then_unregisterAgent (E : Env) (this : Manager)
    (sessionName : string) (w : World) (files : Dir) :
  agents w = Some files →
  ∃ s w1 w2 error,
    registerAgent E this sessionName w = (Ok s, w1) ∧
    unregisterAgent this w1 =
      (Ok ("Agent " +:+ quote +:+ agentName this +:+ quote +:+ " unregistered successfully"),
       w2) ∧
    agents w2 = Some (delete (agentId this +:+ ".json") files) ∧
    messages w2 = messages w ∧
    unregisterAgent this w2 =
      (Ok ("Failed to unregister agent: " +:+ error_message error), w2).
Proof.
  intros Hdir. rewrite (registerAgent_run E this sessionName w files Hdir).
  eexists _, _, _, (ENOENT (join AgentsDir (agentId this +:+ ".json"))).
  split; [reflexivity|].
  rewrite unregisterAgent_run. unfold lookup_file. simpl.
  rewrite lookup_insert_eq. split; [reflexivity|]. simpl.
  rewrite delete_insert_eq. split; [reflexivity|]. split; [reflexivity|].
  rewrite unregisterAgent_run. unfold lookup_file. simpl.
  by rewrite lookup_delete_eq.
Qed.

Lemma registerAgent_then_unregisterAgent_witness :
  ∃ s w1 w2,
    registerAgent Sample.env Scenario.alice "dev" Scenario.stale = (Ok s, w1) ∧
    unregisterAgent Scenario.alice w1 =
      (Ok ("Agent " +:+ quote +:+ "alice" +:+ quote +:+ " unregistered successfully"), w2) ∧
    agents w2 = agents Scenario.stale.
Proof.
  destruct (registerAgent_then_unregisterAgent Sample.env Scenario.alice "dev"
              Scenario.stale _ eq_refl)
    as (s & w1 & w2 & error & Hregister & Hunregister & Hagents & _).
  exists s, w1, w2. split; [exact Hregister|]. split; [exact Hunregister|].
  rewrite Hagents. vm_compute. reflexivity.
Defined.

(** ** Identifiers that lead out of their directory *)

Lemma normalizeString_json res (stem : string) :
  String_includes stem "/" = false →
  String_split (stem +:+ ".json") "/" = [stem +:+ ".json"] ∧
  normalizeString res (stem +:+ ".json") = (stem +:+ ".json") :: res.
Proof.
  intros Hstem.
  assert (String_includes (stem +:+ ".json") "/" = false) as Hname.
  { pose proof (String_includes_char_app (Ascii.ascii_of_nat 47) stem ".json") as Happ.
    change (String (Ascii.ascii_of_nat 47) "") with "/" in Happ.
    by rewrite Happ, Hstem. }
  split.
  - exact (String_split_none (Ascii.ascii_of_nat 47) _ Hname).
  - unfold normalizeString.
    assert (∀ s, (String.length s < 5)%nat → String.eqb (stem +:+ ".json") s = false) as Hne.
    { intros s Hs. apply String.eqb_neq. intros H%(f_equal String.length).
      rewrite String_length_app in H. simpl in H. lia. }
    by rewrite !Hne by (simpl; lia).
Qed.

(** Where [./id], [../agents/id] and [../messages/id] lead, from either
    directory, for an [id] that holds no separator. *)
Lemma path_join_dots E d d' (stem : string) :
  String_includes stem "/" = false →
  entry_of E (path_join E d ("./" +:+ stem +:+ ".json")) = Some (d, stem +:+ ".json") ∧
  entry_of E (path_join E d ("../" +:+ dirName d' +:+ "/" +:+ stem +:+ ".json")) =
    Some (d', stem +:+ ".json").
Proof.
  intros Hstem. destruct (normalizeString_json [] stem Hstem) as [Hsplit _].
  pose proof (String_split_app (Ascii.ascii_of_nat 47)) as Happ.
  change (String (Ascii.ascii_of_nat 47) "") with "/" in Happ.
  split.
  - unfold path_join.
    change ("./" +:+ stem +:+ ".json")
      with ("." +:+ String (Ascii.ascii_of_nat 47) (stem +:+ ".json")).
    rewrite Happ by reflexivity. rewrite Hsplit. cbn [foldl].
    change (normalizeString (directory E d) ".") with (directory E d).
    rewrite (proj2 (normalizeString_json _ stem Hstem)). apply entry_of_directory.
  - unfold path_join. rewrite (directory_eq E d).
    change ("../" +:+ dirName d' +:+ "/" +:+ stem +:+ ".json")
      with (".." +:+ String (Ascii.ascii_of_nat 47)
                       (dirName d' +:+ String (Ascii.ascii_of_nat 47) (stem +:+ ".json"))).
    rewrite Happ by reflexivity. rewrite Happ by (by destruct d'). rewrite Hsplit.
    cbn [foldl].
    change (normalizeString (dirName d :: ?l) "..") with l.
    replace (normalizeString (".mcp-tmux" :: foldl normalizeString [] (String_split (HOME E) "/"))
               (dirName d'))
      with (directory E d') by (rewrite directory_eq; by destruct d').
    rewrite (proj2 (normalizeString_json _ stem Hstem)). apply entry_of_directory.
Qed.

(** X26.  An identifier is not confined to its directory: [path.join]
    resolves [.] and [..] in it.  For an [id] that holds no [/],
    [getAgentInfo] of [./id] and of [../agents/id] reads the record of [id],
    and [getAgentInfo] of [../messages/id] reads the message record filed
    under [id]; [deleteMessage] of [../agents/id] deletes the registration of
    [id], whether the messages directory exists or not, and leaves every
    message. *)
Theorem identifier_leaves_directory (E : Env) (id : string) (w : World) :
  String_includes id "/" = false →
  getAgentInfo E (Some (VStr ("./" +:+ id))) w =
    (Ok (registry_record (Some (VStr id)) w), w) ∧
  getAgentInfo E (Some (VStr ("../agents/" +:+ id))) w =
    (Ok (registry_record (Some (VStr id)) w), w) ∧
  getAgentInfo E (Some (VStr ("../messages/" +:+ id))) w =
    (Ok match lookup_file MessagesDir (id +:+ ".json") w with
        | Some f => default JNull (parsed f)
        | None => JNull
        end, w) ∧
  (∀ files f,
     agents w = Some files → files !! (id +:+ ".json") = Some f →
     deleteMessage E (Some (VStr ("../agents/" +:+ id))) w =
       (Ok tt, mkWorld (Some (delete (id +:+ ".json") files)) (messages w) (clock w)
                 (drawn w) (shell w))).
Proof.
  intros Hstem.
  destruct (path_join_dots E AgentsDir AgentsDir id Hstem) as [Hdot Hagents].
  destruct (path_join_dots E AgentsDir MessagesDir id Hstem) as [_ Hmessages].
  destruct (path_join_dots E MessagesDir AgentsDir id Hstem) as [_ Hdelete].
  cbn [dirName] in *.
  split; [|split; [|split]].
  - rewrite getAgentInfo_eq. unfold found, registry_record. cbn [ToString].
    change (("./" +:+ id) +:+ ".json") with ("./" +:+ id +:+ ".json"). by rewrite Hdot.
  - rewrite getAgentInfo_eq. unfold found, registry_record. cbn [ToString].
    change (("../agents/" +:+ id) +:+ ".json") with ("../" +:+ "agents" +:+ "/" +:+ id +:+ ".json").
    by rewrite Hagents.
  - rewrite getAgentInfo_eq. unfold found. cbn [ToString].
    change (("../messages/" +:+ id) +:+ ".json")
      with ("../" +:+ "messages" +:+ "/" +:+ id +:+ ".json").
    by rewrite Hmessages.
  - intros files f Hdir Hfile. unfold deleteMessage, try_catch, at_path. cbn [ToString].
    change (("../agents/" +:+ id) +:+ ".json") with ("../" +:+ "agents" +:+ "/" +:+ id +:+ ".json").
    rewrite Hdelete. unfold unlink. cbn [dir]. by rewrite Hdir, Hfile.
Qed.

Lemma identifier_leaves_directory_witness :
  getAgentInfo Sample.env (Some (VStr "./id-bob")) Scenario.stale =
    (Ok (JObj Scenario.bob_record), Scenario.stale) ∧
  getAgentInfo Sample.env (Some (VStr "../messages/m1")) Scenario.inbox =
    (Ok (JObj Scenario.m1), Scenario.inbox) ∧
  deleteMessage Sample.env (Some (VStr "../agents/id-bob"))
    (mkWorld (agents Scenario.stale) None (clock Scenario.stale) 0 []) =
    (Ok tt, mkWorld (Some ∅) None (clock Scenario.stale) 0 []).
Proof.
  destruct (identifier_leaves_directory Sample.env "id-bob" Scenario.stale eq_refl)
    as (Hdot & _ & _ & _).
  destruct (identifier_leaves_directory Sample.env "m1" Scenario.inbox eq_refl)
    as (_ & _ & Hmessage & _).
  destruct (identifier_leaves_directory Sample.env "id-bob"
              (mkWorld (agents Scenario.stale) None (clock Scenario.stale) 0 []) eq_refl)
    as (_ & _ & _ & Hdelete).
  split; [|split].
  - refine (eq_trans Hdot _). vm_compute. reflexivity.
  - refine (eq_trans Hmessage _). vm_compute. reflexivity.
  - refine (eq_trans (Hdelete _ (Scenario.stored Scenario.noon Scenario.bob_record)
                        eq_refl _) _); vm_compute; reflexivity.
Defined.

(** ** Files that are not JSON *)



(** * [TmuxController] and the tool-call handler *)

(** ** Strings *)

Lemma String_split_concat c (fields : list string) :
  fields ≠ [] →
  Forall (λ s, String_includes s (String c EmptyString) = false) fields →
  String_split (String.concat (String c EmptyString) fields) (String c EmptyString) = fields.
Proof.
  intros Hne Hfields. induction Hfields as [|x l Hx Hl IH]; [done|].
  destruct l as [|y l].
  - simpl. by apply String_split_none.
  - change (String.concat (String c "") (x :: y :: l))
      with (x +:+ String c (String.concat (String c "") (y :: l))).
    rewrite String_split_app by done. by rewrite IH.
Qed.

Lemma String_includes_concat c sep (fields : list string) :
  String_includes sep (String c EmptyString) = false →
  Forall (λ s, String_includes s (String c EmptyString) = false) fields →
  String_includes (String.concat sep fields) (String c EmptyString) = false.
Proof.
  intros Hsep. induction 1 as [|x l Hx Hl IH]; [done|].
  destruct l as [|y l]; [done|].
  change (String.concat sep (x :: y :: l))
    with (x +:+ sep +:+ String.concat sep (y :: l)).
  by rewrite !String_includes_char_app, Hx, Hsep, IH.
Qed.

Lemma printable_not_white c :
  printable c = true →
  white1 (code c) = false ∧
  (∀ x, white2 (code c) x = false) ∧ (∀ x, white2 x (code c) = false) ∧
  (∀ x y, white3 (code c) x y = false) ∧ (∀ x y, white3 x y (code c) = false).
Proof.
  unfold printable. intros [H1 H2]%andb_true_iff. apply Z.leb_le in H1, H2.
  assert (∀ n, 126 < n → (code c =? n) = false) as Hne
    by (intros; apply Z.eqb_neq; lia).
  assert (∀ n, 126 < n → (n <=? code c) = false) as Hlt
    by (intros; apply Z.leb_gt; lia).
  unfold white1, white2, white3. repeat apply conj; intros.
  - rewrite (proj2 (Z.leb_gt (code c) 13)) by lia.
    rewrite (proj2 (Z.eqb_neq (code c) 32)) by lia. by rewrite andb_false_r.
  - by rewrite Hne by lia.
  - rewrite Hne by lia. apply andb_false_r.
  - by rewrite !Hne by lia.
  - rewrite !Hne, !Hlt by lia. by rewrite ?andb_false_r.
Qed.

Lemma trimStart_printable c l : printable c = true → trimStart (c :: l) = c :: l.
Proof.
  intros (H1 & H2 & _ & H3 & _)%printable_not_white. simpl. rewrite H1.
  destruct l as [|b [|d l]]; [done|by rewrite H2|by rewrite H2, H3].
Qed.

Lemma trimEnd_reversed_printable c l :
  printable c = true → trimEnd_reversed (c :: l) = c :: l.
Proof.
  intros (H1 & _ & H2 & _ & H3)%printable_not_white. simpl. rewrite H1.
  destruct l as [|b [|d l]]; [done|by rewrite H2|by rewrite H2, H3].
Qed.

Lemma starts_printable_cons s :
  starts_printable s = true → ∃ c s', s = String c s' ∧ printable c = true.
Proof. destruct s as [|c s]; [done|]. by exists c, s. Qed.

Lemma starts_printable_app a b :
  starts_printable a = true → starts_printable (a +:+ b) = true.
Proof. by destruct a. Qed.

Lemma ends_printable_app a b :
  ends_printable b = true → ends_printable (a +:+ b) = true.
Proof.
  unfold ends_printable. rewrite list_ascii_of_string_app, rev_app_distr.
  by destruct (rev (String.list_ascii_of_string b)).
Qed.

(** [trim] takes the final line feed off a line that begins and ends with a
    printable character, and nothing else. *)
Lemma String_trim_line s :
  starts_printable s = true → ends_printable s = true → String_trim (s +:+ LF) = s.
Proof.
  intros (c & s' & -> & Hc)%starts_printable_cons Hend.
  unfold String_trim, ends_printable in *.
  rewrite list_ascii_of_string_app.
  change (String.list_ascii_of_string (String c s'))
    with (c :: String.list_ascii_of_string s') in *.
  change ((c :: ?l) ++ ?k) with (c :: (l ++ k)).
  rewrite trimStart_printable by done.
  change (c :: (?l ++ ?k)) with ((c :: l) ++ k).
  rewrite rev_app_distr.
  change (rev (String.list_ascii_of_string LF)) with [Ascii.ascii_of_nat 10].
  change ([?x] ++ ?l) with (x :: l).
  change (trimEnd_reversed (Ascii.ascii_of_nat 10 :: ?l)) with (trimEnd_reversed l).
  destruct (rev (c :: String.list_ascii_of_string s')) as [|d l] eqn:Hrev; [done|].
  rewrite trimEnd_reversed_printable by done.
  rewrite <- Hrev, rev_involutive.
  apply (String.string_of_list_ascii_of_string (String c s')).
Qed.

Lemma String_append_assoc (a b c : string) : (a +:+ b) +:+ c = a +:+ (b +:+ c).
Proof.
  induction a as [|x a IH]; [done|].
  change (String x ((a +:+ b) +:+ c) = String x (a +:+ (b +:+ c))). by rewrite IH.
Qed.

Lemma unlines_concat line lines :
  unlines (line :: lines) = String.concat LF (line :: lines) +:+ LF.
Proof.
  revert line. induction lines as [|y l IH]; intros line; [done|].
  change (unlines (line :: y :: l)) with (line +:+ LF +:+ unlines (y :: l)).
  change (String.concat LF (line :: y :: l))
    with (line +:+ LF +:+ String.concat LF (y :: l)).
  by rewrite IH, !String_append_assoc.
Qed.

Lemma filter_all {A} (P : A → Prop) `{!∀ x, Decision (P x)} (l : list A) :
  Forall P l → filter P l = l.
Proof.
  induction 1 as [|x l Hx Hl IH]; [done|].
  by rewrite filter_cons, decide_True, IH.
Qed.

Lemma starts_printable_lines (line : string) (lines : list string) :
  starts_printable line = true →
  starts_printable (String.concat LF (line :: lines)) = true.
Proof. destruct lines; [done|]. apply starts_printable_app. Qed.

Lemma ends_printable_lines (lines : list string) :
  lines ≠ [] → Forall (λ line, ends_printable line = true) lines →
  ends_printable (String.concat LF lines) = true.
Proof.
  intros Hne. induction 1 as [|x l Hx Hl IH]; [done|].
  destruct l as [|y l]; [done|].
  change (String.concat LF (x :: y :: l))
    with (x +:+ LF +:+ String.concat LF (y :: l)).
  rewrite <- String_append_assoc. apply ends_printable_app. by apply IH.
Qed.

(** The lines of a listing are read back as they were printed. *)
Lemma output_lines_unlines (lines : list string) :
  Forall (λ line, starts_printable line = true ∧ ends_printable line = true ∧
                  String_includes line LF = false) lines →
  output_lines (unlines lines) = lines.
Proof.
  intros Hlines. destruct lines as [|line lines]; [done|].
  unfold output_lines. rewrite unlines_concat, String_trim_line.
  - rewrite (String_split_concat (Ascii.ascii_of_nat 10)); [|done|].
    + apply filter_all.
      eapply Forall_impl; [exact Hlines|]. intros s [Hs _]. by destruct s.
    + eapply Forall_impl; [exact Hlines|]. by intros s (_ & _ & Hs).
  - apply starts_printable_lines. by apply Forall_cons in Hlines as [[? _] _].
  - apply ends_printable_lines; [done|].
    eapply Forall_impl; [exact Hlines|]. by intros s (_ & Hs & _).
Qed.

(** An output line is split into the fields it was printed from. *)
Lemma String_split_row (fields : list string) :
  row fields →
  String_split (String.concat ":" fields) ":" = fields ∧
  String_includes (String.concat ":" fields) LF = false.
Proof.
  intros (Hfields & Hstart & _). split.
  - apply (String_split_concat (Ascii.ascii_of_nat 58)).
    + by intros ->.
    + eapply Forall_impl; [exact Hfields|]. by intros s [Hs _].
  - apply (String_includes_concat (Ascii.ascii_of_nat 10)); [done|].
    eapply Forall_impl; [exact Hfields|]. by intros s [_ Hs].
Qed.

Lemma output_lines_rows (rows : list (list string)) :
  Forall row rows →
  output_lines (unlines (String.concat ":" <$> rows)) = String.concat ":" <$> rows.
Proof.
  intros Hrows. apply output_lines_unlines. apply Forall_fmap.
  eapply Forall_impl; [exact Hrows|]. intros fields Hrow. simpl.
  destruct (String_split_row fields Hrow) as (_ & ?).
  by destruct Hrow as (_ & ? & ?).
Qed.

(** ** [TmuxController]: the command lines *)

(** X13.  [sendKeys] does not escape what it puts between double quotes: a
    double quote in the target or in the keys moves the boundary between the
    two, so that different arguments hand the same command to the shell. *)
Theorem sendKeys_does_not_escape (E : Env) (target inner keys : string)
    (enter : bool) (w : World) :
  let target' := target +:+ quote +:+ " " +:+ quote +:+ inner in
  let keys' := inner +:+ quote +:+ " " +:+ quote +:+ keys in
  send_keys_cmd target' keys enter = send_keys_cmd target keys' enter ∧
  (sendKeys E target' keys enter w).2 = (sendKeys E target keys' enter w).2 ∧
  shell (sendKeys E target' keys enter w).2 = shell w ++ [send_keys_cmd target keys' enter].
Proof.
  simpl.
  assert (send_keys_cmd (target +:+ quote +:+ " " +:+ quote +:+ inner) keys enter =
          send_keys_cmd target (inner +:+ quote +:+ " " +:+ quote +:+ keys) enter) as Heq.
  { unfold send_keys_cmd. destruct enter; by rewrite !String_append_assoc. }
  split; [done|]. unfold sendKeys, bind, execAsync, ret. rewrite Heq.
  by destruct (exec_error E _).
Qed.

(** X14.  An optional argument given as the empty string is treated as one
    left out, by [createSession], [createWindow], [splitWindow] and
    [listWindows]; [capturePane] tests for [undefined] instead and passes every
    line number it is given, [0] included, as the template literal prints it:
    with all its digits below 2^53, rounded to the shortest decimal that
    reads back from there on, and in exponent form from 10^21 on. *)
Theorem empty_optional_arguments (E : Env) (T : Terminal) (name session target : string)
    (given : option string) (vertical : bool) (startLine endLine : Z)
    (log : list string) :
  createSession E T name (Some "") = createSession E T name None ∧
  createWindow E T session (Some "") given = createWindow E T session None given ∧
  createWindow E T session given (Some "") = createWindow E T session given None ∧
  splitWindow E T target vertical (Some "") = splitWindow E T target vertical None ∧
  listWindows E T (Some "") = listWindows E T None ∧
  (capturePane E T target (Some startLine) (Some endLine) log).2 =
    log ++ ["tmux capture-pane -t " +:+ quote +:+ target +:+ quote +:+ " -p -S " +:+
            Number_toString startLine +:+ " -E " +:+ Number_toString endLine] ∧
  (capturePane E T target (Some 0) (Some 0) log).2 =
    log ++ ["tmux capture-pane -t " +:+ quote +:+ target +:+ quote +:+ " -p -S 0 -E 0"] ∧
  (Z.abs startLine < 2 ^ 53 → Number_toString startLine = pretty startLine) ∧
  Number_toString (10 ^ 21) = "1e+21" ∧
  Number_toString (2 ^ 64) = "18446744073709552000".
Proof.
  do 5 (split; [reflexivity|]).
  split; [|split; [|split; [|split; vm_compute; reflexivity]]].
  - unfold capturePane, and_then, execAsync_stdout, capture_pane_cmd.
    rewrite !String_append_assoc. by destruct (exec_error E _).
  - unfold capturePane, and_then, execAsync_stdout, capture_pane_cmd.
    change (Number_toString 0) with "0".
    rewrite !String_append_assoc. by destruct (exec_error E _).
  - intros Hsafe. unfold Number_toString, Number_toString_unsigned.
    destruct startLine as [|p|p]; [done| |].
    + change (Z.pos p <? 0) with false. cbv iota.
      by rewrite (proj2 (Z.ltb_lt _ _)) by lia.
    + change (Z.neg p <? 0) with true. cbv iota.
      by rewrite (proj2 (Z.ltb_lt _ _)) by lia.
Qed.

(** ** [TmuxController]: when tmux fails *)

(** X15.  When tmux fails, [listSessions] returns no session if the error
    output says [no server running] and throws the error otherwise; every
    other method throws it in every case.  Each hands exactly one command to
    the shell and does not try again. *)
Theorem tmux_failure (E : Env) (T : Terminal) (log : list string) :
  (is_Some (exec_error E list_sessions_cmd) →
   listSessions E T log =
     if String_includes (exec_stderr T list_sessions_cmd) "no server running"
     then (Return [], log ++ [list_sessions_cmd])
     else rejected E T list_sessions_cmd log) ∧
  (∀ session,
     is_Some (exec_error E (list_windows_cmd session)) →
     listWindows E T session log = rejected E T (list_windows_cmd session) log) ∧
  (∀ target,
     is_Some (exec_error E (list_panes_cmd target)) →
     listPanes E T target log = rejected E T (list_panes_cmd target) log) ∧
  (∀ name,
     is_Some (exec_error E (session_info_cmd name)) →
     getSessionInfo E T name log = rejected E T (session_info_cmd name) log) ∧
  (∀ name command,
     is_Some (exec_error E (create_session_cmd name command)) →
     createSession E T name command log =
       rejected E T (create_session_cmd name command) log) ∧
  (∀ name,
     is_Some (exec_error E (kill_session_cmd name)) →
     killSession E T name log = rejected E T (kill_session_cmd name) log) ∧
  (∀ session name command,
     is_Some (exec_error E (create_window_cmd session name command)) →
     createWindow E T session name command log =
       rejected E T (create_window_cmd session name command) log) ∧
  (∀ target,
     is_Some (exec_error E (kill_window_cmd target)) →
     killWindow E T target log = rejected E T (kill_window_cmd target) log) ∧
  (∀ target vertical command,
     is_Some (exec_error E (split_window_cmd target vertical command)) →
     splitWindow E T target vertical command log =
       rejected E T (split_window_cmd target vertical command) log) ∧
  (∀ target startLine endLine,
     is_Some (exec_error E (capture_pane_cmd target startLine endLine)) →
     capturePane E T target startLine endLine log =
       rejected E T (capture_pane_cmd target startLine endLine) log).
Proof.
  repeat apply conj; intros;
    match goal with H : is_Some _ |- _ => destruct H as [msg H] end;
    unfold listSessions, listWindows, listPanes, getSessionInfo, createSession,
      killSession, createWindow, killWindow, splitWindow, capturePane, catch,
      and_then, execAsync_stdout, rejected;
    rewrite H; [|done..].
  simpl. by destruct (String_includes _ _).
Qed.

(** ** [TmuxController]: reading what tmux prints *)

Lemma fmap_rows {B} (g : list string → B) (rows : list (list string)) :
  Forall row rows →
  (λ line, g (String_split line ":")) <$> (String.concat ":" <$> rows) = g <$> rows.
Proof.
  induction 1 as [|fields rows Hrow _ IH]; [done|].
  cbn [fmap list_fmap] in *. rewrite IH.
  by destruct (String_split_row fields Hrow) as (-> & _).
Qed.

Lemma Array_map_rows {B} (g : list string → Outcome B) (rows : list (list string)) :
  Forall row rows →
  Array_map (λ line, g (String_split line ":")) (String.concat ":" <$> rows) =
  Array_map g rows.
Proof.
  induction 1 as [|fields rows Hrow _ IH]; [done|].
  cbn [fmap list_fmap Array_map] in *. rewrite IH.
  by destruct (String_split_row fields Hrow) as (-> & _).
Qed.

Lemma Array_map_Return {A B} (f : A → Outcome B) (g : A → B) (l : list A) :
  Forall (λ x, f x = Return (g x)) l → Array_map f l = Return (g <$> l).
Proof. induction 1 as [|x l Hx _ IH]; [done|]. simpl. by rewrite Hx, IH. Qed.

Lemma Array_map_Raise {A B} (f : A → Outcome B) (e : Error) (l : list A) :
  (∀ x e', f x = Raise e' → e' = e) →
  Exists (λ x, ∃ e', f x = Raise e') l → Array_map f l = Raise e.
Proof.
  intros Honly. induction 1 as [x l [e' Hx]|x l _ IH]; simpl.
  - rewrite Hx. by rewrite (Honly x e' Hx).
  - destruct (f x) as [y|e'] eqn:Hx; [by rewrite IH|].
    by rewrite (Honly x e' Hx).
Qed.

(** X16.  When tmux prints one line per window, each line the fields of the
    window joined by colons, [listWindows] returns one window per line, in
    order, made of the first five fields of the line: a field that is missing
    is [undefined] ([NaN] for [panes]), and a window name that holds a colon
    shifts the fields after it. *)
Theorem listWindows_parses (E : Env) (T : Terminal) (session : option string)
    (rows : list (list string)) (log : list string) :
  exec_error E (list_windows_cmd session) = None →
  exec_stdout T (list_windows_cmd session) = unlines (String.concat ":" <$> rows) →
  Forall row rows →
  listWindows E T session log =
    (Return
       ((λ fields,
           TmuxWindow.mk (default "" (fields !! 0%nat)) (fields !! 1%nat)
             (bool_decide (fields !! 2%nat = Some "1")) (fields !! 3%nat)
             (parseInt (VStr <$> fields !! 4%nat))) <$> rows),
     log ++ [list_windows_cmd session]).
Proof.
  intros Hok Hstdout Hrows. unfold listWindows, and_then, execAsync_stdout.
  rewrite Hok, Hstdout, output_lines_rows by done. do 2 f_equal.
  rewrite (fmap_rows (λ fields,
    TmuxWindow.mk (default "" (fields !! 0%nat)) (fields !! 1%nat)
      (is_one (fields !! 2%nat)) (fields !! 3%nat)
      (parseInt (VStr <$> fields !! 4%nat)))) by done.
  apply list_fmap_ext. intros _ fields _. f_equal.
  unfold is_one. destruct (fields !! 2%nat) as [s|]; simpl; [|done].
  destruct (String.eqb_spec s "1") as [->|Hne].
  - by rewrite bool_decide_eq_true_2.
  - rewrite bool_decide_eq_false_2; [done|]. by intros [= ->].
Qed.

Lemma is_one_decide (x : option string) : is_one x = bool_decide (x = Some "1").
Proof.
  unfold is_one. destruct x as [s|]; simpl; [|done].
  destruct (String.eqb_spec s "1") as [->|Hne].
  - by rewrite bool_decide_eq_true_2.
  - rewrite bool_decide_eq_false_2; [done|]. by intros [= ->].
Qed.

(** X17.  [listPanes] returns one pane per line printed, in order, made of
    the first five colon-separated fields of the line; [width] and [height]
    are what [parseInt] reads of theirs. *)
Theorem listPanes_parses (E : Env) (T : Terminal) (target : string)
    (rows : list (list string)) (log : list string) :
  exec_error E (list_panes_cmd target) = None →
  exec_stdout T (list_panes_cmd target) = unlines (String.concat ":" <$> rows) →
  Forall row rows →
  listPanes E T target log =
    (Return
       ((λ fields,
           TmuxPane.mk (default "" (fields !! 0%nat))
             (bool_decide (fields !! 1%nat = Some "1"))
             (parseInt (VStr <$> fields !! 2%nat))
             (parseInt (VStr <$> fields !! 3%nat)) (fields !! 4%nat)) <$> rows),
     log ++ [list_panes_cmd target]).
Proof.
  intros Hok Hstdout Hrows. unfold listPanes, and_then, execAsync_stdout.
  rewrite Hok, Hstdout, output_lines_rows by done. do 2 f_equal.
  rewrite (fmap_rows (λ fields,
    TmuxPane.mk (default "" (fields !! 0%nat)) (is_one (fields !! 1%nat))
      (parseInt (VStr <$> fields !! 2%nat)) (parseInt (VStr <$> fields !! 3%nat))
      (fields !! 4%nat))) by done.
  apply list_fmap_ext. intros _ fields _. f_equal. apply is_one_decide.
Qed.

Lemma Date_toISOString_time E created :
  Date_toISOString E (seconds created) =
  match time_value created with
  | Some t => Return (toISOString E t)
  | None => Raise RangeError
  end.
Proof.
  unfold Date_toISOString, time_value. destruct (seconds created) as [t|]; [|done].
  by destruct (Z.abs t <=? _).
Qed.

(** X18.  [listSessions] returns one session per line printed, made of its
    first five colon-separated fields, with [created] the ISO form of the
    seconds printed, when every line prints a valid date; one line that does
    not makes the whole call throw a [RangeError]. *)
Theorem listSessions_parses (E : Env) (T : Terminal)
    (rows : list (list string)) (log : list string) :
  exec_error E list_sessions_cmd = None →
  exec_stdout T list_sessions_cmd = unlines (String.concat ":" <$> rows) →
  Forall row rows →
  (Forall (λ fields, is_Some (time_value (fields !! 4%nat))) rows →
   listSessions E T log =
     (Return
        ((λ fields,
            TmuxSession.mk (default "" (fields !! 0%nat)) (fields !! 1%nat)
              (parseInt (VStr <$> fields !! 2%nat))
              (bool_decide (fields !! 3%nat = Some "1"))
              (toISOString E (default 0 (time_value (fields !! 4%nat))))) <$> rows),
      log ++ [list_sessions_cmd])) ∧
  (Exists (λ fields, time_value (fields !! 4%nat) = None) rows →
   listSessions E T log = (Raise RangeError, log ++ [list_sessions_cmd])).
Proof.
  intros Hok Hstdout Hrows.
  set (f := λ fields : list string,
    match Date_toISOString E (seconds (fields !! 4%nat)) with
    | Return iso =>
        Return (TmuxSession.mk (default "" (fields !! 0%nat)) (fields !! 1%nat)
                  (parseInt (VStr <$> fields !! 2%nat)) (is_one (fields !! 3%nat)) iso)
    | Raise e => Raise e
    end).
  assert (listSessions E T log =
    (match Array_map f rows with
     | Return sessions => Return sessions
     | Raise error =>
         if stderr_includes error "no server running" then Return [] else Raise error
     end, log ++ [list_sessions_cmd])) as ->.
  { unfold listSessions, catch, and_then, execAsync_stdout.
    rewrite Hok, Hstdout, output_lines_rows by done.
    rewrite (Array_map_rows f) by done. by destruct (Array_map f rows). }
  split.
  - intros Hvalid. erewrite Array_map_Return; [done|].
    eapply Forall_impl; [exact Hvalid|]. intros fields [t Ht]. unfold f.
    by rewrite Date_toISOString_time, Ht, is_one_decide.
  - intros Hinvalid. rewrite (Array_map_Raise f RangeError); [done| |].
    + intros fields e'. unfold f. rewrite Date_toISOString_time.
      destruct (time_value _); [done|]. by intros [= <-].
    + eapply Exists_impl; [exact Hinvalid|]. intros fields Hnone. unfold f.
      rewrite Date_toISOString_time, Hnone. by eexists.
Qed.

(** X19.  [getSessionInfo] reads the seven colon-separated fields of the
    line printed, and throws a [RangeError] when the fifth is not a valid
    date. *)
Theorem getSessionInfo_parses (E : Env) (T : Terminal) (name : string)
    (fields : list string) (log : list string) :
  exec_error E (session_info_cmd name) = None →
  exec_stdout T (session_info_cmd name) = String.concat ":" fields +:+ LF →
  row fields →
  getSessionInfo E T name log =
    (match time_value (fields !! 4%nat) with
     | Some t =>
         Return (SessionDetails.mk (default "" (fields !! 0%nat)) (fields !! 1%nat)
                   (parseInt (VStr <$> fields !! 2%nat))
                   (bool_decide (fields !! 3%nat = Some "1"))
                   (toISOString E t)
                   (parseInt (VStr <$> fields !! 5%nat))
                   (parseInt (VStr <$> fields !! 6%nat)))
     | None => Raise RangeError
     end, log ++ [session_info_cmd name]).
Proof.
  intros Hok Hstdout Hrow. unfold getSessionInfo, and_then, execAsync_stdout.
  rewrite Hok, Hstdout.
  destruct (String_split_row fields Hrow) as (Hsplit & _).
  destruct Hrow as (_ & Hstart & Hend).
  rewrite String_trim_line, Hsplit by done.
  rewrite Date_toISOString_time, is_one_decide. by destruct (time_value _).
Qed.

(** ** index.ts: the agent tools *)

(** X20.  The [send_command] tool builds [sessionInfo] only from a non-empty
    [session]: without one, [window] and [pane] are dropped, the record is
    written with no [sessionInfo], and the command is typed at window [0] of
    the session of the record that [getAgentInfo] finds for the target once
    the command is written, or nowhere.  The target is any string: [./id] and
    [../agents/id] lead to the record of [id]. *)
Theorem send_command_without_session (E : Env) (agentComm : Manager)
    (target_agent_id command : string) (session window pane : option string)
    (w : World) (files : Dir) :
  messages w = Some files →
  session = None ∨ session = Some "" →
  let written :=
    persisted (uuid E (drawn w) +:+ ".json")
      (sent_command E agentComm target_agent_id command None w) files w in
  ∃ s w',
    send_command E agentComm target_agent_id command session window pane w =
      (Ok (mkCallToolResult s false), w') ∧
    messages w' =
      Some (<[uuid E (drawn w) +:+ ".json" :=
                mkFile (clock w)
                  (Some (JObj (sent_command E agentComm target_agent_id command None w)))]>
              files) ∧
    match found E (Some (VStr target_agent_id)) written with
    | JObj agent =>
        if truthy (agent !! "session")
        then ∃ rest,
               shell w' = shell w ++
                 send_keys_cmd (ToString (agent !! "session") +:+ ":0") command false :: rest
        else shell w' = shell w
    | _ => shell w' = shell w
    end.
Proof.
  intros Hdir Hsession written.
  assert (send_command E agentComm target_agent_id command session window pane =
          CallToolRequest_handler
            (sendCommandToAgent E agentComm target_agent_id command None)) as ->.
  { by destruct Hsession as [-> | ->]. }
  unfold CallToolRequest_handler, try_catch, bind.
  rewrite (sendCommandToAgent_run E agentComm target_agent_id command None w files Hdir).
  cbv zeta. fold written. unfold registered_session.
  destruct (found E (Some (VStr target_agent_id)) written) as [| | | |agent];
    try (by eexists _, _).
  destruct (truthy (agent !! "session")); [|by eexists _, _].
  rewrite deliver_run. simpl.
  destruct (exec_error E _); [by eexists _, _; split; [|split; [|eexists]]|].
  destruct (exec_error E _); by eexists _, _; split; [|split; [|eexists]].
Qed.


(** ** The samples *)

(** Proves that the rows of a sample are rows. *)
Ltac sample_rows :=
  unfold row, field;
  repeat first [apply Forall_nil_2 | apply Forall_cons_2 | apply conj];
  vm_compute; reflexivity.

Lemma listWindows_parses_witness :
  listWindows Sample.env (Screen.printing Screen.windows) (Some "dev") [] =
    (Return [TmuxWindow.mk "@0" (Some "editor") true (Some "dev") (Some 2);
             TmuxWindow.mk "@1" (Some "logs") false (Some "0") None],
     [list_windows_cmd (Some "dev")]).
Proof.
  rewrite (listWindows_parses Sample.env (Screen.printing Screen.windows) (Some "dev")
             Screen.windows []); [vm_compute; reflexivity..|].
  unfold Screen.windows. sample_rows.
Defined.

Lemma listPanes_parses_witness :
  listPanes Sample.env (Screen.printing Screen.panes) "dev:0" [] =
    (Return [TmuxPane.mk "%0" true (Some 120) (Some 40) (Some "vim");
             TmuxPane.mk "%1" false (Some 120) (Some 10) (Some "bash")],
     [list_panes_cmd "dev:0"]).
Proof.
  rewrite (listPanes_parses Sample.env (Screen.printing Screen.panes) "dev:0"
             Screen.panes []); [vm_compute; reflexivity..|].
  unfold Screen.panes. sample_rows.
Defined.

Lemma listSessions_parses_witness :
  listSessions Sample.env (Screen.printing Screen.sessions) [] =
    (Return [TmuxSession.mk "dev" (Some "$0") (Some 2) true "2023-11-14T22:13:20.000Z";
             TmuxSession.mk "ops" (Some "$1") (Some 1) false "2023-11-14T22:15:00.000Z"],
     [list_sessions_cmd]) ∧
  listSessions Sample.env (Screen.printing Screen.windows) [] =
    (Raise RangeError, [list_sessions_cmd]).
Proof.
  split.
  - destruct (listSessions_parses Sample.env (Screen.printing Screen.sessions)
                Screen.sessions []) as [Hvalid _];
      [vm_compute; reflexivity..|unfold Screen.sessions; sample_rows|].
    rewrite Hvalid; [vm_compute; reflexivity|].
    unfold Screen.sessions.
    repeat first [apply Forall_nil_2 | apply Forall_cons_2]; vm_compute; by eexists.
  - destruct (listSessions_parses Sample.env (Screen.printing Screen.windows)
                Screen.windows []) as [_ Hinvalid];
      [vm_compute; reflexivity..|unfold Screen.windows; sample_rows|].
    apply Hinvalid. right. left. vm_compute. reflexivity.
Defined.

Lemma getSessionInfo_parses_witness :
  getSessionInfo Sample.env
    (mkTerminal (λ _, String.concat ":" Screen.details +:+ LF) (λ _, "")) "dev" [] =
    (Return (SessionDetails.mk "dev" (Some "$0") (Some 2) true
               "2023-11-14T22:13:20.000Z" (Some 200) (Some 50)),
     [session_info_cmd "dev"]).
Proof.
  rewrite (getSessionInfo_parses Sample.env _ "dev" Screen.details []);
    [vm_compute; reflexivity..|].
  unfold Screen.details. sample_rows.
Defined.

Lemma tmux_failure_witness :
  listSessions Screen.down Screen.no_server [] = (Return [], [list_sessions_cmd]) ∧
  ∃ e, killSession Screen.down Screen.no_server "dev" [] =
         (Raise e, [kill_session_cmd "dev"]).
Proof.
  destruct (tmux_failure Screen.down Screen.no_server [])
    as (Hsessions & _ & _ & _ & _ & Hkill & _).
  split.
  - rewrite Hsessions; [vm_compute; reflexivity|by eexists].
  - eexists. rewrite Hkill; [reflexivity|by eexists].
Defined.

Lemma send_command_without_session_witness :
  ∃ w',
    send_command Sample.env Scenario.alice "../agents/id-bob" "ls" None (Some "3")
      (Some "%7") Scenario.stale =
      (Ok (mkCallToolResult
             "Command sent to agent ../agents/id-bob in tmux session dev: ls" false),
       w') ∧
    shell w' = [send_keys_cmd "dev:0" "ls" false; send_keys_cmd "dev:0" "" true].
Proof.
  destruct (send_command_without_session Sample.env Scenario.alice "../agents/id-bob" "ls"
              None (Some "3") (Some "%7") Scenario.stale ∅ eq_refl)
    as (s & w' & Hrun & _ & _); [by left|].
  exists w'. pose proof Hrun as Hrun'. vm_compute in Hrun'.
  injection Hrun' as <- <-. split; [exact Hrun|]. vm_compute. reflexivity.
Defined.


